(** * EnrichmentAnalyzer: the per-sample enrichment pipeline and its batch
    coordinators, embedded from [enrichment_pipeline.py] and
    [batch_processing.py].

    Python floats are IEEE-754 binary64 values, modelled by Rocq's primitive
    floats.  Everything the program obtains from outside (the spreadsheet
    reader, the enrichment provider, the file system, matplotlib, numpy's
    [log10]) is a field of a [World]; each answer may depend on the whole
    history of earlier interactions.  Python exceptions are values of [exn]
    carried by an error monad that also records the interactions. *)

From Stdlib Require Import List String Ascii ZArith Bool Arith Lia Floats.
From Stdlib Require Import Permutation DecimalString.
Import ListNotations.
Set Warnings "-inexact-float".
Open Scope string_scope.
Open Scope list_scope.

Notation "a +++ b" := (String.append a b) (at level 60, right associativity).

(** ** Strings *)

Definition str_nat (n : nat) : string := NilZero.string_of_uint (Nat.to_uint n).

Definition is_upper (c : ascii) : bool :=
  let n := nat_of_ascii c in ((65 <=? n) && (n <=? 90))%nat.
Definition is_lower (c : ascii) : bool :=
  let n := nat_of_ascii c in ((97 <=? n) && (n <=? 122))%nat.
Definition lower_ascii (c : ascii) : ascii :=
  if is_upper c then ascii_of_nat (nat_of_ascii c + 32) else c.
Definition upper_ascii (c : ascii) : ascii :=
  if is_lower c then ascii_of_nat (nat_of_ascii c - 32) else c.

Fixpoint str_map (f : ascii -> ascii) (s : string) : string :=
  match s with
  | EmptyString => EmptyString
  | String c s' => String (f c) (str_map f s')
  end.

(** [str.lower()] and [str.upper()], on ASCII text. *)
Definition lower (s : string) : string := str_map lower_ascii s.
Definition upper (s : string) : string := str_map upper_ascii s.

(** [s.replace(a, b)] for one-character [a] and [b]. *)
Definition replace_char (a b : ascii) (s : string) : string :=
  str_map (fun c => if Ascii.eqb c a then b else c) s.

(** [str.title()]: a letter that follows a letter is lowered, any other letter
    is raised. *)
Fixpoint title_from (prev_cased : bool) (s : string) : string :=
  match s with
  | EmptyString => EmptyString
  | String c s' =>
      let cased := is_upper c || is_lower c in
      String (if prev_cased then lower_ascii c else upper_ascii c)
             (title_from cased s')
  end.
Definition title (s : string) : string := title_from false s.

(** [s.split(sep)[0]]: the text before the first [sep]. *)
Fixpoint split_head (sep : ascii) (s : string) : string :=
  match s with
  | EmptyString => EmptyString
  | String c s' => if Ascii.eqb c sep then EmptyString else String c (split_head sep s')
  end.

(** ** Exceptions *)

(** The subclasses of [Exception] that the pipeline can meet.  [External]
    stands for whatever a collaborator raises. *)
Inductive exn :=
| KeyError (key : string)
| TypeError (msg : string)
| External (msg : string).

(** [str(e)] *)
Definition str_exn (e : exn) : string :=
  match e with
  | KeyError k => "'" +++ k +++ "'"
  | TypeError m => m
  | External m => m
  end.

Inductive Exc (A : Type) :=
| OK (a : A)
| Raise (e : exn).
Arguments OK {A} a.
Arguments Raise {A} e.

Definition exc_bind {A B} (x : Exc A) (f : A -> Exc B) : Exc B :=
  match x with
  | OK a => f a
  | Raise e => Raise e
  end.

Fixpoint exc_map {A B} (f : A -> Exc B) (l : list A) : Exc (list B) :=
  match l with
  | [] => OK []
  | a :: l' =>
      exc_bind (f a) (fun b => exc_bind (exc_map f l') (fun bs => OK (b :: bs)))
  end.

(** ** Data frames *)

Inductive cell :=
| CStr (s : string)
| CNum (x : float).

(** A missing value. *)
Definition NaN : cell := CNum nan.

(** A row is a record from column labels to cells. *)
Definition row := list (string * cell).

Record DataFrame := mkDF { columns : list string; rows : list row }.

(** [pd.DataFrame()] *)
Definition empty_frame : DataFrame := mkDF [] [].

(** [df.empty]: some axis has length zero. *)
Definition df_empty (df : DataFrame) : bool :=
  match columns df, rows df with
  | [], _ => true
  | _, [] => true
  | _, _ => false
  end.

Definition mem (c : string) (l : list string) : bool := existsb (String.eqb c) l.

Fixpoint row_get (r : row) (c : string) : cell :=
  match r with
  | [] => NaN
  | (k, v) :: r' => if String.eqb k c then v else row_get r' c
  end.

Fixpoint row_set (r : row) (c : string) (v : cell) : row :=
  match r with
  | [] => [(c, v)]
  | (k, x) :: r' => if String.eqb k c then (k, v) :: r' else (k, x) :: row_set r' c v
  end.

(** [df[c]] *)
Definition get_column (df : DataFrame) (c : string) : Exc (list cell) :=
  if mem c (columns df) then OK (map (fun r => row_get r c) (rows df))
  else Raise (KeyError c).

(** [df[c] = values] *)
Definition set_column (df : DataFrame) (c : string) (values : list cell) : DataFrame :=
  mkDF (if mem c (columns df) then columns df else columns df ++ [c])
       (map (fun rv => row_set (fst rv) c (snd rv)) (combine (rows df) values)).

(** [df[c] = v] for a scalar [v] *)
Definition set_column_scalar (df : DataFrame) (c : string) (v : cell) : DataFrame :=
  set_column df c (map (fun _ => v) (rows df)).

(** [df[mask]] *)
Definition df_mask (df : DataFrame) (mask : list bool) : DataFrame :=
  mkDF (columns df) (map fst (filter snd (combine (rows df) mask))).

(** [df.head(n)]: the first [n] rows, or all but the last [-n] when [n < 0]. *)
Definition df_head (df : DataFrame) (n : Z) : DataFrame :=
  mkDF (columns df)
       (if (0 <=? n)%Z then firstn (Z.to_nat n) (rows df)
        else firstn (List.length (rows df) - Z.to_nat (- n)) (rows df)).

(** [pd.concat([a, b], ignore_index=True)] *)
Definition concat (a b : DataFrame) : DataFrame :=
  mkDF (columns a ++ filter (fun c => negb (mem c (columns a))) (columns b))
       (rows a ++ rows b).

(** [series > y] and [series < y] raise on text. *)
Definition cell_gt (y : float) (c : cell) : Exc bool :=
  match c with
  | CNum x => OK (PrimFloat.ltb y x)
  | CStr _ => Raise (TypeError "'>' not supported between instances of 'str' and 'int'")
  end.

Definition cell_lt (y : float) (c : cell) : Exc bool :=
  match c with
  | CNum x => OK (PrimFloat.ltb x y)
  | CStr _ => Raise (TypeError "'<' not supported between instances of 'str' and 'float'")
  end.

(** [series == s] *)
Definition cell_eq_str (s : string) (c : cell) : bool :=
  match c with
  | CStr t => String.eqb t s
  | CNum _ => false
  end.

(** [np.where(mask, a, b)] *)
Definition np_where (mask : list bool) (a b : string) : list cell :=
  map (fun m : bool => if m then CStr a else CStr b) mask.

(** ** Python dictionaries, in insertion order *)

Definition dict (V : Type) := list (string * V).

Fixpoint dict_get {V} (d : dict V) (k : string) : option V :=
  match d with
  | [] => None
  | (k', v) :: d' => if String.eqb k' k then Some v else dict_get d' k
  end.

Fixpoint dict_set {V} (d : dict V) (k : string) (v : V) : dict V :=
  match d with
  | [] => [(k, v)]
  | (k', x) :: d' => if String.eqb k' k then (k', v) :: d' else (k', x) :: dict_set d' k v
  end.

(** [d.get(k, default)] *)
Definition dict_get_default {V} (d : dict V) (k : string) (default : V) : V :=
  match dict_get d k with
  | Some v => v
  | None => default
  end.

(** The values a result summary holds. *)
Inductive value :=
| VStr (s : string)
| VInt (n : nat).

(** ** The world and the monad of the pipeline *)

Inductive level := INFO | WARNING | ERROR.

(** What [gp.enrichr] returns: an object whose [results] is a table. *)
Record Enrichr := mkEnrichr { results : DataFrame }.

Inductive event :=
| EvLog (lv : level) (msg : string)
| EvPrint (msg : string)
| EvMkdir (parents : bool) (path : string)
| EvGlob (recursive : bool) (dir pattern : string)
| EvReadExcel (path : string)
| EvEnrichr (gene_list : list cell) (gene_sets : list string) (organism : string)
| EvToExcel (path : string) (df : DataFrame)
| EvSummaryToExcel (path : string) (records : list (dict value))
| EvBarplot (data : DataFrame) (plot_title : string)
| EvSavefig (path : string)
| EvRunEnrichment (gene_list : list cell) (gene_set : list string) (analysis_name : string).

Definition history := list event.

(** The collaborators: [pd.read_excel], [gp.enrichr], [Path.mkdir] (with its
    [parents] flag), [DataFrame.to_excel] for a result table and for the batch
    summary, the drawing calls and [plt.savefig], [Path.glob] and
    [Path.rglob], and [np.log10] on one number. *)
Record World := mkWorld {
  read_excel : history -> string -> Exc DataFrame;
  enrichr : history -> list cell -> list string -> string -> Exc Enrichr;
  mkdir : history -> bool -> string -> Exc unit;
  to_excel : history -> string -> DataFrame -> Exc unit;
  summary_to_excel : history -> string -> list (dict value) -> Exc unit;
  barplot : history -> DataFrame -> string -> Exc unit;
  savefig : history -> string -> Exc unit;
  glob : history -> string -> string -> list string;
  rglob : history -> string -> string -> list string;
  np_log10 : float -> float
}.

(** A computation reads the history so far and returns its outcome together
    with the events it added. *)
Definition M (A : Type) := history -> Exc A * list event.

Definition ret {A} (a : A) : M A := fun _ => (OK a, []).
Definition raise {A} (e : exn) : M A := fun _ => (Raise e, []).

Definition bind {A B} (m : M A) (f : A -> M B) : M B := fun h =>
  match m h with
  | (OK a, d1) => let (r, d2) := f a (h ++ d1) in (r, d1 ++ d2)
  | (Raise e, d1) => (Raise e, d1)
  end.

(** [try: m  except Exception as e: handler e] *)
Definition try_except {A} (m : M A) (handler : exn -> M A) : M A := fun h =>
  match m h with
  | (OK a, d1) => (OK a, d1)
  | (Raise e, d1) => let (r, d2) := handler e (h ++ d1) in (r, d1 ++ d2)
  end.

Definition lift {A} (x : Exc A) : M A := fun _ => (x, []).

(** An interaction: the world answers from the history, the event is recorded. *)
Definition interact {A} (answer : history -> Exc A) (ev : event) : M A :=
  fun h => (answer h, [ev]).

Definition emit (ev : event) : M unit := fun _ => (OK tt, [ev]).

Notation "x <- m ;; k" := (bind m (fun x => k))
  (at level 61, m at next level, right associativity).
Notation "m ;; k" := (bind m (fun _ => k))
  (at level 61, right associativity).

(** [for x in xs: s = body x s] *)
Fixpoint for_each {A S} (xs : list A) (body : A -> S -> M S) (s : S) : M S :=
  match xs with
  | [] => ret s
  | x :: xs' => s' <- body x s ;; for_each xs' body s'
  end.

Definition log (lv : level) (msg : string) : M unit := emit (EvLog lv msg).
Definition print (msg : string) : M unit := emit (EvPrint msg).

(** [Path(a) / b], shown as text. *)
Definition path_join (a b : string) : string := a +++ "/" +++ b.

(** [Path.stem] and [Path.with_suffix('')]: the suffix of a name starts at its
    last dot, unless that dot is the first or the last character. *)
Fixpoint rsplit_at (sep : ascii) (s : string) : option (string * string) :=
  match s with
  | EmptyString => None
  | String c s' =>
      match rsplit_at sep s' with
      | Some (a, b) => Some (String c a, b)
      | None => if Ascii.eqb c sep then Some (EmptyString, s') else None
      end
  end.

Definition is_nil (s : string) : bool :=
  match s with
  | EmptyString => true
  | _ => false
  end.

Definition stem_of_name (name : string) : string :=
  match rsplit_at "." name with
  | Some (a, b) => if is_nil a || is_nil b then name else a
  | None => name
  end.

Definition stem (path : string) : string :=
  match rsplit_at "/" path with
  | Some (_, name) => stem_of_name name
  | None => stem_of_name path
  end.

Definition with_suffix_empty (path : string) : string :=
  match rsplit_at "/" path with
  | Some (dir, name) => path_join dir (stem_of_name name)
  | None => stem_of_name path
  end.

(** ** The analyzer *)

Record EnrichmentAnalyzer := mkAnalyzer {
  organism : string;
  output_dir : string;
  libraries : dict (list string)
}.

Definition default_p_threshold : float := 0.05%float.
Definition default_top_n : Z := 10%Z.

Definition _get_libraries (organism : string) : dict (list string) :=
  if String.eqb (lower organism) "zebrafish" then
    [("go", ["GO_Biological_Process_2018"; "GO_Molecular_Function_2018";
             "GO_Cellular_Component_2018"]);
     ("pathways", ["WikiPathways_2018"; "KEGG_2019"])]
  else if String.eqb (lower organism) "human" then
    [("go", ["GO_Biological_Process_2021"; "GO_Molecular_Function_2021";
             "GO_Cellular_Component_2021"]);
     ("pathways", ["WikiPathways_2019_Human"; "KEGG_2021_Human"])]
  else
    [("go", ["GO_Biological_Process_2018"; "GO_Molecular_Function_2018";
             "GO_Cellular_Component_2018"]);
     ("pathways", ["WikiPathways_2018"; "KEGG_2019"])].

Section Pipeline.

Variable w : World.

Definition call_mkdir (parents : bool) (path : string) : M unit :=
  interact (fun h => mkdir w h parents path) (EvMkdir parents path).

Definition setup_directories (output_dir : string) : M unit :=
  for_each ["plots"; "go_results"; "pathway_results"; "summary"]
    (fun dir_names _ => call_mkdir true (path_join output_dir dir_names)) tt.

(** [EnrichmentAnalyzer.__init__] *)
Definition new_analyzer (organism output_dir : string) : M EnrichmentAnalyzer :=
  setup_directories output_dir ;;
  ret (mkAnalyzer organism output_dir (_get_libraries organism)).

(** [df[df[regulation_col] == label][gene_col].tolist()] *)
Definition genes_with (df : DataFrame) (regulation_col label gene_col : string)
  : Exc (list cell) :=
  exc_bind (get_column df regulation_col) (fun reg =>
  get_column (df_mask df (map (cell_eq_str label) reg)) gene_col).

(** The [if regulation_col not in df.columns] step of [load_degs]. *)
Definition derive_regulation (df : DataFrame) (regulation_col : string) : Exc DataFrame :=
  if mem regulation_col (columns df) then OK df
  else
    exc_bind (get_column df "log2FoldChange") (fun fc =>
    exc_bind (exc_map (cell_gt 0%float) fc) (fun positive =>
    OK (set_column df regulation_col (np_where positive "Upregulated" "Downregulated")))).

Definition load_degs (file_path gene_col regulation_col : string)
  : M (list cell * list cell) :=
  try_except
    (df <- interact (fun h => read_excel w h file_path) (EvReadExcel file_path) ;;
     log INFO ("Loaded " +++ str_nat (List.length (rows df)) +++ " DEGs from " +++ file_path) ;;
     df <- lift (derive_regulation df regulation_col) ;;
     up_genes <- lift (genes_with df regulation_col "Upregulated" gene_col) ;;
     down_genes <- lift (genes_with df regulation_col "Downregulated" gene_col) ;;
     log INFO ("Found " +++ str_nat (List.length up_genes) +++ " upregulated and "
               +++ str_nat (List.length down_genes) +++ " down regulated genes.") ;;
     ret (up_genes, down_genes))
    (fun e =>
       log ERROR ("Error loading DEGs from " +++ file_path +++ ": " +++ str_exn e) ;;
       raise e).

(** [EvRunEnrichment] marks the call itself, so that invocations can be
    counted; the other events are the program's own interactions. *)
Definition run_enrichment (self : EnrichmentAnalyzer) (gene_list : list cell)
    (gene_set : list string) (analysis_name : string) : M (option Enrichr) :=
  emit (EvRunEnrichment gene_list gene_set analysis_name) ;;
  match gene_list with
  | [] =>
      log WARNING ("Empty gene list for " +++ analysis_name) ;;
      ret None
  | _ :: _ =>
      try_except
        (log INFO ("Running " +++ analysis_name +++ " with "
                   +++ str_nat (List.length gene_list) +++ " genes.") ;;
         enr_result <- interact (fun h => enrichr w h gene_list gene_set (organism self))
                                (EvEnrichr gene_list gene_set (organism self)) ;;
         ret (Some enr_result))
        (fun e =>
           log ERROR ("Error running " +++ analysis_name +++ ": " +++ str_exn e) ;;
           ret None)
  end.

Definition filter_significant (results_df : option DataFrame) (p_threshold : float)
  : Exc DataFrame :=
  match results_df with
  | None => OK empty_frame
  | Some df =>
      if df_empty df then OK empty_frame
      else
        exc_bind (get_column df "Adjusted P-value") (fun ps =>
        exc_bind (exc_map (cell_lt p_threshold) ps) (fun mask =>
        OK (df_mask df mask)))
  end.

Definition save_results (self : EnrichmentAnalyzer) (res : option Enrichr)
    (filename subdir : string) : M unit :=
  match res with
  | None => log WARNING ("No results to save for " +++ filename)
  | Some r =>
      let output_path :=
        path_join (path_join (output_dir self) subdir) (filename +++ ".xlsx") in
      try_except
        (interact (fun h => to_excel w h output_path (results r))
                  (EvToExcel output_path (results r)) ;;
         log INFO ("Results saved to " +++ output_path))
        (fun e =>
           log ERROR ("Error saving results to " +++ output_path +++ ": " +++ str_exn e))
  end.

(** [np.log10(series)] *)
Definition series_log10 (s : list cell) : Exc (list float) :=
  exc_map (fun c =>
             match c with
             | CNum x => OK (np_log10 w x)
             | CStr _ => Raise (TypeError "loop of ufunc does not support argument 0 of type str")
             end) s.

(** The two [# Prepare data] blocks of [create_comparison_plot]. *)
Definition up_plot_data (up_results : DataFrame) (top_n : Z) : Exc DataFrame :=
  if negb (df_empty up_results) then
    let d := set_column_scalar (df_head up_results top_n) "direction" (CStr "Upregulated") in
    exc_bind (get_column d "Adjusted P-value") (fun ps =>
    exc_bind (series_log10 ps) (fun logs =>
    OK (set_column d "-log10(p-value)" (map (fun x => CNum (- x)%float) logs))))
  else OK empty_frame.

Definition down_plot_data (down_results : DataFrame) (top_n : Z) : Exc DataFrame :=
  if negb (df_empty down_results) then
    let d := set_column_scalar (df_head down_results top_n) "direction" (CStr "Downregulated") in
    exc_bind (get_column d "Adjusted P-value") (fun ps =>
    exc_bind (series_log10 ps) (fun logs =>
    OK (set_column d "-log10(p-value)" (map (fun x => CNum x) logs))))
  else OK empty_frame.

(** [barplot] stands for the drawing calls from [plt.figure] to
    [plt.tight_layout]. *)
Definition create_comparison_plot (self : EnrichmentAnalyzer)
    (up_results down_results : DataFrame) (plot_title filename : string) (top_n : Z)
  : M unit :=
  up <- lift (up_plot_data up_results top_n) ;;
  down <- lift (down_plot_data down_results top_n) ;;
  if df_empty up && df_empty down then
    log WARNING ("No data to plot for " +++ plot_title)
  else
    let combined_data := concat up down in
    if negb (df_empty combined_data) then
      interact (fun h => barplot w h combined_data plot_title)
               (EvBarplot combined_data plot_title) ;;
      let plot_path :=
        path_join (path_join (output_dir self) "plots") (filename +++ ".png") in
      interact (fun h => savefig w h plot_path) (EvSavefig plot_path) ;;
      log INFO ("Plot saved to " +++ plot_path)
    else ret tt.

(** The [# GO Enrichment Analysis] block of [analyze_sample]. *)
Definition go_enrichment (self : EnrichmentAnalyzer) (sample_name : string)
    (up_genes down_genes : list cell) : M (dict DataFrame) :=
  for_each ["Biological_Process"; "Molecular_Function"; "Cellular_Component"]
    (fun go_type go_results =>
       let library := "GO_" +++ go_type +++ "_2018" in
       up_enr <- run_enrichment self up_genes [library]
                   ("GO " +++ go_type +++ " upregulated") ;;
       go_results <-
         match up_enr with
         | Some enr =>
             save_results self up_enr (sample_name +++ "_up_GO_" +++ go_type) "go_results" ;;
             ret (dict_set go_results ("up_" +++ lower go_type) (results enr))
         | None => ret go_results
         end ;;
       down_enr <- run_enrichment self down_genes [library]
                     ("GO " +++ go_type +++ " downregulated") ;;
       match down_enr with
       | Some enr =>
           save_results self down_enr (sample_name +++ "_down_GO_" +++ go_type) "go_results" ;;
           ret (dict_set go_results ("down_" +++ lower go_type) (results enr))
       | None => ret go_results
       end)
    [].

(** The [# Pathway Enrichment Analysis] block of [analyze_sample]. *)
Definition pathway_enrichment (self : EnrichmentAnalyzer) (sample_name : string)
    (up_genes down_genes : list cell) : M (dict DataFrame) :=
  for_each ["WikiPathways_2018"; "KEGG_2019"]
    (fun pathway_db pathway_results =>
       let db_name := split_head "_" pathway_db in
       up_enr <- run_enrichment self up_genes [pathway_db] (db_name +++ " upregulated") ;;
       pathway_results <-
         match up_enr with
         | Some enr =>
             save_results self up_enr (sample_name +++ "_up_" +++ db_name) "pathway_results" ;;
             ret (dict_set pathway_results ("up_" +++ lower db_name) (results enr))
         | None => ret pathway_results
         end ;;
       down_enr <- run_enrichment self down_genes [pathway_db] (db_name +++ " downregulated") ;;
       match down_enr with
       | Some enr =>
           save_results self down_enr (sample_name +++ "_down_" +++ db_name) "pathway_results" ;;
           ret (dict_set pathway_results ("down_" +++ lower db_name) (results enr))
       | None => ret pathway_results
       end)
    [].

(** The [# GO plots] loop of [analyze_sample]. *)
Definition go_plots (self : EnrichmentAnalyzer) (sample_name : string)
    (p_threshold : float) (go_results : dict DataFrame) (results_summary : dict value)
  : M (dict value) :=
  for_each ["biological_process"; "molecular_function"; "cellular_component"]
    (fun go_type results_summary =>
       let up_key := "up_" +++ go_type in
       let down_key := "down_" +++ go_type in
       let up_data := dict_get_default go_results up_key empty_frame in
       let down_data := dict_get_default go_results down_key empty_frame in
       up_data_filtered <-
         lift (filter_significant (Some (dict_get_default go_results up_key empty_frame))
                                  p_threshold) ;;
       down_data_filtered <-
         lift (filter_significant (Some (dict_get_default go_results down_key empty_frame))
                                  p_threshold) ;;
       create_comparison_plot self up_data down_data
         (sample_name +++ " - GO " +++ title (replace_char "_" " " go_type))
         (sample_name +++ "_GO_" +++ go_type) default_top_n ;;
       create_comparison_plot self up_data_filtered down_data_filtered
         (sample_name +++ " - GO " +++ title (replace_char "_" " " go_type) +++ " (Significant)")
         (sample_name +++ "_GO_" +++ go_type +++ "_significant") default_top_n ;;
       let results_summary :=
         dict_set results_summary ("go_" +++ go_type +++ "_up_significant")
                  (VInt (List.length (rows up_data_filtered))) in
       ret (dict_set results_summary ("go_" +++ go_type +++ "_down_significant")
                     (VInt (List.length (rows down_data_filtered)))))
    results_summary.

(** The [# Pathway plots] loop of [analyze_sample]. *)
Definition pathway_plots (self : EnrichmentAnalyzer) (sample_name : string)
    (p_threshold : float) (pathway_results : dict DataFrame) (results_summary : dict value)
  : M (dict value) :=
  for_each ["wikipathways"; "kegg"]
    (fun db results_summary =>
       let up_key := "up_" +++ db in
       let down_key := "down_" +++ db in
       let up_data := dict_get_default pathway_results up_key empty_frame in
       let down_data := dict_get_default pathway_results down_key empty_frame in
       up_data_filtered <-
         lift (filter_significant (Some (dict_get_default pathway_results up_key empty_frame))
                                  p_threshold) ;;
       down_data_filtered <-
         lift (filter_significant (Some (dict_get_default pathway_results down_key empty_frame))
                                  p_threshold) ;;
       create_comparison_plot self up_data down_data
         (sample_name +++ " - " +++ upper db +++ " Pathways")
         (sample_name +++ "_" +++ db +++ "_pathways") default_top_n ;;
       create_comparison_plot self up_data_filtered down_data_filtered
         (sample_name +++ " - " +++ upper db +++ " Pathways (Significant)")
         (sample_name +++ "_" +++ db +++ "_pathways_significant") default_top_n ;;
       let results_summary :=
         dict_set results_summary (db +++ "_up_significant")
                  (VInt (List.length (rows up_data_filtered))) in
       ret (dict_set results_summary (db +++ "_down_significant")
                     (VInt (List.length (rows down_data_filtered)))))
    results_summary.

(** Everything [analyze_sample] does once the gene lists are loaded. *)
Definition analyze_loaded (self : EnrichmentAnalyzer) (sample_name : string)
    (p_threshold : float) (up_genes down_genes : list cell) : M (dict value) :=
  let results_summary :=
    [("sample_name", VStr sample_name);
     ("up_genes_count", VInt (List.length up_genes));
     ("down_genes_count", VInt (List.length down_genes));
     ("status", VStr "success")] in
  log INFO "Running GO enrichment analysis..." ;;
  go_results <- go_enrichment self sample_name up_genes down_genes ;;
  log INFO "Running pathway enrichment analysis..." ;;
  pathway_results <- pathway_enrichment self sample_name up_genes down_genes ;;
  log INFO "Creating comparison plots..." ;;
  results_summary <- go_plots self sample_name p_threshold go_results results_summary ;;
  results_summary <- pathway_plots self sample_name p_threshold pathway_results results_summary ;;
  log INFO ("Analysis completed for sample: " +++ sample_name) ;;
  ret results_summary.

(** The [try] around [load_degs] in [analyze_sample]: the gene lists, or the
    record returned from the [except] branch. *)
Definition load_or_fail (sample_name xlsx_path gene_col regulation_col : string)
  : M (list cell * list cell + dict value) :=
  try_except
    (genes <- load_degs xlsx_path gene_col regulation_col ;; ret (inl genes))
    (fun e =>
       log ERROR ("Failed to load DEGs for " +++ sample_name +++ ": " +++ str_exn e) ;;
       ret (inr [("status", VStr "failed"); ("error", VStr (str_exn e))])).

Definition analyze_sample (self : EnrichmentAnalyzer)
    (xlsx_path sample_name gene_col regulation_col : string) (p_threshold : float)
  : M (dict value) :=
  log INFO ("Starting analysis for sample: " +++ sample_name) ;;
  let sample_dir := path_join (output_dir self) sample_name in
  call_mkdir false sample_dir ;;
  loaded <- load_or_fail sample_name xlsx_path gene_col regulation_col ;;
  match loaded with
  | inr failed => ret failed
  | inl (up_genes, down_genes) =>
      analyze_loaded self sample_name p_threshold up_genes down_genes
  end.

(** [list(Path(d).glob(pattern))] and [list(Path(d).rglob(pattern))]: the
    world names the matches relative to [d]; each path found is [d / match]. *)
Definition list_files (recursive : bool) (d pattern : string) : M (list string) :=
  fun h => (OK (map (path_join d) ((if recursive then rglob w else glob w) h d pattern)),
            [EvGlob recursive d pattern]).

(** One turn of the loop of [batch_analyze]. *)
Definition batch_step (self : EnrichmentAnalyzer) (gene_col regulation_col : string)
    (p_threshold : float) (xlsx_file : string) (all_results : list (dict value))
  : M (list (dict value)) :=
  let sample_name := stem xlsx_file in
  log INFO ("Processing file: " +++ xlsx_file) ;;
  try_except
    (result <- analyze_sample self xlsx_file sample_name gene_col regulation_col p_threshold ;;
     ret (all_results ++ [result]))
    (fun e =>
       log ERROR ("Failed to process " +++ xlsx_file +++ ": " +++ str_exn e) ;;
       ret (all_results ++ [[("sample_name", VStr sample_name);
                             ("status", VStr "failed");
                             ("error", VStr (str_exn e))]])).

(** The summary frame is kept as the list of records it is built from. *)
Definition batch_analyze (self : EnrichmentAnalyzer)
    (input_dir pattern gene_col regulation_col : string) (p_threshold : float)
  : M (list (dict value)) :=
  xlsx_files <- list_files false input_dir pattern ;;
  match xlsx_files with
  | [] =>
      log ERROR ("No XLSX files found in " +++ input_dir +++ " with pattern " +++ pattern) ;;
      ret []
  | _ :: _ =>
      log INFO ("Found " +++ str_nat (List.length xlsx_files) +++ " files for batch analysis") ;;
      all_results <-
        for_each xlsx_files
          (batch_step self gene_col regulation_col p_threshold) [] ;;
      let summary_df := all_results in
      let summary_path :=
        path_join (path_join (output_dir self) "summary") "batch_analysis_summary.xlsx" in
      interact (fun h => summary_to_excel w h summary_path summary_df)
               (EvSummaryToExcel summary_path summary_df) ;;
      log INFO ("Batch analysis summary saved to " +++ summary_path) ;;
      ret summary_df
  end.

(** *** batch_processing.py *)

Fixpoint strip_prefix (pre s : string) : option string :=
  match pre, s with
  | EmptyString, _ => Some s
  | String a pre', String b s' => if Ascii.eqb a b then strip_prefix pre' s' else None
  | String _ _, EmptyString => None
  end.

(** [path.relative_to(base)] *)
Definition relative_to (path base : string) : Exc string :=
  match strip_prefix (base +++ "/") path with
  | Some rel => OK rel
  | None => Raise (External (path +++ " is not in the subpath of " +++ base))
  end.

(** [d[k]] *)
Definition getitem (d : dict value) (k : string) : Exc value :=
  match dict_get d k with
  | Some v => OK v
  | None => Raise (KeyError k)
  end.

Definition str_value (v : value) : string :=
  match v with
  | VStr s => s
  | VInt n => str_nat n
  end.

Definition is_success (r : dict value) : Exc bool :=
  exc_bind (getitem r "status") (fun st =>
  OK match st with
     | VStr s => String.eqb s "success"
     | VInt _ => false
     end).

Definition nl : string := String (ascii_of_nat 10) EmptyString.

(** ["=" * 50] *)
Definition banner : string := "==================================================".

(** One turn of the loop of [process_directory_structure]. *)
Definition directory_step (analyzer : EnrichmentAnalyzer) (base_path : string)
    (xlsx_file : string) (results_summary : list (dict value)) : M (list (dict value)) :=
  relative_path <- lift (relative_to xlsx_file base_path) ;;
  let sample_name := replace_char "/" "_" (with_suffix_empty relative_path) in
  print (nl +++ "Processing: " +++ xlsx_file) ;;
  print ("Sample name: " +++ sample_name) ;;
  try_except
    (result <- analyze_sample analyzer xlsx_file sample_name "gene" "regulation"
                 default_p_threshold ;;
     print ("✓ Completed: " +++ sample_name) ;;
     ret (results_summary ++ [result]))
    (fun e =>
       print ("✗ Failed: " +++ sample_name +++ " - " +++ str_exn e) ;;
       ret (results_summary ++ [[("sample_name", VStr sample_name);
                                 ("status", VStr "failed");
                                 ("error", VStr (str_exn e))]])).

(** The closing report of [process_directory_structure]. *)
Definition print_statistics (results_summary : list (dict value)) : M unit :=
  flags <- lift (exc_map is_success results_summary) ;;
  let successful := List.length (filter (fun b : bool => b) flags) in
  let failed := List.length results_summary - successful in
  print ("Successful analyses: " +++ str_nat successful) ;;
  print ("Failed analyses: " +++ str_nat failed) ;;
  if (0 <? successful)%nat then
    print (nl +++ "Successful samples:") ;;
    for_each results_summary
      (fun result _ =>
         ok <- lift (is_success result) ;;
         if ok : bool then
           name <- lift (getitem result "sample_name") ;;
           up <- lift (getitem result "up_genes_count") ;;
           down <- lift (getitem result "down_genes_count") ;;
           print ("   - " +++ str_value name +++ ": " +++ str_value up +++ " up, "
                  +++ str_value down +++ " down")
         else ret tt)
      tt
  else ret tt.

Definition process_directory_structure (base_dir output_dir : string)
  : M (option (list (dict value))) :=
  let base_path := base_dir in
  let output_path := output_dir in
  analyzer <- new_analyzer "human" output_path ;;
  xlsx_files <- list_files true base_path "*.xlsx" ;;
  match xlsx_files with
  | [] =>
      print ("No XLSX files found in " +++ base_dir) ;;
      ret None
  | _ :: _ =>
      print ("Found " +++ str_nat (List.length xlsx_files) +++ " XLSX files to process.") ;;
      results_summary <- for_each xlsx_files (directory_step analyzer base_path) [] ;;
      let summary_df := results_summary in
      let summary_path := path_join output_path "batch_summary.xlsx" in
      interact (fun h => summary_to_excel w h summary_path summary_df)
               (EvSummaryToExcel summary_path summary_df) ;;
      print (nl +++ banner) ;;
      print "BATCH PROCESSING COMPLETED" ;;
      print ("Results saved to " +++ output_path) ;;
      print ("Summary saved to " +++ summary_path) ;;
      print banner ;;
      print_statistics results_summary ;;
      ret (Some summary_df)
  end.

End Pipeline.

(** ** The remaining commands of batch_processing.py *)

(** [sub in s] *)
Fixpoint starts_with (sub s : string) : bool :=
  match sub, s with
  | EmptyString, _ => true
  | String a sub', String b s' => Ascii.eqb a b && starts_with sub' s'
  | String _ _, EmptyString => false
  end.

Fixpoint contains (sub s : string) : bool :=
  starts_with sub s
  || match s with
     | EmptyString => false
     | String _ s' => contains sub s'
     end.

Definition is_int (v : value) : bool :=
  match v with
  | VInt _ => true
  | VStr _ => false
  end.

Section Commands.

Variable w : World.

(** [quick_analysis]; [sample_name] is [None] when the caller leaves it out. *)
Definition quick_analysis (xlsx_file : string) (sample_name : option string)
    (output_dir : string) : M (dict value) :=
  let sample_name :=
    match sample_name with
    | None => stem xlsx_file
    | Some name => name
    end in
  print ("Running quick analysis on: " +++ xlsx_file) ;;
  print ("Sample name: " +++ sample_name) ;;
  print ("Output directory: " +++ output_dir) ;;
  analyzer <- new_analyzer w "human" output_dir ;;
  result <- analyze_sample w analyzer xlsx_file sample_name "gene" "regulation"
              default_p_threshold ;;
  ok <- lift (is_success result) ;;
  (if ok : bool then
     print (nl +++ "✓ Analysis completed successfully!") ;;
     up <- lift (getitem result "up_genes_count") ;;
     print ("Upregulated genes: " +++ str_value up) ;;
     down <- lift (getitem result "down_genes_count") ;;
     print ("Downregulated genes: " +++ str_value down) ;;
     for_each result
       (fun item _ =>
          if contains "significant" (fst item) && is_int (snd item) then
            print (title (replace_char "_" " " (fst item)) +++ ": " +++ str_value (snd item))
          else ret tt)
       tt
   else
     print ("✗ Analysis failed: "
            +++ str_value (dict_get_default result "error" (VStr "Unknown error")))) ;;
  ret result.

Definition template_row (gene : string) (p_val avg_log2FC pct1 pct2 p_val_adj : float)
    (regulation : string) : row :=
  [("gene", CStr gene); ("p_val", CNum p_val); ("avg_log2FC", CNum avg_log2FC);
   ("pct.1", CNum pct1); ("pct.2", CNum pct2); ("p_val_adj", CNum p_val_adj);
   ("regulation", CStr regulation)].

(** [pd.DataFrame(template_data)] *)
Definition template_df : DataFrame :=
  mkDF ["gene"; "p_val"; "avg_log2FC"; "pct.1"; "pct.2"; "p_val_adj"; "regulation"]
       [template_row "gene1" 0.001 2.5 0.8 0.1 0.01 "Upregulated";
        template_row "gene2" 0.01 (-1.8) 0.3 0.7 0.05 "Downregulated";
        template_row "gene3" 0.005 3.2 0.9 0.1 0.03 "Upregulated";
        template_row "gene4" 0.0001 (-2.1) 0.2 0.8 0.001 "Downregulated";
        template_row "gene5" 0.02 1.5 0.7 0.2 0.08 "Upregulated"]%float.

Definition create_template_xlsx : M DataFrame :=
  interact (fun h => to_excel w h "template_DEGs.xlsx" template_df)
           (EvToExcel "template_DEGs.xlsx" template_df) ;;
  print "Template file created: template_DEGs.xlsx" ;;
  print "This shows the expected format for your DEG files." ;;
  ret template_df.

End Commands.

(** ** A concrete world

    Three spreadsheets under [in]: one that cannot be read, one with a
    regulation column, one with only fold changes.  The provider answers every
    query with the same two terms, except for KEGG, where it fails. *)
Module Scenario.

Definition gene_row (g reg : string) : row := [("gene", CStr g); ("regulation", CStr reg)].
Definition fc_row (g : string) (fc : float) : row := [("gene", CStr g); ("log2FoldChange", CNum fc)].

Definition table_s1 : DataFrame :=
  mkDF ["gene"; "regulation"]
       [gene_row "tp53" "Upregulated"; gene_row "myc" "Downregulated";
        gene_row "egfr" "Upregulated"].

Definition table_s2 : DataFrame :=
  mkDF ["gene"; "log2FoldChange"]
       [fc_row "g1" 2.0; fc_row "g2" (-1.0); fc_row "g3" 0.5;
        fc_row "g4" (-3.0); fc_row "g5" 1.5; fc_row "g6" 0.0]%float.

(** The same gene reported twice, once in each direction. *)
Definition table_dup : DataFrame :=
  mkDF ["gene"; "regulation"]
       [gene_row "tp53" "Upregulated"; gene_row "tp53" "Downregulated";
        gene_row "myc" "Upregulated"].

Definition term_row (t : string) (p : float) : row :=
  [("Term", CStr t); ("Adjusted P-value", CNum p)].

Definition provider_table : DataFrame :=
  mkDF ["Term"; "Adjusted P-value"]
       [term_row "apoptosis" 0.001%float; term_row "cell cycle" 0.5%float].

(** [log10] at the values the scenario meets. *)
Definition log10_at (x : float) : float :=
  if PrimFloat.eqb x 0.001 then (-3.0)%float
  else if PrimFloat.eqb x 0.5 then (-0.3010299956639812)%float
  else if PrimFloat.eqb x 1 then 0%float
  else nan.

Definition world : World := {|
  read_excel := fun _ path =>
    if String.eqb path "in/s1.xlsx" then OK table_s1
    else if String.eqb path "in/s2.xlsx" then OK table_s2
    else if String.eqb path "in/dup.xlsx" then OK table_dup
    else Raise (External "File is not a zip file");
  enrichr := fun _ _ gene_sets _ =>
    if mem "KEGG_2019" gene_sets then Raise (External "Error sending gene list, try again later")
    else OK (mkEnrichr provider_table);
  mkdir := fun _ _ _ => OK tt;
  to_excel := fun _ _ _ => OK tt;
  summary_to_excel := fun _ _ _ => OK tt;
  barplot := fun _ _ _ => OK tt;
  savefig := fun _ _ => OK tt;
  glob := fun _ _ _ => ["bad.xlsx"; "s1.xlsx"; "s2.xlsx"];
  rglob := fun _ _ _ => ["bad.xlsx"; "condA/s1.xlsx"; "condB/s2.xlsx"];
  np_log10 := log10_at
|}.

Definition analyzer : EnrichmentAnalyzer := mkAnalyzer "human" "out" (_get_libraries "human").

End Scenario.

(** ** Notions the properties are stated with *)

(** A table as the provider returns it: the adjusted p-values are there, and
    they are numbers. *)
Definition is_number (c : cell) : bool :=
  match c with
  | CNum _ => true
  | CStr _ => false
  end.

Definition result_table (df : DataFrame) : bool :=
  mem "Adjusted P-value" (columns df)
  && forallb (fun r => is_number (row_get r "Adjusted P-value")) (rows df).

Definition adjusted_p (r : row) : float :=
  match row_get r "Adjusted P-value" with
  | CNum p => p
  | CStr _ => nan
  end.

(** [r] passes the filter at [threshold]: its adjusted p-value is strictly
    below. *)
Definition significant (threshold : float) (r : row) : bool :=
  PrimFloat.ltb (adjusted_p r) threshold.

(** The bar lengths of a plot frame. *)
Definition magnitudes (d : DataFrame) : list cell :=
  map (fun r => row_get r "-log10(p-value)") (rows d).

(** The gene column of a table, row by row. *)
Definition gene_column (df : DataFrame) (gene_col : string) : list cell :=
  map (fun r => row_get r gene_col) (rows df).

(** The regulation column is there and holds only the two directions. *)
Definition valid_regulation (df : DataFrame) (regulation_col : string) : bool :=
  mem regulation_col (columns df)
  && forallb (fun r => cell_eq_str "Upregulated" (row_get r regulation_col)
                       || cell_eq_str "Downregulated" (row_get r regulation_col))
             (rows df).

(** The fold-change column is there and holds only numbers. *)
Definition numeric_fold_change (df : DataFrame) : bool :=
  mem "log2FoldChange" (columns df)
  && forallb (fun r => is_number (row_get r "log2FoldChange")) (rows df).

Definition fold_change (r : row) : float :=
  match row_get r "log2FoldChange" with
  | CNum x => x
  | CStr _ => nan
  end.

Definition disjoint {A} (l1 l2 : list A) : Prop :=
  forall a, ~ (In a l1 /\ In a l2).

(** What a trace shows of the enrichment queries: the calls of
    [run_enrichment] and the requests that reach the provider. *)
Inductive call :=
| Invocation (gene_list : list cell) (gene_set : list string) (analysis_name : string)
| Query (gene_list : list cell) (gene_sets : list string) (organism : string).

Definition call_of (ev : event) : list call :=
  match ev with
  | EvRunEnrichment g s n => [Invocation g s n]
  | EvEnrichr g s o => [Query g s o]
  | _ => []
  end.

Definition calls (d : list event) : list call := flat_map call_of d.

Definition is_invocation (c : call) : bool :=
  match c with
  | Invocation _ _ _ => true
  | Query _ _ _ => false
  end.

Definition invocations (d : list event) : list call := filter is_invocation (calls d).
Definition queries (d : list event) : list call :=
  filter (fun c => negb (is_invocation c)) (calls d).

Definition call_libraries (c : call) : list string :=
  match c with
  | Invocation _ s _ => s
  | Query _ s _ => s
  end.

(** A computation whose trace shows the calls [c], however it ends. *)
Definition emits {A} (m : M A) (c : list call) : Prop :=
  forall h, calls (snd (m h)) = c.

(** A computation that never raises. *)
Definition total {A} (m : M A) : Prop :=
  forall h, exists a, fst (m h) = OK a.

(** The five gene-set categories of [analyze_sample], each with the name its
    queries are logged under. *)
Definition categories : list (string * string) :=
  [("GO_Biological_Process_2018", "GO Biological_Process");
   ("GO_Molecular_Function_2018", "GO Molecular_Function");
   ("GO_Cellular_Component_2018", "GO Cellular_Component");
   ("WikiPathways_2018", "WikiPathways");
   ("KEGG_2019", "KEGG")].

(** One call of [run_enrichment]: the invocation, and the request it sends
    when the gene list is not empty. *)
Definition run_calls (organism : string) (gene_list : list cell)
    (gene_set : list string) (analysis_name : string) : list call :=
  Invocation gene_list gene_set analysis_name
  :: match gene_list with
     | [] => []
     | _ :: _ => [Query gene_list gene_set organism]
     end.

(** Per category, the up-regulated genes and then the down-regulated genes. *)
Definition expected_calls (organism : string) (up_genes down_genes : list cell)
  : list call :=
  flat_map (fun cat : string * string =>
              run_calls organism up_genes [fst cat] (snd cat +++ " upregulated")
              ++ run_calls organism down_genes [fst cat] (snd cat +++ " downregulated"))
           categories.

(** The record a batch coordinator writes for a sample whose analysis raised. *)
Definition failed_record (sample_name : string) (e : exn) : dict value :=
  [("sample_name", VStr sample_name); ("status", VStr "failed");
   ("error", VStr (str_exn e))].

(** [o] is the outcome of analysing [xlsx_file] at some moment after [h]:
    what the analyzer returned, or the failed record of what it raised. *)
Definition outcome_from (w : World) (self : EnrichmentAnalyzer)
    (gene_col regulation_col : string) (p_threshold : float) (h : history)
    (xlsx_file sample_name : string) (o : dict value) : Prop :=
  exists d0,
    match fst (analyze_sample w self xlsx_file sample_name gene_col regulation_col
                 p_threshold (h ++ d0)) with
    | OK r => o = r
    | Raise e => o = failed_record sample_name e
    end.

(** A file that the reader rejects whenever it is asked. *)
Definition unreadable (w : World) (path : string) : Prop :=
  forall h, exists e, read_excel w h path = Raise e.

(** A file whose analysis runs to the end whenever it is started. *)
Definition analyzable (w : World) (self : EnrichmentAnalyzer)
    (gene_col regulation_col : string) (p_threshold : float)
    (xlsx_file sample_name : string) : Prop :=
  forall h, exists r,
    fst (analyze_sample w self xlsx_file sample_name gene_col regulation_col
           p_threshold h) = OK r
    /\ dict_get r "status" = Some (VStr "success").

(** An outcome as the batch claims describe it: it belongs to the file, it is
    failed with an error text when the file cannot be read, and it is a
    success when the file can be analysed. *)
Definition isolated_outcome (w : World) (self : EnrichmentAnalyzer)
    (gene_col regulation_col : string) (p_threshold : float) (h : history)
    (xlsx_file sample_name : string) (o : dict value) : Prop :=
  outcome_from w self gene_col regulation_col p_threshold h xlsx_file sample_name o
  /\ (unreadable w xlsx_file ->
      dict_get o "status" = Some (VStr "failed")
      /\ exists msg, dict_get o "error" = Some (VStr msg))
  /\ (analyzable w self gene_col regulation_col p_threshold xlsx_file sample_name ->
      dict_get o "status" = Some (VStr "success")).

(** The sample name [process_directory_structure] gives to a match. *)
Definition directory_sample_name (relative_path : string) : string :=
  replace_char "/" "_" (with_suffix_empty relative_path).

(** More cases for the properties below. *)
Module Cases.

(** A table whose regulation column spells one direction in lower case. *)
Definition table_mixed : DataFrame :=
  mkDF ["gene"; "regulation"]
       [Scenario.gene_row "tp53" "Upregulated"; Scenario.gene_row "myc" "upregulated";
        Scenario.gene_row "egfr" "Downregulated"].

(** A table with neither a regulation nor a fold-change column. *)
Definition table_bare : DataFrame :=
  mkDF ["gene"; "p_val"] [[("gene", CStr "tp53"); ("p_val", CNum 0.001%float)]].

(** A table whose regulation column uses labels of its own. *)
Definition table_unlabelled : DataFrame :=
  mkDF ["gene"; "regulation"]
       [Scenario.gene_row "tp53" "up"; Scenario.gene_row "myc" "down"].

(** A provider table without the adjusted p-values. *)
Definition table_no_padj : DataFrame :=
  mkDF ["Term"; "P-value"] [[("Term", CStr "apoptosis"); ("P-value", CNum 0.001%float)]].

(** The scenario's world with other spreadsheets, a file system that refuses
    to make [pathway_results], and a disk that rejects result tables. *)
Definition world : World := {|
  read_excel := fun _ path =>
    if String.eqb path "in/mixed.xlsx" then OK table_mixed
    else if String.eqb path "in/bare.xlsx" then OK table_bare
    else if String.eqb path "in/unlabelled.xlsx" then OK table_unlabelled
    else if String.eqb path "template_DEGs.xlsx" then OK template_df
    else if String.eqb path "in/s1.xlsx" then OK Scenario.table_s1
    else Raise (External "File is not a zip file");
  enrichr := enrichr Scenario.world;
  mkdir := fun _ _ path =>
    if String.eqb path "locked/pathway_results" then Raise (External "Permission denied")
    else OK tt;
  to_excel := fun _ _ _ => Raise (External "No space left on device");
  summary_to_excel := fun _ _ _ => OK tt;
  barplot := fun _ _ _ => OK tt;
  savefig := fun _ _ => Raise (External "No space left on device");
  glob := fun _ _ _ => [];
  rglob := fun _ d _ => if String.eqb d "empty" then [] else ["bad.xlsx"; "condA/s1.xlsx"];
  np_log10 := Scenario.log10_at
|}.

End Cases.

(** No error was logged in [d]. *)
Definition no_error_logged (d : list event) : Prop :=
  forall msg, ~ In (EvLog ERROR msg) d.

(** The events of making [dirs] with [parents=True]. *)
Definition mkdir_events (dirs : list string) : list event := map (EvMkdir true) dirs.

(** The four directories the constructor makes under [output_dir]. *)
Definition output_dirs (output_dir : string) : list string :=
  map (path_join output_dir) ["plots"; "go_results"; "pathway_results"; "summary"].


(** The ten counted keys of a success record, in the order they are set. *)
Definition count_keys : list string :=
  ["go_biological_process_up_significant"; "go_biological_process_down_significant";
   "go_molecular_function_up_significant"; "go_molecular_function_down_significant";
   "go_cellular_component_up_significant"; "go_cellular_component_down_significant";
   "wikipathways_up_significant"; "wikipathways_down_significant";
   "kegg_up_significant"; "kegg_down_significant"].

(** A success record with the given counts of significant terms. *)
Definition success_record (sample_name : string) (n_up n_down : nat) (counts : list nat)
  : dict value :=
  [("sample_name", VStr sample_name); ("up_genes_count", VInt n_up);
   ("down_genes_count", VInt n_down); ("status", VStr "success")]
  ++ combine count_keys (map VInt counts).

(** The record [analyze_sample] returns when loading raised [e]. *)
Definition load_failure_record (e : exn) : dict value :=
  [("status", VStr "failed"); ("error", VStr (str_exn e))].

(** States linked by one step per item. *)
Fixpoint chain {A S} (R : A -> S -> S -> Prop) (xs : list A) (s s' : S) : Prop :=
  match xs with
  | [] => s' = s
  | x :: xs' => exists s1, R x s s1 /\ chain R xs' s1 s'
  end.

(** The provider refuses every request. *)
Definition provider_down (w : World) : Prop :=
  forall h g s o, exists e, enrichr w h g s o = Raise e.

(** Files written and charts drawn or saved. *)
Definition is_artifact (ev : event) : bool :=
  match ev with
  | EvToExcel _ _ | EvBarplot _ _ | EvSavefig _ => true
  | _ => false
  end.

Definition artifacts (d : list event) : list event := filter is_artifact d.

(** A record that counts as a success in the closing report. *)
Definition counts_as_success (r : dict value) : bool :=
  match dict_get r "status" with
  | Some (VStr s) => String.eqb s "success"
  | _ => false
  end.

(** The three shapes of record a batch can hold. *)
Definition reportable (r : dict value) : Prop :=
  (exists e, r = load_failure_record e)
  \/ (exists name e, r = failed_record name e)
  \/ (exists name n_up n_down counts, r = success_record name n_up n_down counts).

(** [c in s] for one character. *)
Fixpoint has_char (c : ascii) (s : string) : bool :=
  match s with
  | EmptyString => false
  | String x s' => Ascii.eqb x c || has_char c s'
  end.

(** A file name: not empty, no slash. *)
Definition is_name (s : string) : bool := negb (is_nil s) && negb (has_char "/" s).

(** An extension without its dot: not empty, no slash, no further dot. *)
Definition is_extension (s : string) : bool :=
  negb (is_nil s) && negb (has_char "/" s) && negb (has_char "." s).

(** What one query gives when the provider's answer [answer] depends on the
    request alone: nothing for an empty gene list or a refusal, otherwise the
    answer. *)
Definition query_result (answer : list cell -> list string -> string -> Exc Enrichr)
    (organism : string) (gene_list : list cell) (library : string) : option Enrichr :=
  match gene_list with
  | [] => None
  | _ :: _ =>
      match answer gene_list [library] organism with
      | OK enr => Some enr
      | Raise _ => None
      end
  end.

(** The number of significant terms of a query's table; none without a
    table. *)
Definition significant_count (threshold : float) (res : option Enrichr) : nat :=
  match res with
  | Some enr => List.length (filter (significant threshold) (rows (results enr)))
  | None => 0
  end.

(** [store[k] = enr.results] when there is a result. *)
Definition keep (store : dict DataFrame) (k : string) (res : option Enrichr)
  : dict DataFrame :=
  match res with
  | Some enr => dict_set store k (results enr)
  | None => store
  end.

(** The provider answers from the request alone, and with result tables. *)
Definition answers_with (w : World)
    (answer : list cell -> list string -> string -> Exc Enrichr) : Prop :=
  (forall h g s o, enrichr w h g s o = answer g s o)
  /\ (forall g s o enr, answer g s o = OK enr -> result_table (results enr) = true).

(** * Properties *)

(** ** Rows, frames and the error monad *)

Lemma row_get_set_same (r : row) (c : string) (v : cell) :
  row_get (row_set r c v) c = v.
Proof.
  induction r as [|[k x] r IH]; simpl.
  - now rewrite String.eqb_refl.
  - destruct (String.eqb k c) eqn:E; simpl; rewrite E; auto.
Qed.

Lemma row_get_set_other (r : row) (c c' : string) (v : cell) :
  c <> c' -> row_get (row_set r c v) c' = row_get r c'.
Proof.
  intros Hne. induction r as [|[k x] r IH]; simpl.
  - destruct (String.eqb c c') eqn:E; auto.
    apply String.eqb_eq in E. contradiction.
  - destruct (String.eqb k c) eqn:E; simpl.
    + apply String.eqb_eq in E. subst k.
      destruct (String.eqb c c') eqn:E'; auto.
      apply String.eqb_eq in E'. contradiction.
    + now rewrite IH.
Qed.

Lemma exc_map_ok {A B} (f : A -> Exc B) (g : A -> B) (l : list A) :
  (forall a, In a l -> f a = OK (g a)) -> exc_map f l = OK (map g l).
Proof.
  induction l as [|a l IH]; intros H; simpl; auto.
  rewrite (H a (or_introl eq_refl)); simpl.
  rewrite IH by (intros; apply H; now right). reflexivity.
Qed.

Lemma mask_filter {A} (p : A -> bool) (l : list A) :
  map fst (filter snd (combine l (map p l))) = filter p l.
Proof.
  induction l as [|a l IH]; simpl; auto.
  destruct (p a); simpl; now rewrite IH.
Qed.

Lemma mask_filter_via {A B} (g : A -> B) (q : B -> bool) (l : list A) :
  map fst (filter snd (combine l (map q (map g l)))) = filter (fun a => q (g a)) l.
Proof. rewrite map_map. apply mask_filter. Qed.

Lemma set_column_values (c : string) :
  forall rs values,
    List.length values = List.length rs ->
    map (fun r => row_get r c)
        (map (fun rv => row_set (fst rv) c (snd rv)) (combine rs values)) = values.
Proof.
  induction rs as [|r rs IH]; intros [|v values] Hlen; simpl in *; try discriminate; auto.
  rewrite row_get_set_same, IH; auto.
Qed.

Lemma result_table_rows (df : DataFrame) :
  result_table df = true ->
  forall r, In r (rows df) -> row_get r "Adjusted P-value" = CNum (adjusted_p r).
Proof.
  unfold result_table. intros H r Hr.
  apply andb_prop in H as [_ H]. rewrite forallb_forall in H.
  specialize (H r Hr). unfold adjusted_p.
  destruct (row_get r "Adjusted P-value"); simpl in H; congruence.
Qed.

(** ** The significance filter *)

(** C9. The filter keeps exactly the rows whose adjusted p-value is strictly
    below the threshold, in their order and with the columns unchanged; on a
    missing result and on an empty table it returns the empty table; it raises
    in none of these cases. *)
Theorem filter_significant_exact (df : DataFrame) (threshold : float) :
  filter_significant None threshold = OK empty_frame
  /\ (df_empty df = true -> filter_significant (Some df) threshold = OK empty_frame)
  /\ (result_table df = true ->
      exists out,
        filter_significant (Some df) threshold = OK out
        /\ rows out = filter (significant threshold) (rows df)
        /\ (df_empty df = false -> columns out = columns df)).
Proof.
  split; [reflexivity|]. split.
  - intros He. unfold filter_significant. now rewrite He.
  - intros Ht. unfold filter_significant.
    destruct (df_empty df) eqn:He.
    + exists empty_frame. split; [reflexivity|]. split; [|discriminate].
      unfold df_empty in He. unfold result_table in Ht.
      destruct (columns df); [discriminate|].
      destruct (rows df); [reflexivity|discriminate].
    + pose proof (result_table_rows df Ht) as Hrows.
      unfold result_table in Ht. apply andb_prop in Ht as [Hc _].
      unfold get_column. rewrite Hc. simpl.
      rewrite (exc_map_ok _ (fun c => match c with
                                      | CNum x => PrimFloat.ltb x threshold
                                      | CStr _ => false
                                      end)).
      * simpl. eexists. split; [reflexivity|]. split; [|reflexivity].
        simpl. rewrite mask_filter_via. apply filter_ext_in.
        intros r Hr. unfold significant. now rewrite (Hrows r Hr).
      * intros c Hc'. apply in_map_iff in Hc' as [r [<- Hr]].
        now rewrite (Hrows r Hr).
Qed.

(** The provider table of the scenario at the default threshold: one of its
    two rows passes. *)
Lemma filter_significant_exact_witness :
  result_table Scenario.provider_table = true
  /\ exists out,
       filter_significant (Some Scenario.provider_table) default_p_threshold = OK out
       /\ rows out = [Scenario.term_row "apoptosis" 0.001%float].
Proof.
  split; [reflexivity|].
  destruct (filter_significant_exact Scenario.provider_table default_p_threshold)
    as [_ [_ H]].
  destruct (H eq_refl) as [out [H1 [H2 _]]].
  exists out. split; [exact H1|]. rewrite H2. reflexivity.
Defined.

(** ** The comparison plot *)

Lemma set_column_scalar_rows (df : DataFrame) (c : string) (v : cell) :
  rows (set_column_scalar df c v) = map (fun r => row_set r c v) (rows df).
Proof.
  unfold set_column_scalar, set_column; simpl.
  induction (rows df) as [|r rs IH]; simpl; auto. now rewrite IH.
Qed.

Lemma mem_set_column (df : DataFrame) (c c' : string) (vs : list cell) :
  mem c' (columns df) = true -> mem c' (columns (set_column df c vs)) = true.
Proof.
  intros H. unfold set_column; simpl.
  destruct (mem c (columns df)); auto.
  unfold mem in *. rewrite existsb_app, H. reflexivity.
Qed.

Lemma in_firstn {A} (x : A) (n : nat) (l : list A) :
  In x (firstn n l) -> In x l.
Proof.
  revert l. induction n as [|n IH]; intros l H; simpl in H.
  - contradiction.
  - destruct l as [|a l]; simpl in *; [contradiction|].
    destruct H as [->|H]; auto.
Qed.

Lemma head_rows_incl (df : DataFrame) (n : Z) :
  forall r, In r (rows (df_head df n)) -> In r (rows df).
Proof.
  intros r. unfold df_head; simpl.
  destruct (0 <=? n)%Z; apply in_firstn.
Qed.

Lemma result_table_empty_rows (df : DataFrame) :
  result_table df = true -> df_empty df = true -> rows df = [].
Proof.
  unfold result_table, df_empty. intros Ht He.
  destruct (columns df); [discriminate|].
  destruct (rows df); [reflexivity|discriminate].
Qed.

Lemma magnitudes_set_column (d : DataFrame) (vs : list cell) :
  List.length vs = List.length (rows d) ->
  magnitudes (set_column d "-log10(p-value)" vs) = vs.
Proof. intros H. unfold magnitudes, set_column; simpl. now apply set_column_values. Qed.

Lemma df_empty_set_column (d : DataFrame) (c : string) (vs : list cell) :
  rows d <> [] -> List.length vs = List.length (rows d) ->
  df_empty (set_column d c vs) = false.
Proof.
  intros Hr Hl. unfold df_empty, set_column; simpl.
  destruct (rows d) as [|r rs]; [congruence|].
  destruct vs as [|v vs]; [discriminate|]. simpl.
  destruct (mem c (columns d)) eqn:Em.
  - destruct (columns d); [discriminate|reflexivity].
  - destruct (columns d); reflexivity.
Qed.

Section PlotData.

Variable w : World.

(** Both [# Prepare data] blocks are this expression, with [post] the
    negation for the up table and nothing for the down table. *)
Lemma plot_data_magnitudes (df : DataFrame) (n : Z) (label : string)
    (post : float -> float) :
  result_table df = true ->
  exists d,
    (if negb (df_empty df) then
       let d := set_column_scalar (df_head df n) "direction" (CStr label) in
       exc_bind (get_column d "Adjusted P-value") (fun ps =>
       exc_bind (series_log10 w ps) (fun logs =>
       OK (set_column d "-log10(p-value)" (map (fun x => CNum (post x)) logs))))
     else OK empty_frame) = OK d
    /\ magnitudes d
       = map (fun r => CNum (post (np_log10 w (adjusted_p r)))) (rows (df_head df n))
    /\ (rows (df_head df n) <> [] -> df_empty d = false).
Proof.
  intros Ht. destruct (df_empty df) eqn:He; cbn [negb].
  - exists empty_frame. split; [reflexivity|].
    assert (Hr : rows (df_head df n) = []).
    { unfold df_head; simpl. rewrite (result_table_empty_rows df Ht He).
      destruct (0 <=? n)%Z; apply firstn_nil. }
    rewrite Hr. split; [reflexivity|congruence].
  - pose proof (result_table_rows df Ht) as Hrows.
    assert (Hc : mem "Adjusted P-value" (columns df) = true).
    { unfold result_table in Ht. now apply andb_prop in Ht as [Hc _]. }
    set (d := set_column_scalar (df_head df n) "direction" (CStr label)).
    assert (Hd : get_column d "Adjusted P-value"
                 = OK (map (fun r => CNum (adjusted_p r)) (rows (df_head df n)))).
    { unfold get_column.
      replace (mem "Adjusted P-value" (columns d)) with true
        by (symmetry; apply mem_set_column; exact Hc).
      f_equal. unfold d. rewrite set_column_scalar_rows, map_map.
      apply map_ext_in. intros r Hr.
      rewrite row_get_set_other by discriminate.
      apply Hrows. now apply head_rows_incl in Hr. }
    rewrite Hd. simpl. unfold series_log10.
    rewrite (exc_map_ok _ (fun c => np_log10 w match c with
                                               | CNum x => x
                                               | CStr _ => nan
                                               end)).
    + cbn [exc_bind].
      assert (Hlen : List.length
                       (map (fun x => CNum (post x))
                            (map (fun c => np_log10 w match c with
                                                      | CNum x => x
                                                      | CStr _ => nan
                                                      end)
                                 (map (fun r => CNum (adjusted_p r))
                                      (rows (df_head df n)))))
                     = List.length (rows d)).
      { rewrite !length_map. unfold d.
        rewrite set_column_scalar_rows, length_map. reflexivity. }
      eexists. split; [reflexivity|]. split.
      * rewrite magnitudes_set_column by exact Hlen.
        rewrite !map_map. reflexivity.
      * intros Hne. apply df_empty_set_column; [|exact Hlen].
        unfold d. rewrite set_column_scalar_rows.
        destruct (rows (df_head df n)) eqn:Er; [exfalso; exact (Hne Er)|discriminate].
    + intros c Hc'. apply in_map_iff in Hc' as [r [<- _]]. reflexivity.
Qed.

Lemma concat_nonempty (a b : DataFrame) :
  df_empty a && df_empty b = false -> df_empty (concat a b) = false.
Proof.
  unfold df_empty, concat; simpl.
  destruct (columns a) as [|ca cas], (rows a) as [|ra ras],
           (columns b) as [|cb cbs], (rows b) as [|rb rbs];
    simpl; try discriminate; try reflexivity.
  all: intros _; destruct (negb (mem cb (ca :: cas))); try reflexivity;
       destruct (cas ++ filter _ cbs); reflexivity.
Qed.

Lemma float_opp_positive (x : float) :
  PrimFloat.ltb x 0 = true -> PrimFloat.ltb 0 (- x) = true.
Proof.
  rewrite !ltb_spec, opp_spec.
  replace (Prim2SF 0) with (S754_zero false) by reflexivity.
  destruct (Prim2SF x) as [s|s| |s m e]; try destruct s; cbn; congruence.
Qed.

(** C6. For result tables [up_results] and [down_results], each truncated to
    [head(top_n)]: every up bar is the negated base-10 logarithm of the row's
    adjusted p-value and every down bar is the logarithm itself; the frame
    handed to the bar plot is the up rows followed by the down rows; and
    wherever the logarithm is negative the up bar is positive while the down
    bar is negative. *)
Theorem comparison_plot_magnitudes (self : EnrichmentAnalyzer)
    (up_results down_results : DataFrame) (plot_title filename : string)
    (top_n : Z) (h : history) :
  result_table up_results = true ->
  result_table down_results = true ->
  exists up down,
    up_plot_data w up_results top_n = OK up
    /\ down_plot_data w down_results top_n = OK down
    /\ magnitudes up
       = map (fun r => CNum (- np_log10 w (adjusted_p r))%float)
             (rows (df_head up_results top_n))
    /\ magnitudes down
       = map (fun r => CNum (np_log10 w (adjusted_p r)))
             (rows (df_head down_results top_n))
    /\ (df_empty up && df_empty down = false ->
        exists rest,
          snd (create_comparison_plot w self up_results down_results
                 plot_title filename top_n h)
          = EvBarplot (concat up down) plot_title :: rest
          /\ magnitudes (concat up down) = magnitudes up ++ magnitudes down)
    /\ (forall p, PrimFloat.ltb (np_log10 w p) 0 = true ->
                  PrimFloat.ltb 0 (- np_log10 w p) = true).
Proof.
  intros Hu Hd.
  destruct (plot_data_magnitudes up_results top_n "Upregulated" PrimFloat.opp Hu)
    as [up [Eu [Mu _]]].
  destruct (plot_data_magnitudes down_results top_n "Downregulated" (fun x => x) Hd)
    as [down [Ed [Md _]]].
  exists up, down.
  assert (Eu' : up_plot_data w up_results top_n = OK up) by exact Eu.
  assert (Ed' : down_plot_data w down_results top_n = OK down) by exact Ed.
  repeat split; auto.
  - intros Hne. unfold create_comparison_plot, bind, lift.
    rewrite Eu', Ed', Hne, (concat_nonempty up down Hne). simpl.
    unfold interact.
    destruct (barplot w _ _ _); simpl.
    + destruct (savefig w _ _); simpl; eexists; (split; [reflexivity|]);
        unfold magnitudes, concat; simpl; apply map_app.
    + eexists; split; [reflexivity|].
      unfold magnitudes, concat; simpl; apply map_app.
  - intros p. apply float_opp_positive.
Qed.

End PlotData.

(** The first row of the provider table, p = 0.001: the up bar is 3, the down
    bar is -3. *)
Lemma comparison_plot_magnitudes_witness :
  exists up down,
    up_plot_data Scenario.world Scenario.provider_table 1 = OK up
    /\ down_plot_data Scenario.world Scenario.provider_table 1 = OK down
    /\ magnitudes up = [CNum 3.0%float]
    /\ magnitudes down = [CNum (-3.0)%float].
Proof.
  destruct (comparison_plot_magnitudes Scenario.world Scenario.analyzer
              Scenario.provider_table Scenario.provider_table
              "s1 - GO Biological Process" "s1_GO_biological_process" 1 []
              eq_refl eq_refl)
    as [up [down [Eu [Ed [Mu [Md _]]]]]].
  exists up, down. repeat split; assumption.
Defined.

(** ** The loader *)

Lemma filter_map_comm {A B} (f : A -> B) (p : B -> bool) (l : list A) :
  filter p (map f l) = map f (filter (fun a => p (f a)) l).
Proof.
  induction l as [|a l IH]; simpl; auto.
  destruct (p (f a)); simpl; now rewrite IH.
Qed.

Lemma combine_map_self {A B C} (f : A -> B) (g : A * B -> C) (l : list A) :
  map g (combine l (map f l)) = map (fun a => g (a, f a)) l.
Proof. induction l as [|a l IH]; simpl; auto. now rewrite IH. Qed.

Lemma genes_with_ok (df : DataFrame) (regulation_col label gene_col : string) :
  mem regulation_col (columns df) = true ->
  mem gene_col (columns df) = true ->
  genes_with df regulation_col label gene_col
  = OK (map (fun r => row_get r gene_col)
            (filter (fun r => cell_eq_str label (row_get r regulation_col)) (rows df))).
Proof.
  intros Hr Hg. unfold genes_with, get_column. rewrite Hr. simpl. rewrite Hg.
  now rewrite mask_filter_via.
Qed.

Lemma partition_permutation {A B} (g : A -> B) (p q : A -> bool) (l : list A) :
  (forall a, In a l -> q a = negb (p a)) ->
  Permutation (map g (filter p l) ++ map g (filter q l)) (map g l).
Proof.
  induction l as [|a l IH]; intros H; simpl; auto.
  rewrite (H a (or_introl eq_refl)).
  assert (IH' := IH (fun b Hb => H b (or_intror Hb))).
  destruct (p a); simpl.
  - now constructor.
  - apply Permutation_sym, Permutation_cons_app, Permutation_sym, IH'.
Qed.

Lemma NoDup_app_disjoint {A} (l1 l2 : list A) :
  NoDup (l1 ++ l2) -> disjoint l1 l2.
Proof.
  induction l1 as [|x l1 IH]; simpl; intros H a [H1 H2]; auto.
  inversion H as [|? ? Hx Hnd]; subst.
  destruct H1 as [->|H1].
  - apply Hx, in_or_app. now right.
  - exact (IH Hnd a (conj H1 H2)).
Qed.

Lemma float_le0_not_gt0 (x : float) :
  PrimFloat.leb x 0 = true -> PrimFloat.ltb 0 x = false.
Proof.
  rewrite leb_spec, ltb_spec.
  replace (Prim2SF 0) with (S754_zero false) by reflexivity.
  destruct (Prim2SF x) as [s|s| |s m e]; try destruct s; cbn; congruence.
Qed.

Lemma mem_true_neq (c c' : string) (l : list string) :
  mem c l = true -> mem c' l = false -> c <> c'.
Proof. intros H H' ->. congruence. Qed.

Section Loader.

Variable w : World.

(** What [load_degs] does on a table that was read, when the two column
    look-ups succeed. *)
Lemma load_degs_read (file_path gene_col regulation_col : string) (h : history)
    (df df' : DataFrame) :
  read_excel w h file_path = OK df ->
  derive_regulation df regulation_col = OK df' ->
  mem regulation_col (columns df') = true ->
  mem gene_col (columns df') = true ->
  exists d,
    load_degs w file_path gene_col regulation_col h
    = (OK (map (fun r => row_get r gene_col)
               (filter (fun r => cell_eq_str "Upregulated" (row_get r regulation_col))
                       (rows df')),
           map (fun r => row_get r gene_col)
               (filter (fun r => cell_eq_str "Downregulated" (row_get r regulation_col))
                       (rows df'))), d).
Proof.
  intros Hread Hder Hr Hg.
  unfold load_degs, try_except, bind, interact, lift, log, emit, ret.
  rewrite Hread, Hder.
  rewrite !(genes_with_ok df' regulation_col _ gene_col Hr Hg).
  eexists. reflexivity.
Qed.

(** C4, as amended.  On a table that was read, whose regulation column holds
    only the two directions and whose gene column exists, the loader returns:
    every row goes to exactly one of the two lists, so the two lists together
    are a rearrangement of the gene column (their union is the set of gene
    rows); and the lists share no gene whenever no gene is repeated in the
    table. *)
Theorem load_degs_partition (file_path gene_col regulation_col : string)
    (h : history) (df : DataFrame) :
  read_excel w h file_path = OK df ->
  valid_regulation df regulation_col = true ->
  mem gene_col (columns df) = true ->
  exists up_genes down_genes d,
    load_degs w file_path gene_col regulation_col h = (OK (up_genes, down_genes), d)
    /\ Permutation (up_genes ++ down_genes) (gene_column df gene_col)
    /\ (forall g, In g (up_genes ++ down_genes) <-> In g (gene_column df gene_col))
    /\ (NoDup (gene_column df gene_col) -> disjoint up_genes down_genes).
Proof.
  intros Hread Hv Hg. unfold valid_regulation in Hv.
  apply andb_prop in Hv as [Hr Hall]. rewrite forallb_forall in Hall.
  assert (Hder : derive_regulation df regulation_col = OK df)
    by (unfold derive_regulation; now rewrite Hr).
  destruct (load_degs_read file_path gene_col regulation_col h df df Hread Hder Hr Hg)
    as [d Hload].
  assert (Hperm : Permutation
            (map (fun r => row_get r gene_col)
                 (filter (fun r => cell_eq_str "Upregulated" (row_get r regulation_col))
                         (rows df))
             ++ map (fun r => row_get r gene_col)
                    (filter (fun r => cell_eq_str "Downregulated"
                                        (row_get r regulation_col)) (rows df)))
            (gene_column df gene_col)).
  { apply partition_permutation. intros r Hin. specialize (Hall r Hin).
    destruct (row_get r regulation_col) as [s|x]; simpl in *; [|discriminate].
    destruct (String.eqb s "Upregulated") eqn:Eu; simpl in *.
    - apply String.eqb_eq in Eu. subst s. reflexivity.
    - exact Hall. }
  do 3 eexists. split; [exact Hload|]. split; [exact Hperm|]. split.
  - intros g. split; intros Hin.
    + exact (Permutation_in g Hperm Hin).
    + exact (Permutation_in g (Permutation_sym Hperm) Hin).
  - intros Hnd. apply NoDup_app_disjoint.
    exact (Permutation_NoDup (Permutation_sym Hperm) Hnd).
Qed.

(** C5. On a table that was read, without the regulation column and with a
    numeric [log2FoldChange] column, the loader succeeds; the up list holds
    the genes of the rows whose fold change is strictly positive and the down
    list the genes of all other rows; so a row with fold change above 0 is
    taken as up-regulated, and a row with fold change at most 0 (exactly 0
    included) as down-regulated. *)
Theorem load_degs_fold_change (file_path gene_col regulation_col : string)
    (h : history) (df : DataFrame) :
  read_excel w h file_path = OK df ->
  mem regulation_col (columns df) = false ->
  numeric_fold_change df = true ->
  mem gene_col (columns df) = true ->
  exists df' up_genes down_genes d,
    derive_regulation df regulation_col = OK df'
    /\ rows df'
       = map (fun r => row_set r regulation_col
                         (CStr (if PrimFloat.ltb 0 (fold_change r)
                                then "Upregulated" else "Downregulated")))
             (rows df)
    /\ load_degs w file_path gene_col regulation_col h = (OK (up_genes, down_genes), d)
    /\ up_genes = map (fun r => row_get r gene_col)
                      (filter (fun r => PrimFloat.ltb 0 (fold_change r)) (rows df))
    /\ down_genes = map (fun r => row_get r gene_col)
                        (filter (fun r => negb (PrimFloat.ltb 0 (fold_change r))) (rows df))
    /\ (forall r, In r (rows df) ->
          (PrimFloat.ltb 0 (fold_change r) = true -> In (row_get r gene_col) up_genes)
          /\ (PrimFloat.leb (fold_change r) 0 = true -> In (row_get r gene_col) down_genes)
          /\ (fold_change r = 0%float -> In (row_get r gene_col) down_genes)).
Proof.
  intros Hread Hr Hfc Hg. unfold numeric_fold_change in Hfc.
  apply andb_prop in Hfc as [Hc Hnum]. rewrite forallb_forall in Hnum.
  set (lab := fun r : row => CStr (if PrimFloat.ltb 0 (fold_change r)
                                   then "Upregulated" else "Downregulated")).
  set (df' := mkDF (columns df ++ [regulation_col])
                   (map (fun r => row_set r regulation_col (lab r)) (rows df))).
  assert (Hder : derive_regulation df regulation_col = OK df').
  { unfold derive_regulation, get_column. rewrite Hr, Hc. simpl.
    rewrite (exc_map_ok _ (fun c => PrimFloat.ltb 0 match c with
                                                    | CNum x => x
                                                    | CStr _ => nan
                                                    end)).
    - simpl. unfold set_column, np_where. rewrite Hr. unfold df'. f_equal. f_equal.
      rewrite !map_map.
      rewrite (combine_map_self _ (fun rv => row_set (fst rv) regulation_col (snd rv))).
      apply map_ext. intros r. simpl. unfold lab, fold_change.
      destruct (row_get r "log2FoldChange") as [t|x]; simpl;
        [|destruct (PrimFloat.ltb 0 x)]; reflexivity.
    - intros c Hin. apply in_map_iff in Hin as [r [<- Hin]].
      specialize (Hnum r Hin).
      destruct (row_get r "log2FoldChange"); [discriminate|reflexivity]. }
  assert (Hne : gene_col <> regulation_col) by exact (mem_true_neq _ _ _ Hg Hr).
  assert (Hr' : mem regulation_col (columns df') = true).
  { unfold df', mem; simpl. rewrite existsb_app. simpl.
    rewrite String.eqb_refl. apply orb_true_iff. right. reflexivity. }
  assert (Hg' : mem gene_col (columns df') = true).
  { unfold df', mem in *; simpl. rewrite existsb_app, Hg. reflexivity. }
  destruct (load_degs_read file_path gene_col regulation_col h df df' Hread Hder Hr' Hg')
    as [d Hload].
  assert (Hsel : forall label (p : row -> bool),
             (forall r, cell_eq_str label (lab r) = p r) ->
             map (fun r => row_get r gene_col)
                 (filter (fun r => cell_eq_str label (row_get r regulation_col)) (rows df'))
             = map (fun r => row_get r gene_col) (filter p (rows df))).
  { intros label p Hp. unfold df'; simpl.
    rewrite filter_map_comm, map_map.
    rewrite (filter_ext _ p).
    - apply map_ext. intros r. apply row_get_set_other. congruence.
    - intros r. rewrite row_get_set_same. apply Hp. }
  rewrite (Hsel "Upregulated" (fun r => PrimFloat.ltb 0 (fold_change r))) in Hload
    by (intros r; unfold lab; destruct (PrimFloat.ltb 0 (fold_change r)); reflexivity).
  rewrite (Hsel "Downregulated" (fun r => negb (PrimFloat.ltb 0 (fold_change r)))) in Hload
    by (intros r; unfold lab; destruct (PrimFloat.ltb 0 (fold_change r)); reflexivity).
  exists df'. do 3 eexists.
  split; [exact Hder|]. split; [reflexivity|]. split; [exact Hload|].
  split; [reflexivity|]. split; [reflexivity|].
  intros r Hin. repeat split.
  - intros Hpos. apply (in_map (fun r => row_get r gene_col)).
    apply filter_In. auto.
  - intros Hle. apply (in_map (fun r => row_get r gene_col)).
    apply filter_In. split; auto. now rewrite (float_le0_not_gt0 _ Hle).
  - intros Hz. apply (in_map (fun r => row_get r gene_col)).
    apply filter_In. split; auto. now rewrite Hz.
Qed.

End Loader.

(** C4, as first stated, fails: a gene that the table lists once as
    up-regulated and once as down-regulated is returned in both lists. *)
Lemma load_degs_lists_overlap :
  valid_regulation Scenario.table_dup "regulation" = true
  /\ exists up_genes down_genes,
       fst (load_degs Scenario.world "in/dup.xlsx" "gene" "regulation" [])
       = OK (up_genes, down_genes)
       /\ In (CStr "tp53") up_genes /\ In (CStr "tp53") down_genes.
Proof.
  split; [reflexivity|].
  exists [CStr "tp53"; CStr "myc"], [CStr "tp53"].
  split; [reflexivity|]. simpl. auto.
Qed.

(** The table with a regulation column: three genes, split two and one. *)
Lemma load_degs_partition_witness :
  exists up_genes down_genes d,
    load_degs Scenario.world "in/s1.xlsx" "gene" "regulation" []
    = (OK (up_genes, down_genes), d)
    /\ Permutation (up_genes ++ down_genes) [CStr "tp53"; CStr "myc"; CStr "egfr"].
Proof.
  destruct (load_degs_partition Scenario.world "in/s1.xlsx" "gene" "regulation" []
              Scenario.table_s1 eq_refl eq_refl eq_refl)
    as [up [down [d [H1 [H2 _]]]]].
  exists up, down, d. split; assumption.
Defined.

(** Fold changes 2.0, -1.0, 0.5, -3.0, 1.5, 0.0: three genes up, three down,
    the one at exactly 0 among the latter. *)
Lemma load_degs_fold_change_witness :
  exists up_genes down_genes d,
    load_degs Scenario.world "in/s2.xlsx" "gene" "regulation" []
    = (OK (up_genes, down_genes), d)
    /\ up_genes = [CStr "g1"; CStr "g3"; CStr "g5"]
    /\ down_genes = [CStr "g2"; CStr "g4"; CStr "g6"].
Proof.
  destruct (load_degs_fold_change Scenario.world "in/s2.xlsx" "gene" "regulation" []
              Scenario.table_s2 eq_refl eq_refl eq_refl eq_refl)
    as [df' [up [down [d [_ [_ [H1 [H2 [H3 _]]]]]]]]].
  exists up, down, d. repeat split; assumption.
Defined.

(** ** Traces *)

Lemma calls_app (d1 d2 : list event) : calls (d1 ++ d2) = calls d1 ++ calls d2.
Proof. apply flat_map_app. Qed.

Lemma emits_ext {A} (m : M A) (c c' : list call) : emits m c -> c = c' -> emits m c'.
Proof. now intros H <-. Qed.

Lemma emits_ret {A} (a : A) : emits (ret a) [].
Proof. intros h. reflexivity. Qed.

Lemma emits_raise {A} (e : exn) : emits (@raise A e) [].
Proof. intros h. reflexivity. Qed.

Lemma emits_lift {A} (x : Exc A) : emits (lift x) [].
Proof. intros h. reflexivity. Qed.

Lemma emits_emit (ev : event) : emits (emit ev) (call_of ev).
Proof. intros h. simpl. apply app_nil_r. Qed.

Lemma emits_log (lv : level) (msg : string) : emits (log lv msg) [].
Proof. intros h. reflexivity. Qed.

Lemma emits_print (msg : string) : emits (print msg) [].
Proof. intros h. reflexivity. Qed.

Lemma emits_interact {A} (answer : history -> Exc A) (ev : event) :
  emits (interact answer ev) (call_of ev).
Proof. intros h. simpl. apply app_nil_r. Qed.

Lemma emits_bind {A B} (m : M A) (f : A -> M B) (c1 c2 : list call) :
  total m -> emits m c1 -> (forall a, emits (f a) c2) -> emits (bind m f) (c1 ++ c2).
Proof.
  intros Ht Hm Hf h. unfold bind.
  destruct (Ht h) as [a Ha]. specialize (Hm h).
  destruct (m h) as [r d1]. simpl in *. subst r.
  specialize (Hf a (h ++ d1)). destruct (f a (h ++ d1)) as [r2 d2]. simpl in *.
  now rewrite calls_app, Hm, Hf.
Qed.

Lemma emits_bind_quiet {A B} (m : M A) (f : A -> M B) (c : list call) :
  emits m c -> (forall a, emits (f a) []) -> emits (bind m f) c.
Proof.
  intros Hm Hf h. unfold bind. specialize (Hm h).
  destruct (m h) as [[a|e] d1]; simpl in *; auto.
  specialize (Hf a (h ++ d1)). destruct (f a (h ++ d1)) as [r2 d2]. simpl in *.
  now rewrite calls_app, Hm, Hf, app_nil_r.
Qed.

Lemma emits_try {A} (m : M A) (handler : exn -> M A) (c : list call) :
  emits m c -> (forall e, emits (handler e) []) -> emits (try_except m handler) c.
Proof.
  intros Hm Hh h. unfold try_except. specialize (Hm h).
  destruct (m h) as [[a|e] d1]; simpl in *; auto.
  specialize (Hh e (h ++ d1)). destruct (handler e (h ++ d1)) as [r2 d2]. simpl in *.
  now rewrite calls_app, Hm, Hh, app_nil_r.
Qed.

Lemma total_ret {A} (a : A) : total (ret a).
Proof. intros h. now exists a. Qed.

Lemma total_emit (ev : event) : total (emit ev).
Proof. intros h. now exists tt. Qed.

Lemma total_log (lv : level) (msg : string) : total (log lv msg).
Proof. apply total_emit. Qed.

Lemma total_print (msg : string) : total (print msg).
Proof. apply total_emit. Qed.

Lemma total_bind {A B} (m : M A) (f : A -> M B) :
  total m -> (forall a, total (f a)) -> total (bind m f).
Proof.
  intros Hm Hf h. unfold bind. destruct (Hm h) as [a Ha].
  destruct (m h) as [r d1]. simpl in Ha. subst r.
  destruct (Hf a (h ++ d1)) as [b Hb].
  destruct (f a (h ++ d1)) as [r2 d2]. simpl in *. now exists b.
Qed.

Lemma total_try {A} (m : M A) (handler : exn -> M A) :
  (forall e, total (handler e)) -> total (try_except m handler).
Proof.
  intros Hh h. unfold try_except.
  destruct (m h) as [[a|e] d1]; simpl.
  - now exists a.
  - destruct (Hh e (h ++ d1)) as [b Hb].
    destruct (handler e (h ++ d1)) as [r2 d2]. simpl in *. now exists b.
Qed.

Lemma total_for_each {A S} (xs : list A) (body : A -> S -> M S) :
  (forall x s, total (body x s)) -> forall s, total (for_each xs body s).
Proof.
  intros Hb. induction xs as [|x xs IH]; intros s; simpl.
  - apply total_ret.
  - apply total_bind; auto.
Qed.

Lemma emits_for_each {A S} (xs : list A) (body : A -> S -> M S) (c : A -> list call) :
  (forall x s, total (body x s)) ->
  (forall x s, emits (body x s) (c x)) ->
  forall s, emits (for_each xs body s) (flat_map c xs).
Proof.
  intros Ht Hb. induction xs as [|x xs IH]; intros s; simpl.
  - apply emits_ret.
  - apply emits_bind; auto.
Qed.

Lemma emits_for_each_quiet {A S} (xs : list A) (body : A -> S -> M S) :
  (forall x s, emits (body x s) []) -> forall s, emits (for_each xs body s) [].
Proof.
  intros Hb. induction xs as [|x xs IH]; intros s; simpl.
  - apply emits_ret.
  - apply emits_bind_quiet; auto.
Qed.

(** Running a sequence whose first part returned. *)
Lemma bind_returned {A B} (m : M A) (f : A -> M B) (h : history) (a : A)
    (d1 : list event) :
  m h = (OK a, d1) ->
  bind m f h = (fst (f a (h ++ d1)), d1 ++ snd (f a (h ++ d1))).
Proof. intros H. unfold bind. rewrite H. now destruct (f a (h ++ d1)). Qed.

Lemma bind_raised {A B} (m : M A) (f : A -> M B) (h : history) (e : exn)
    (d1 : list event) :
  m h = (Raise e, d1) -> bind m f h = (Raise e, d1).
Proof. intros H. unfold bind. now rewrite H. Qed.

Lemma calls_bind_returned {A B} (m : M A) (f : A -> M B) (h : history) (a : A)
    (d1 : list event) :
  m h = (OK a, d1) ->
  calls (snd (bind m f h)) = calls d1 ++ calls (snd (f a (h ++ d1))).
Proof. intros H. rewrite (bind_returned _ _ _ _ _ H). apply calls_app. Qed.

Lemma calls_bind_raised {A B} (m : M A) (f : A -> M B) (h : history) (e : exn)
    (d1 : list event) :
  m h = (Raise e, d1) -> calls (snd (bind m f h)) = calls d1.
Proof. intros H. now rewrite (bind_raised _ _ _ _ _ H). Qed.

Create HintDb trace.
#[local] Hint Resolve emits_ret emits_raise emits_lift emits_log emits_print
  total_ret total_emit total_log total_print : trace.

(** ** The enrichment invoker *)

Section Invoker.

Variable w : World.

Lemma run_enrichment_total (self : EnrichmentAnalyzer) (gene_list : list cell)
    (gene_set : list string) (analysis_name : string) :
  total (run_enrichment w self gene_list gene_set analysis_name).
Proof.
  unfold run_enrichment. apply total_bind; [apply total_emit|]. intros _.
  destruct gene_list.
  - apply total_bind; auto with trace.
  - apply total_try. intros e. apply total_bind; auto with trace.
Qed.

Lemma run_enrichment_emits (self : EnrichmentAnalyzer) (gene_list : list cell)
    (gene_set : list string) (analysis_name : string) :
  emits (run_enrichment w self gene_list gene_set analysis_name)
        (run_calls (organism self) gene_list gene_set analysis_name).
Proof.
  unfold run_enrichment, run_calls.
  apply (emits_bind _ _ [Invocation gene_list gene_set analysis_name]);
    [apply total_emit|apply emits_emit|]. intros _.
  destruct gene_list.
  - apply emits_bind_quiet; auto with trace.
  - apply emits_try.
    + apply (emits_bind _ _ []); [apply total_log|apply emits_log|]. intros _.
      apply emits_bind_quiet; [apply emits_interact|auto with trace].
    + intros e. apply emits_bind_quiet; auto with trace.
Qed.

(** C7. On an empty gene list the invoker returns [None] at once: it does not
    raise, and apart from the warning it logs nothing happens; no request
    reaches the provider. *)
Theorem run_enrichment_empty (self : EnrichmentAnalyzer) (gene_set : list string)
    (analysis_name : string) (h : history) :
  run_enrichment w self [] gene_set analysis_name h
  = (OK None, [EvRunEnrichment [] gene_set analysis_name;
               EvLog WARNING ("Empty gene list for " +++ analysis_name)])
  /\ queries (snd (run_enrichment w self [] gene_set analysis_name h)) = [].
Proof. split; reflexivity. Qed.

(** C8. On a non-empty gene list, when the provider raises, the invoker
    catches the exception, logs it as an error with its text, and returns
    [None]; and whatever the provider does, the invoker never raises, so the
    queries that follow it in the same sample still run. *)
Theorem run_enrichment_provider_fault (self : EnrichmentAnalyzer)
    (gene_list : list cell) (gene_set : list string) (analysis_name : string)
    (h : history) (e : exn) :
  gene_list <> [] ->
  enrichr w
    (h ++ [EvRunEnrichment gene_list gene_set analysis_name;
           EvLog INFO ("Running " +++ analysis_name +++ " with "
                       +++ str_nat (List.length gene_list) +++ " genes.")])
    gene_list gene_set (organism self) = Raise e ->
  run_enrichment w self gene_list gene_set analysis_name h
  = (OK None,
     [EvRunEnrichment gene_list gene_set analysis_name;
      EvLog INFO ("Running " +++ analysis_name +++ " with "
                  +++ str_nat (List.length gene_list) +++ " genes.");
      EvEnrichr gene_list gene_set (organism self);
      EvLog ERROR ("Error running " +++ analysis_name +++ ": " +++ str_exn e)])
  /\ forall g s n h', exists r, fst (run_enrichment w self g s n h') = OK r.
Proof.
  intros Hne Hraise. split.
  - destruct gene_list as [|g gs]; [congruence|].
    unfold run_enrichment, log, bind, try_except, emit, interact, ret.
    cbn [app]. rewrite <- app_assoc. cbn [app].
    rewrite Hraise. reflexivity.
  - intros g s n h'. apply run_enrichment_total.
Qed.

End Invoker.

(** The KEGG query of the scenario, which the provider refuses. *)
Lemma run_enrichment_provider_fault_witness :
  run_enrichment Scenario.world Scenario.analyzer [CStr "tp53"] ["KEGG_2019"]
    "KEGG upregulated" []
  = (OK None,
     [EvRunEnrichment [CStr "tp53"] ["KEGG_2019"] "KEGG upregulated";
      EvLog INFO "Running KEGG upregulated with 1 genes.";
      EvEnrichr [CStr "tp53"] ["KEGG_2019"] "human";
      EvLog ERROR "Error running KEGG upregulated: Error sending gene list, try again later"]).
Proof.
  refine (proj1 (run_enrichment_provider_fault Scenario.world Scenario.analyzer
                   [CStr "tp53"] ["KEGG_2019"] "KEGG upregulated" []
                   (External "Error sending gene list, try again later") _ eq_refl)).
  discriminate.
Defined.

(** ** The sample analyzer *)

Section Sample.

Variable w : World.

Lemma save_results_total (self : EnrichmentAnalyzer) (res : option Enrichr)
    (filename subdir : string) :
  total (save_results w self res filename subdir).
Proof.
  unfold save_results. destruct res as [r|]; [|apply total_log].
  apply total_try. intros e. apply total_log.
Qed.

Lemma save_results_quiet (self : EnrichmentAnalyzer) (res : option Enrichr)
    (filename subdir : string) :
  emits (save_results w self res filename subdir) [].
Proof.
  unfold save_results. destruct res as [r|]; [|apply emits_log].
  apply emits_try; [|intros e; apply emits_log].
  apply emits_bind_quiet; [apply emits_interact|auto with trace].
Qed.

Lemma create_comparison_plot_quiet (self : EnrichmentAnalyzer)
    (up_results down_results : DataFrame) (plot_title filename : string) (top_n : Z) :
  emits (create_comparison_plot w self up_results down_results plot_title filename top_n) [].
Proof.
  unfold create_comparison_plot.
  apply emits_bind_quiet; [apply emits_lift|]. intros up.
  apply emits_bind_quiet; [apply emits_lift|]. intros down.
  destruct (df_empty up && df_empty down); [apply emits_log|].
  destruct (negb (df_empty (concat up down))); [|apply emits_ret].
  apply emits_bind_quiet; [apply emits_interact|]. intros _.
  apply emits_bind_quiet; [apply emits_interact|auto with trace].
Qed.

(** Storing a result that came back: total, and silent about queries. *)
Lemma keep_result (self : EnrichmentAnalyzer) (enr : option Enrichr)
    (filename subdir key : string) (store : dict DataFrame) :
  total (match enr with
         | Some e => save_results w self enr filename subdir ;;
                     ret (dict_set store key (results e))
         | None => ret store
         end)
  /\ emits (match enr with
            | Some e => save_results w self enr filename subdir ;;
                        ret (dict_set store key (results e))
            | None => ret store
            end) [].
Proof.
  destruct enr; split; auto with trace.
  - apply total_bind; [apply save_results_total|auto with trace].
  - apply emits_bind_quiet; [apply save_results_quiet|auto with trace].
Qed.

Lemma go_enrichment_total (self : EnrichmentAnalyzer) (sample_name : string)
    (up_genes down_genes : list cell) :
  total (go_enrichment w self sample_name up_genes down_genes).
Proof.
  unfold go_enrichment. apply total_for_each. intros go_type store.
  apply total_bind; [apply run_enrichment_total|]. intros up_enr.
  apply total_bind; [apply keep_result|]. intros store'.
  apply total_bind; [apply run_enrichment_total|]. intros down_enr.
  apply keep_result.
Qed.

Lemma pathway_enrichment_total (self : EnrichmentAnalyzer) (sample_name : string)
    (up_genes down_genes : list cell) :
  total (pathway_enrichment w self sample_name up_genes down_genes).
Proof.
  unfold pathway_enrichment. apply total_for_each. intros db store.
  apply total_bind; [apply run_enrichment_total|]. intros up_enr.
  apply total_bind; [apply keep_result|]. intros store'.
  apply total_bind; [apply run_enrichment_total|]. intros down_enr.
  apply keep_result.
Qed.

(** One turn of either query loop: the up query, then the down query. *)
Lemma query_turn_emits (self : EnrichmentAnalyzer) (up_genes down_genes : list cell)
    (library up_name down_name f1 f2 subdir k1 k2 : string) (store : dict DataFrame) :
  emits (up_enr <- run_enrichment w self up_genes [library] up_name ;;
         store' <- match up_enr with
                   | Some e => save_results w self up_enr f1 subdir ;;
                               ret (dict_set store k1 (results e))
                   | None => ret store
                   end ;;
         down_enr <- run_enrichment w self down_genes [library] down_name ;;
         match down_enr with
         | Some e => save_results w self down_enr f2 subdir ;;
                     ret (dict_set store' k2 (results e))
         | None => ret store'
         end)
        (run_calls (organism self) up_genes [library] up_name
         ++ run_calls (organism self) down_genes [library] down_name).
Proof.
  apply emits_bind; [apply run_enrichment_total|apply run_enrichment_emits|].
  intros up_enr.
  apply (emits_bind _ _ []); [apply keep_result|apply keep_result|]. intros store'.
  apply emits_bind_quiet; [apply run_enrichment_emits|]. intros down_enr.
  apply keep_result.
Qed.

Lemma go_enrichment_emits (self : EnrichmentAnalyzer) (sample_name : string)
    (up_genes down_genes : list cell) :
  emits (go_enrichment w self sample_name up_genes down_genes)
        (flat_map (fun cat : string * string =>
                     run_calls (organism self) up_genes [fst cat]
                               (snd cat +++ " upregulated")
                     ++ run_calls (organism self) down_genes [fst cat]
                                  (snd cat +++ " downregulated"))
                  (firstn 3 categories)).
Proof.
  unfold go_enrichment.
  eapply emits_ext.
  - apply emits_for_each.
    + intros go_type store.
      apply total_bind; [apply run_enrichment_total|]. intros up_enr.
      apply total_bind; [apply keep_result|]. intros store'.
      apply total_bind; [apply run_enrichment_total|]. intros down_enr.
      apply keep_result.
    + intros go_type store. apply query_turn_emits.
  - reflexivity.
Qed.

Lemma pathway_enrichment_emits (self : EnrichmentAnalyzer) (sample_name : string)
    (up_genes down_genes : list cell) :
  emits (pathway_enrichment w self sample_name up_genes down_genes)
        (flat_map (fun cat : string * string =>
                     run_calls (organism self) up_genes [fst cat]
                               (snd cat +++ " upregulated")
                     ++ run_calls (organism self) down_genes [fst cat]
                                  (snd cat +++ " downregulated"))
                  (skipn 3 categories)).
Proof.
  unfold pathway_enrichment.
  eapply emits_ext.
  - apply emits_for_each.
    + intros db store.
      apply total_bind; [apply run_enrichment_total|]. intros up_enr.
      apply total_bind; [apply keep_result|]. intros store'.
      apply total_bind; [apply run_enrichment_total|]. intros down_enr.
      apply keep_result.
    + intros db store. apply query_turn_emits.
  - reflexivity.
Qed.

Lemma go_plots_quiet (self : EnrichmentAnalyzer) (sample_name : string)
    (p_threshold : float) (go_results : dict DataFrame) (results_summary : dict value) :
  emits (go_plots w self sample_name p_threshold go_results results_summary) [].
Proof.
  unfold go_plots. apply emits_for_each_quiet. intros go_type summary.
  apply emits_bind_quiet; [apply emits_lift|]. intros u.
  apply emits_bind_quiet; [apply emits_lift|]. intros d.
  apply emits_bind_quiet; [apply create_comparison_plot_quiet|]. intros _.
  apply emits_bind_quiet; [apply create_comparison_plot_quiet|]. intros _.
  apply emits_ret.
Qed.

Lemma pathway_plots_quiet (self : EnrichmentAnalyzer) (sample_name : string)
    (p_threshold : float) (pathway_results : dict DataFrame)
    (results_summary : dict value) :
  emits (pathway_plots w self sample_name p_threshold pathway_results results_summary) [].
Proof.
  unfold pathway_plots. apply emits_for_each_quiet. intros db summary.
  apply emits_bind_quiet; [apply emits_lift|]. intros u.
  apply emits_bind_quiet; [apply emits_lift|]. intros d.
  apply emits_bind_quiet; [apply create_comparison_plot_quiet|]. intros _.
  apply emits_bind_quiet; [apply create_comparison_plot_quiet|]. intros _.
  apply emits_ret.
Qed.

Lemma analyze_loaded_emits (self : EnrichmentAnalyzer) (sample_name : string)
    (p_threshold : float) (up_genes down_genes : list cell) :
  emits (analyze_loaded w self sample_name p_threshold up_genes down_genes)
        (expected_calls (organism self) up_genes down_genes).
Proof.
  unfold analyze_loaded. eapply emits_ext.
  - apply (emits_bind _ _ []); [apply total_log|apply emits_log|]. intros _.
    apply emits_bind; [apply go_enrichment_total|apply go_enrichment_emits|].
    intros go_results.
    apply (emits_bind _ _ []); [apply total_log|apply emits_log|]. intros _.
    apply emits_bind_quiet; [apply pathway_enrichment_emits|]. intros pathway_results.
    apply emits_bind_quiet; [apply emits_log|]. intros _.
    apply emits_bind_quiet; [apply go_plots_quiet|]. intros summary.
    apply emits_bind_quiet; [apply pathway_plots_quiet|]. intros summary'.
    apply emits_bind_quiet; auto with trace.
  - destruct up_genes, down_genes; reflexivity.
Qed.

Lemma load_degs_quiet (file_path gene_col regulation_col : string) :
  emits (load_degs w file_path gene_col regulation_col) [].
Proof.
  unfold load_degs. apply emits_try.
  - apply emits_bind_quiet; [apply emits_interact|]. intros df.
    apply emits_bind_quiet; [apply emits_log|]. intros _.
    apply emits_bind_quiet; [apply emits_lift|]. intros df'.
    apply emits_bind_quiet; [apply emits_lift|]. intros up.
    apply emits_bind_quiet; [apply emits_lift|]. intros down.
    apply emits_bind_quiet; auto with trace.
  - intros e. apply emits_bind_quiet; auto with trace.
Qed.

(** How the [try] around the loader ends, from how the loader ends. *)
Lemma load_or_fail_run (sample_name xlsx_path gene_col regulation_col : string)
    (h : history) :
  match load_degs w xlsx_path gene_col regulation_col h with
  | (OK genes, d) =>
      load_or_fail w sample_name xlsx_path gene_col regulation_col h
      = (OK (inl genes), d ++ [])
  | (Raise e, d) =>
      load_or_fail w sample_name xlsx_path gene_col regulation_col h
      = (OK (inr [("status", VStr "failed"); ("error", VStr (str_exn e))]),
         d ++ [EvLog ERROR ("Failed to load DEGs for " +++ sample_name +++ ": "
                            +++ str_exn e)])
  end.
Proof.
  unfold load_or_fail, try_except, bind.
  destruct (load_degs w xlsx_path gene_col regulation_col h) as [[genes|e] d];
    reflexivity.
Qed.

(** The queries of a whole sample analysis, in every case. *)
Lemma analyze_sample_calls (self : EnrichmentAnalyzer)
    (xlsx_path sample_name gene_col regulation_col : string) (p_threshold : float)
    (h : history) :
  calls (snd (analyze_sample w self xlsx_path sample_name gene_col regulation_col
                p_threshold h))
  = match mkdir w (h ++ [EvLog INFO ("Starting analysis for sample: " +++ sample_name)])
                false (path_join (output_dir self) sample_name) with
    | Raise _ => []
    | OK _ =>
        match fst (load_degs w xlsx_path gene_col regulation_col
                     (h ++ [EvLog INFO ("Starting analysis for sample: " +++ sample_name);
                            EvMkdir false (path_join (output_dir self) sample_name)])) with
        | Raise _ => []
        | OK (up_genes, down_genes) => expected_calls (organism self) up_genes down_genes
        end
    end.
Proof.
  unfold analyze_sample.
  rewrite (calls_bind_returned _ _ h tt
             [EvLog INFO ("Starting analysis for sample: " +++ sample_name)])
    by reflexivity.
  unfold call_mkdir.
  destruct (mkdir w (h ++ [EvLog INFO ("Starting analysis for sample: " +++ sample_name)])
              false (path_join (output_dir self) sample_name)) as [[]|e] eqn:Emk.
  - rewrite (calls_bind_returned _ _ _ tt
               [EvMkdir false (path_join (output_dir self) sample_name)])
      by (unfold interact; now rewrite Emk).
    rewrite <- app_assoc. cbn [app].
    pose proof (load_or_fail_run sample_name xlsx_path gene_col regulation_col
                  (h ++ [EvLog INFO ("Starting analysis for sample: " +++ sample_name);
                         EvMkdir false (path_join (output_dir self) sample_name)])) as Hrun.
    pose proof (load_degs_quiet xlsx_path gene_col regulation_col
                  (h ++ [EvLog INFO ("Starting analysis for sample: " +++ sample_name);
                         EvMkdir false (path_join (output_dir self) sample_name)])) as Hq.
    destruct (load_degs w xlsx_path gene_col regulation_col _) as [[[up down]|e] d];
      cbn [fst snd] in *.
    + rewrite (calls_bind_returned _ _ _ _ _ Hrun).
      rewrite calls_app, Hq. cbn [calls flat_map call_of app].
      apply analyze_loaded_emits.
    + rewrite (calls_bind_returned _ _ _ _ _ Hrun).
      rewrite calls_app, Hq. reflexivity.
  - rewrite (calls_bind_raised _ _ _ e
               [EvMkdir false (path_join (output_dir self) sample_name)])
      by (unfold interact; now rewrite Emk).
    reflexivity.
Qed.

End Sample.

Section SampleClaims.

Variable w : World.

(** C2, as amended.  When the sample directory is made and the dataset loads,
    [analyze_sample] calls the invoker exactly ten times: for each of the five
    categories (three GO ontologies, WikiPathways, KEGG) once with the
    up-regulated genes and then once with the down-regulated genes, one call
    per (category, direction) pair, whatever happens afterwards; at most ten
    requests reach the provider. *)
Theorem analyze_sample_ten_invocations (self : EnrichmentAnalyzer)
    (xlsx_path sample_name gene_col regulation_col : string) (p_threshold : float)
    (h : history) (up_genes down_genes : list cell) :
  mkdir w (h ++ [EvLog INFO ("Starting analysis for sample: " +++ sample_name)])
        false (path_join (output_dir self) sample_name) = OK tt ->
  fst (load_degs w xlsx_path gene_col regulation_col
         (h ++ [EvLog INFO ("Starting analysis for sample: " +++ sample_name);
                EvMkdir false (path_join (output_dir self) sample_name)]))
  = OK (up_genes, down_genes) ->
  let d := snd (analyze_sample w self xlsx_path sample_name gene_col regulation_col
                  p_threshold h) in
  invocations d
  = flat_map (fun cat : string * string =>
                [Invocation up_genes [fst cat] (snd cat +++ " upregulated");
                 Invocation down_genes [fst cat] (snd cat +++ " downregulated")])
             categories
  /\ List.length (invocations d) = 10
  /\ List.length (queries d) <= 10
  /\ List.length categories = 5
  /\ NoDup (map fst categories).
Proof.
  intros Hmk Hload d. unfold invocations, queries. subst d.
  rewrite analyze_sample_calls, Hmk, Hload.
  repeat split.
  - destruct up_genes, down_genes; reflexivity.
  - destruct up_genes, down_genes; reflexivity.
  - destruct up_genes, down_genes; cbn; lia.
  - repeat constructor; simpl; intuition discriminate.
Qed.

(** C10. Whatever the organism, every query of a sample analysis names one of
    the five fixed libraries; a run that differs only in the organism and in
    the catalog built from it names the same libraries in the same order; the
    analysis does not depend on the analyzer's catalog at all; and for a
    human analyzer the catalog lists other libraries than those queried. *)
Theorem analyze_sample_fixed_libraries (self : EnrichmentAnalyzer)
    (xlsx_path sample_name gene_col regulation_col : string) (p_threshold : float)
    (h : history) :
  let run := fun a : EnrichmentAnalyzer =>
    analyze_sample w a xlsx_path sample_name gene_col regulation_col p_threshold in
  (forall c, In c (calls (snd (run self h))) ->
     In (call_libraries c)
        [["GO_Biological_Process_2018"]; ["GO_Molecular_Function_2018"];
         ["GO_Cellular_Component_2018"]; ["WikiPathways_2018"]; ["KEGG_2019"]])
  /\ (forall organism',
        map call_libraries
            (calls (snd (run (mkAnalyzer organism' (output_dir self)
                                         (_get_libraries organism')) h)))
        = map call_libraries (calls (snd (run self h))))
  /\ (forall libraries',
        run (mkAnalyzer (organism self) (output_dir self) libraries') = run self)
  /\ dict_get (_get_libraries "human") "go"
     = Some ["GO_Biological_Process_2021"; "GO_Molecular_Function_2021";
             "GO_Cellular_Component_2021"].
Proof.
  intros run. unfold run. split; [|split; [|split]].
  - intros c. rewrite analyze_sample_calls.
    destruct (mkdir w _ _ _); [|contradiction].
    destruct (fst (load_degs w _ _ _ _)) as [[up down]|]; [|contradiction].
    intros Hin. destruct up, down; simpl in Hin;
      repeat (destruct Hin as [<-|Hin]; [simpl; auto 10|]); contradiction.
  - intros organism'. rewrite !analyze_sample_calls. cbn [output_dir organism].
    destruct (mkdir w _ _ _); [|reflexivity].
    destruct (fst (load_degs w _ _ _ _)) as [[up down]|]; [|reflexivity].
    destruct up, down; reflexivity.
  - intros libraries'. destruct self as [o out libs]. reflexivity.
  - reflexivity.
Qed.

(** After a failed load the analyzer returns a record with the status and
    the error text only, and sends no query. *)
Lemma analyze_sample_load_failure (self : EnrichmentAnalyzer)
    (xlsx_path sample_name gene_col regulation_col : string) (p_threshold : float)
    (h : history) (e : exn) :
  mkdir w (h ++ [EvLog INFO ("Starting analysis for sample: " +++ sample_name)])
        false (path_join (output_dir self) sample_name) = OK tt ->
  fst (load_degs w xlsx_path gene_col regulation_col
         (h ++ [EvLog INFO ("Starting analysis for sample: " +++ sample_name);
                EvMkdir false (path_join (output_dir self) sample_name)]))
  = Raise e ->
  fst (analyze_sample w self xlsx_path sample_name gene_col regulation_col p_threshold h)
  = OK [("status", VStr "failed"); ("error", VStr (str_exn e))]
  /\ calls (snd (analyze_sample w self xlsx_path sample_name gene_col regulation_col
                   p_threshold h)) = [].
Proof.
  intros Hmk Hload. split.
  - unfold analyze_sample.
    rewrite (bind_returned _ _ h tt
               [EvLog INFO ("Starting analysis for sample: " +++ sample_name)])
      by reflexivity.
    cbn [fst]. unfold call_mkdir.
    rewrite (bind_returned _ _ _ tt
               [EvMkdir false (path_join (output_dir self) sample_name)])
      by (unfold interact; now rewrite Hmk).
    cbn [fst]. rewrite <- app_assoc. cbn [app].
    pose proof (load_or_fail_run w sample_name xlsx_path gene_col regulation_col
                  (h ++ [EvLog INFO ("Starting analysis for sample: " +++ sample_name);
                         EvMkdir false (path_join (output_dir self) sample_name)])) as Hrun.
    destruct (load_degs w xlsx_path gene_col regulation_col _) as [[genes|e'] d];
      cbn [fst] in Hload; [discriminate|].
    injection Hload as ->.
    rewrite (bind_returned _ _ _ _ _ Hrun). reflexivity.
  - rewrite analyze_sample_calls, Hmk, Hload. reflexivity.
Qed.

End SampleClaims.

(** The ten invocations of the sample with a regulation column. *)
Lemma analyze_sample_ten_invocations_witness :
  invocations (snd (analyze_sample Scenario.world Scenario.analyzer "in/s1.xlsx" "s1"
                      "gene" "regulation" default_p_threshold []))
  = flat_map (fun cat : string * string =>
                [Invocation [CStr "tp53"; CStr "egfr"] [fst cat]
                            (snd cat +++ " upregulated");
                 Invocation [CStr "myc"] [fst cat] (snd cat +++ " downregulated")])
             categories.
Proof.
  exact (proj1 (analyze_sample_ten_invocations Scenario.world Scenario.analyzer
                  "in/s1.xlsx" "s1" "gene" "regulation" default_p_threshold []
                  [CStr "tp53"; CStr "egfr"] [CStr "myc"] eq_refl eq_refl)).
Defined.

(** C2, as first stated, fails: the invoker is called ten times, and there
    are no six distinct categories that each get a call. *)
Lemma analyze_sample_not_six_categories :
  let d := snd (analyze_sample Scenario.world Scenario.analyzer "in/s1.xlsx" "s1"
                  "gene" "regulation" default_p_threshold []) in
  List.length (invocations d) = 10
  /\ ~ (exists cats : list string,
          NoDup cats /\ List.length cats = 6
          /\ forall c, In c cats -> exists g n, In (Invocation g [c] n) (invocations d)).
Proof.
  split; [reflexivity|].
  intros [cats [Hnd [Hlen Hall]]].
  assert (Hincl : incl cats (map fst categories)).
  { intros c Hc. destruct (Hall c Hc) as [g [n Hin]].
    vm_compute in Hin.
    repeat (destruct Hin as [Heq|Hin];
            [injection Heq as _ <- _; simpl; auto 10|]).
    contradiction. }
  pose proof (NoDup_incl_length Hnd Hincl) as Hle.
  rewrite Hlen in Hle. simpl in Hle. lia.
Qed.

(** C3 at a file that cannot be read: the record the analyzer returns has the
    status and the error text but no sample name, and no query is sent; the
    record that [batch_analyze] writes for an exception does carry the
    name. *)
Theorem analyze_sample_failed_record_lacks_name :
  let run := analyze_sample Scenario.world Scenario.analyzer "in/bad.xlsx" "bad"
               "gene" "regulation" default_p_threshold [] in
  fst run = OK [("status", VStr "failed"); ("error", VStr "File is not a zip file")]
  /\ (forall r, fst run = OK r -> dict_get r "sample_name" = None)
  /\ calls (snd run) = []
  /\ fst (batch_step (mkWorld (read_excel Scenario.world) (enrichr Scenario.world)
                        (fun _ _ _ => Raise (External "Permission denied"))
                        (to_excel Scenario.world) (summary_to_excel Scenario.world)
                        (barplot Scenario.world) (savefig Scenario.world)
                        (glob Scenario.world) (rglob Scenario.world)
                        (np_log10 Scenario.world))
                 Scenario.analyzer "gene" "regulation" default_p_threshold
                 "in/bad.xlsx" [] [])
     = OK [[("sample_name", VStr "bad"); ("status", VStr "failed");
            ("error", VStr "Permission denied")]].
Proof.
  repeat split.
  intros r Hr. vm_compute in Hr. injection Hr as <-. reflexivity.
Qed.

(** ** The batch coordinators *)

Lemma append_assoc (a b c : string) : (a +++ b) +++ c = a +++ b +++ c.
Proof. induction a as [|x a IH]; simpl; auto. now rewrite IH. Qed.

Lemma strip_prefix_append (pre s : string) : strip_prefix pre (pre +++ s) = Some s.
Proof.
  induction pre as [|a pre IH]; simpl.
  - now destruct s.
  - now rewrite Ascii.eqb_refl.
Qed.

Lemma relative_to_join (base rel : string) :
  relative_to (path_join base rel) base = OK rel.
Proof.
  unfold relative_to, path_join.
  now rewrite <- append_assoc, strip_prefix_append.
Qed.

Lemma Forall2_map_l {A B C} (f : A -> B) (R : B -> C -> Prop) (l : list A) (l' : list C) :
  Forall2 R (map f l) l' -> Forall2 (fun a c => R (f a) c) l l'.
Proof.
  revert l'. induction l as [|a l IH]; intros l' H; inversion H; subst; constructor; auto.
Qed.

Section Batch.

Variable w : World.

Lemma outcome_from_later (self : EnrichmentAnalyzer) (gene_col regulation_col : string)
    (p_threshold : float) (h d : history) (xlsx_file sample_name : string)
    (o : dict value) :
  outcome_from w self gene_col regulation_col p_threshold (h ++ d) xlsx_file sample_name o ->
  outcome_from w self gene_col regulation_col p_threshold h xlsx_file sample_name o.
Proof. intros [d0 H]. exists (d ++ d0). now rewrite app_assoc. Qed.

Lemma load_degs_unreadable (file_path gene_col regulation_col : string) (h : history)
    (e : exn) :
  read_excel w h file_path = Raise e ->
  fst (load_degs w file_path gene_col regulation_col h) = Raise e.
Proof.
  intros H. unfold load_degs, try_except, bind, interact. rewrite H. reflexivity.
Qed.

Lemma analyze_sample_mkdir_failure (self : EnrichmentAnalyzer)
    (xlsx_path sample_name gene_col regulation_col : string) (p_threshold : float)
    (h : history) (e : exn) :
  mkdir w (h ++ [EvLog INFO ("Starting analysis for sample: " +++ sample_name)])
        false (path_join (output_dir self) sample_name) = Raise e ->
  fst (analyze_sample w self xlsx_path sample_name gene_col regulation_col p_threshold h)
  = Raise e.
Proof.
  intros Hmk. unfold analyze_sample.
  rewrite (bind_returned _ _ h tt
             [EvLog INFO ("Starting analysis for sample: " +++ sample_name)])
    by reflexivity.
  cbn [fst]. unfold call_mkdir.
  rewrite (bind_raised _ _ _ e [EvMkdir false (path_join (output_dir self) sample_name)])
    by (unfold interact; now rewrite Hmk).
  reflexivity.
Qed.

(** An outcome is an isolated outcome. *)
Lemma outcome_isolated (self : EnrichmentAnalyzer) (gene_col regulation_col : string)
    (p_threshold : float) (h : history) (xlsx_file sample_name : string)
    (o : dict value) :
  outcome_from w self gene_col regulation_col p_threshold h xlsx_file sample_name o ->
  isolated_outcome w self gene_col regulation_col p_threshold h xlsx_file sample_name o.
Proof.
  intros Hout. split; [exact Hout|]. destruct Hout as [d0 Hout]. split.
  - intros Hbad.
    destruct (mkdir w ((h ++ d0)
                       ++ [EvLog INFO ("Starting analysis for sample: " +++ sample_name)])
                false (path_join (output_dir self) sample_name)) as [[]|e] eqn:Emk.
    + destruct (Hbad ((h ++ d0)
                      ++ [EvLog INFO ("Starting analysis for sample: " +++ sample_name);
                          EvMkdir false (path_join (output_dir self) sample_name)]))
        as [e He].
      apply (load_degs_unreadable _ gene_col regulation_col) in He.
      destruct (analyze_sample_load_failure w self xlsx_file sample_name gene_col
                  regulation_col p_threshold (h ++ d0) e Emk He) as [Hres _].
      rewrite Hres in Hout. subst o. split; [reflexivity|]. now eexists.
    + rewrite (analyze_sample_mkdir_failure self xlsx_file sample_name gene_col
                 regulation_col p_threshold (h ++ d0) e Emk) in Hout.
      subst o. split; [reflexivity|]. now eexists.
  - intros Hgood. destruct (Hgood (h ++ d0)) as [r [Hr Hs]].
    rewrite Hr in Hout. now subst o.
Qed.

(** A loop that appends one outcome per item, each related to its item by a
    relation that survives a longer history. *)
Lemma loop_outcomes {X} (P : X -> Prop)
    (step : X -> list (dict value) -> M (list (dict value)))
    (R : history -> X -> dict value -> Prop) :
  (forall h d x o, R (h ++ d) x o -> R h x o) ->
  (forall x acc h, P x -> exists o d, step x acc h = (OK (acc ++ [o]), d) /\ R h x o) ->
  forall xs acc h,
    Forall P xs ->
    exists outs d,
      for_each xs step acc h = (OK (acc ++ outs), d) /\ Forall2 (R h) xs outs.
Proof.
  intros Hmono Hstep. induction xs as [|x xs IH]; intros acc h HP.
  - exists [], []. split; [|constructor]. simpl. unfold ret. now rewrite app_nil_r.
  - inversion HP as [|? ? Hx Hxs]; subst.
    destruct (Hstep x acc h Hx) as [o [d1 [Hrun Ho]]].
    destruct (IH (acc ++ [o]) (h ++ d1) Hxs) as [outs [d2 [Hrest Hall]]].
    exists (o :: outs), (d1 ++ d2). split.
    + simpl. rewrite (bind_returned _ _ _ _ _ Hrun), Hrest. simpl.
      now rewrite <- app_assoc.
    + constructor; [exact Ho|].
      eapply Forall2_impl; [|exact Hall]. intros a b. apply Hmono.
Qed.

Lemma batch_step_outcome (self : EnrichmentAnalyzer) (gene_col regulation_col : string)
    (p_threshold : float) (xlsx_file : string) (acc : list (dict value)) (h : history) :
  exists o d,
    batch_step w self gene_col regulation_col p_threshold xlsx_file acc h
    = (OK (acc ++ [o]), d)
    /\ outcome_from w self gene_col regulation_col p_threshold h xlsx_file
         (stem xlsx_file) o.
Proof.
  unfold batch_step.
  rewrite (bind_returned _ _ h tt [EvLog INFO ("Processing file: " +++ xlsx_file)])
    by reflexivity.
  unfold try_except, bind.
  destruct (analyze_sample w self xlsx_file (stem xlsx_file) gene_col regulation_col
              p_threshold (h ++ [EvLog INFO ("Processing file: " +++ xlsx_file)]))
    as [[r|e] d1] eqn:E; simpl.
  - exists r. eexists. split; [reflexivity|].
    exists [EvLog INFO ("Processing file: " +++ xlsx_file)]. now rewrite E.
  - exists (failed_record (stem xlsx_file) e). eexists. split; [reflexivity|].
    exists [EvLog INFO ("Processing file: " +++ xlsx_file)]. now rewrite E.
Qed.

Lemma directory_step_outcome (analyzer : EnrichmentAnalyzer) (base_path rel : string)
    (acc : list (dict value)) (h : history) :
  exists o d,
    directory_step w analyzer base_path (path_join base_path rel) acc h
    = (OK (acc ++ [o]), d)
    /\ outcome_from w analyzer "gene" "regulation" default_p_threshold h
         (path_join base_path rel) (directory_sample_name rel) o.
Proof.
  unfold directory_step.
  rewrite (bind_returned _ _ h rel []) by (unfold lift; now rewrite relative_to_join).
  rewrite app_nil_r.
  fold (directory_sample_name rel).
  rewrite (bind_returned _ _ h tt
             [EvPrint (nl +++ "Processing: " +++ path_join base_path rel)])
    by reflexivity.
  rewrite (bind_returned _ _ _ tt
             [EvPrint ("Sample name: " +++ directory_sample_name rel)])
    by reflexivity.
  rewrite <- app_assoc. cbn [app fst snd].
  unfold try_except, bind.
  destruct (analyze_sample w analyzer (path_join base_path rel)
              (directory_sample_name rel) "gene" "regulation" default_p_threshold
              (h ++ [EvPrint (nl +++ "Processing: " +++ path_join base_path rel);
                     EvPrint ("Sample name: " +++ directory_sample_name rel)]))
    as [[r|e] d1] eqn:E; simpl.
  - exists r. eexists. split; [reflexivity|].
    eexists. now rewrite E.
  - exists (failed_record (directory_sample_name rel) e). eexists.
    split; [reflexivity|]. eexists. now rewrite E.
Qed.

End Batch.

Section BatchClaims.

Variable w : World.

(** How a run of [batch_analyze] ends: without files it returns the empty
    summary; otherwise every file has its outcome, the summary is handed to
    the writer, and only the writer's exception can escape. *)
Lemma batch_analyze_run (self : EnrichmentAnalyzer)
    (input_dir pattern gene_col regulation_col : string) (p_threshold : float)
    (h : history) :
  let xlsx_files := map (path_join input_dir) (glob w h input_dir pattern) in
  let run := batch_analyze w self input_dir pattern gene_col regulation_col
               p_threshold h in
  let summary_path :=
    path_join (path_join (output_dir self) "summary") "batch_analysis_summary.xlsx" in
  exists all_results,
    Forall2 (fun f o => outcome_from w self gene_col regulation_col p_threshold h
                          f (stem f) o) xlsx_files all_results
    /\ ((xlsx_files = [] /\ all_results = [] /\ fst run = OK [])
        \/ (xlsx_files <> []
            /\ exists d1 d2,
                 snd run = d1 ++ EvSummaryToExcel summary_path all_results :: d2
                 /\ (fst run = OK all_results
                     \/ exists e h', fst run = Raise e
                                     /\ summary_to_excel w h' summary_path all_results
                                        = Raise e))).
Proof.
  intros xlsx_files run summary_path. unfold run, batch_analyze.
  rewrite (bind_returned _ _ h xlsx_files [EvGlob false input_dir pattern])
    by reflexivity.
  destruct xlsx_files as [|f fs] eqn:Ef.
  - exists []. split; [constructor|]. left. repeat split.
  - destruct (loop_outcomes (fun _ => True)
                (batch_step w self gene_col regulation_col p_threshold)
                (fun h0 f0 o => outcome_from w self gene_col regulation_col p_threshold
                                  h0 f0 (stem f0) o)
                (fun h0 d x o => outcome_from_later w self gene_col regulation_col
                                   p_threshold h0 d x (stem x) o)
                (fun x acc h0 _ => batch_step_outcome w self gene_col regulation_col
                                     p_threshold x acc h0)
                (f :: fs) []
                ((h ++ [EvGlob false input_dir pattern])
                 ++ [EvLog INFO ("Found " +++ str_nat (List.length (f :: fs))
                                 +++ " files for batch analysis")]))
      as [outs [d [Hloop Hall]]].
    { apply Forall_forall. auto. }
    cbn [app] in Hloop.
    exists outs. split.
    + eapply Forall2_impl; [|exact Hall]. intros a b Hab.
      apply (outcome_from_later w _ _ _ _ h
               ([EvGlob false input_dir pattern]
                ++ [EvLog INFO ("Found " +++ str_nat (List.length (f :: fs))
                                +++ " files for batch analysis")])).
      now rewrite app_assoc.
    + right. split; [discriminate|].
      rewrite (bind_returned _ _ _ tt
                 [EvLog INFO ("Found " +++ str_nat (List.length (f :: fs))
                              +++ " files for batch analysis")])
        by reflexivity.
      rewrite (bind_returned _ _ _ _ _ Hloop).
      assert (Htail : forall h0,
                 (interact (fun h1 => summary_to_excel w h1 summary_path outs)
                           (EvSummaryToExcel summary_path outs) ;;
                  log INFO ("Batch analysis summary saved to " +++ summary_path) ;;
                  ret outs) h0
                 = match summary_to_excel w h0 summary_path outs with
                   | OK _ =>
                       (OK outs,
                        [EvSummaryToExcel summary_path outs;
                         EvLog INFO ("Batch analysis summary saved to " +++ summary_path)])
                   | Raise e => (Raise e, [EvSummaryToExcel summary_path outs])
                   end).
      { intros h0. unfold bind, interact, log, emit, ret.
        destruct (summary_to_excel w h0 summary_path outs) as [[]|e]; reflexivity. }
      fold summary_path. rewrite Htail.
      destruct (summary_to_excel w _ summary_path outs) as [[]|e] eqn:Es; cbn [fst snd].
      * exists ([EvGlob false input_dir pattern]
                ++ [EvLog INFO ("Found " +++ str_nat (List.length (f :: fs))
                                +++ " files for batch analysis")] ++ d).
        eexists. split; [|now left].
        rewrite <- !app_assoc. reflexivity.
      * exists ([EvGlob false input_dir pattern]
                ++ [EvLog INFO ("Found " +++ str_nat (List.length (f :: fs))
                                +++ " files for batch analysis")] ++ d).
        exists []. split; [now rewrite <- !app_assoc|].
        right. exists e. eexists. split; [reflexivity|]. exact Es.
Qed.

Lemma directory_loop_outcomes (analyzer : EnrichmentAnalyzer) (base_path : string)
    (rels : list string) (h : history) :
  exists results d,
    for_each (map (path_join base_path) rels) (directory_step w analyzer base_path) [] h
    = (OK results, d)
    /\ Forall2 (fun rel o =>
                  outcome_from w analyzer "gene" "regulation" default_p_threshold h
                    (path_join base_path rel) (directory_sample_name rel) o)
               rels results.
Proof.
  destruct (loop_outcomes
              (fun f => exists rel, f = path_join base_path rel)
              (directory_step w analyzer base_path)
              (fun h0 f o =>
                 match relative_to f base_path with
                 | OK rel =>
                     outcome_from w analyzer "gene" "regulation" default_p_threshold h0
                       f (directory_sample_name rel) o
                 | Raise _ => False
                 end))
    with (xs := map (path_join base_path) rels) (acc := @nil (dict value)) (h := h)
    as [outs [d [Hloop Hall]]].
  - intros h0 d x o. destruct (relative_to x base_path); auto.
    apply outcome_from_later.
  - intros x acc h0 [rel ->].
    destruct (directory_step_outcome w analyzer base_path rel acc h0) as [o [d [H1 H2]]].
    exists o, d. split; [exact H1|]. cbv beta. now rewrite relative_to_join.
  - apply Forall_forall. intros f Hf. apply in_map_iff in Hf as [rel [<- _]]. now exists rel.
  - exists outs, d. split; [exact Hloop|].
    apply Forall2_map_l in Hall.
    eapply Forall2_impl; [|exact Hall]. intros rel o. cbv beta.
    now rewrite relative_to_join.
Qed.

(** C1. In [batch_analyze] every file found gets exactly one outcome, in the
    order of discovery: the record the analyzer returned, or, when the
    analysis raised, a failed record with the sample name and the text of the
    exception; a file that cannot be read ends failed with an error text and
    a file that can be analysed ends as a success, whatever happened to the
    files before it.  The summary of all outcomes is handed to the writer,
    and no exception other than the writer's leaves the batch.  The loop of
    [process_directory_structure] treats its files the same way. *)
Theorem batch_failure_isolation (self : EnrichmentAnalyzer)
    (input_dir pattern gene_col regulation_col : string) (p_threshold : float)
    (h : history) :
  let xlsx_files := map (path_join input_dir) (glob w h input_dir pattern) in
  let run := batch_analyze w self input_dir pattern gene_col regulation_col
               p_threshold h in
  let summary_path :=
    path_join (path_join (output_dir self) "summary") "batch_analysis_summary.xlsx" in
  (exists all_results,
     Forall2 (fun f o => isolated_outcome w self gene_col regulation_col p_threshold h
                           f (stem f) o) xlsx_files all_results
     /\ (forall r, fst run = OK r -> r = all_results)
     /\ (xlsx_files <> [] -> In (EvSummaryToExcel summary_path all_results) (snd run))
     /\ (forall e, fst run = Raise e ->
           exists h', summary_to_excel w h' summary_path all_results = Raise e))
  /\ (forall analyzer base_path rels,
        exists results d,
          for_each (map (path_join base_path) rels)
                   (directory_step w analyzer base_path) [] h = (OK results, d)
          /\ Forall2 (fun rel o =>
                        isolated_outcome w analyzer "gene" "regulation"
                          default_p_threshold h
                          (path_join base_path rel) (directory_sample_name rel) o)
                     rels results).
Proof.
  intros xlsx_files run summary_path. split.
  - destruct (batch_analyze_run self input_dir pattern gene_col regulation_col
                p_threshold h) as [all_results [Hall Hrun]].
    fold xlsx_files run summary_path in Hall, Hrun.
    exists all_results. split.
    { eapply Forall2_impl; [|exact Hall]. intros f o. apply outcome_isolated. }
    destruct Hrun as [[Hnil [-> Hret]]|[Hne [d1 [d2 [Htrace Hend]]]]].
    + split; [|split].
      * intros r Hr. congruence.
      * intros Hne. contradiction.
      * intros e He. congruence.
    + split; [|split].
      * intros r Hr. destruct Hend as [Hok|[e [h' [He _]]]]; congruence.
      * intros _. rewrite Htrace. apply in_or_app. right. now left.
      * intros e He. destruct Hend as [Hok|[e' [h' [He' Hw]]]]; [congruence|].
        exists h'. congruence.
  - intros analyzer base_path rels.
    destruct (directory_loop_outcomes analyzer base_path rels h)
      as [results [d [Hloop Hall]]].
    exists results, d. split; [exact Hloop|].
    eapply Forall2_impl; [|exact Hall]. intros rel o. apply outcome_isolated.
Qed.

End BatchClaims.

(** A batch of one unreadable file and two good ones: failed, success,
    success, in the order found. *)
Lemma batch_failure_isolation_witness :
  exists o1 o2 o3,
    fst (batch_analyze Scenario.world Scenario.analyzer "in" "*.xlsx" "gene" "regulation"
           default_p_threshold []) = OK [o1; o2; o3]
    /\ dict_get o1 "status" = Some (VStr "failed")
    /\ dict_get o2 "status" = Some (VStr "success")
    /\ dict_get o3 "status" = Some (VStr "success").
Proof.
  destruct (batch_failure_isolation Scenario.world Scenario.analyzer "in" "*.xlsx"
              "gene" "regulation" default_p_threshold [])
    as [[all_results [Hall [Hret _]]] _].
  cbn [Scenario.world glob map] in Hall.
  inversion Hall as [|f1 o1 fs1 os1 H1 Hall1]; subst.
  inversion Hall1 as [|f2 o2 fs2 os2 H2 Hall2]; subst.
  inversion Hall2 as [|f3 o3 fs3 os3 H3 Hall3]; subst.
  inversion Hall3; subst.
  exists o1, o2, o3. split; [|split; [|split]].
  - rewrite <- (Hret _ eq_refl). reflexivity.
  - destruct H1 as [_ [Hbad _]]. apply Hbad.
    intros h. eexists. reflexivity.
  - destruct H2 as [_ [_ Hgood]]. apply Hgood.
    intros h. eexists. split; reflexivity.
  - destruct H3 as [_ [_ Hgood]]. apply Hgood.
    intros h. eexists. split; reflexivity.
Defined.

(** * Further properties *)

(** ** The library catalog and the constructor *)

Lemma lower_upper_ascii (c : ascii) : lower_ascii (upper_ascii c) = lower_ascii c.
Proof. destruct c as [[] [] [] [] [] [] [] []]; reflexivity. Qed.

Lemma lower_lower_ascii (c : ascii) : lower_ascii (lower_ascii c) = lower_ascii c.
Proof. destruct c as [[] [] [] [] [] [] [] []]; reflexivity. Qed.

Lemma lower_upper (s : string) : lower (upper s) = lower s.
Proof.
  induction s as [|c s IH]; simpl; auto.
  unfold lower, upper in *. simpl. now rewrite lower_upper_ascii, IH.
Qed.

Lemma lower_lower (s : string) : lower (lower s) = lower s.
Proof.
  induction s as [|c s IH]; simpl; auto.
  unfold lower in *. simpl. now rewrite lower_lower_ascii, IH.
Qed.

Lemma get_libraries_by_lower (o1 o2 : string) :
  lower o1 = lower o2 -> _get_libraries o1 = _get_libraries o2.
Proof. intros H. unfold _get_libraries. now rewrite H. Qed.

(** X1. Every organism name resolves to a catalog with three GO libraries
    and two pathway libraries; the name is matched without regard to case;
    and every name other than human gets the catalog of zebrafish. *)
Theorem get_libraries_catalog (organism : string) :
  (exists g1 g2 g3 p1 p2,
     _get_libraries organism = [("go", [g1; g2; g3]); ("pathways", [p1; p2])])
  /\ _get_libraries (upper organism) = _get_libraries organism
  /\ _get_libraries (lower organism) = _get_libraries organism
  /\ (lower organism <> "human" ->
      _get_libraries organism = _get_libraries "zebrafish").
Proof.
  split; [|split; [|split]].
  - unfold _get_libraries.
    destruct (String.eqb (lower organism) "zebrafish");
      [|destruct (String.eqb (lower organism) "human")]; repeat eexists.
  - apply get_libraries_by_lower, lower_upper.
  - apply get_libraries_by_lower, lower_lower.
  - intros Hne. unfold _get_libraries.
    destruct (String.eqb (lower organism) "zebrafish"); [reflexivity|].
    destruct (String.eqb (lower organism) "human") eqn:E; [|reflexivity].
    apply String.eqb_eq in E. contradiction.
Qed.

Section Constructor.

Variable w : World.

(** Making a list of directories one after the other: all of them, or up to
    and including the first that the file system refuses. *)
Lemma make_directories (output_dir : string) (names : list string) :
  forall h,
    let dirs := map (path_join output_dir) names in
    let r := for_each names
               (fun dir_names _ => call_mkdir w true (path_join output_dir dir_names))
               tt h in
    (fst r = OK tt /\ snd r = mkdir_events dirs)
    \/ (exists k e,
          k < List.length dirs
          /\ fst r = Raise e
          /\ snd r = mkdir_events (firstn (S k) dirs)
          /\ mkdir w (h ++ mkdir_events (firstn k dirs)) true (nth k dirs "") = Raise e).
Proof.
  induction names as [|n names IH]; intros h; cbn zeta.
  - left. split; reflexivity.
  - cbn [for_each map].
    destruct (mkdir w h true (path_join output_dir n)) as [[]|e] eqn:Emk.
    + rewrite (bind_returned _ _ h tt [EvMkdir true (path_join output_dir n)])
        by (unfold call_mkdir, interact; now rewrite Emk).
      cbn [fst snd].
      destruct (IH (h ++ [EvMkdir true (path_join output_dir n)]))
        as [[Hok Htr]|[k [e [Hk [Hr [Htr Hmk]]]]]].
      * left. split; [exact Hok|]. rewrite Htr. reflexivity.
      * right. exists (S k), e. split; [simpl; lia|]. split; [exact Hr|].
        split; [rewrite Htr; reflexivity|].
        rewrite <- app_assoc in Hmk. exact Hmk.
    + right. exists 0, e. split; [simpl; lia|].
      rewrite (bind_raised _ _ h e [EvMkdir true (path_join output_dir n)])
        by (unfold call_mkdir, interact; now rewrite Emk).
      split; [reflexivity|]. split; [reflexivity|].
      cbn [firstn mkdir_events map nth]. now rewrite app_nil_r.
Qed.

(** X2. The constructor makes [plots], [go_results], [pathway_results] and
    [summary] under the output directory, in this order and with their
    parents.  When all four are made it returns the analyzer with the given
    organism, output directory and the catalog of that organism; otherwise it
    raises what the first refused directory raised, and the directories after
    it are not attempted.  (The [GProfiler] object that the constructor also
    creates is used nowhere and is not modelled.) *)
Theorem new_analyzer_directories (organism output_dir : string) (h : history) :
  let r := new_analyzer w organism output_dir h in
  (fst r = OK (mkAnalyzer organism output_dir (_get_libraries organism))
   /\ snd r = mkdir_events (output_dirs output_dir))
  \/ (exists k e,
        k < 4
        /\ fst r = Raise e
        /\ snd r = mkdir_events (firstn (S k) (output_dirs output_dir))
        /\ mkdir w (h ++ mkdir_events (firstn k (output_dirs output_dir))) true
                 (nth k (output_dirs output_dir) "") = Raise e).
Proof.
  intros r. subst r. unfold new_analyzer, setup_directories.
  destruct (make_directories output_dir
              ["plots"; "go_results"; "pathway_results"; "summary"] h)
    as [[Hok Htr]|[k [e [Hk [Hr [Htr Hmk]]]]]].
  - left.
    destruct (for_each _ _ tt h) as [res d] eqn:E. cbn [fst snd] in Hok, Htr. subst.
    rewrite (bind_returned _ _ h tt _ E). split; [reflexivity|].
    cbn [snd ret]. now rewrite app_nil_r.
  - right. exists k, e. split; [exact Hk|].
    destruct (for_each _ _ tt h) as [res d] eqn:E. cbn [fst snd] in Hr, Htr. subst.
    rewrite (bind_raised _ _ h e _ E). repeat split; auto.
Qed.

End Constructor.

(** ** Failures and counts of the loader *)

Lemma filter_lengths {A} (p q : A -> bool) (l : list A) :
  (forall a, p a = true -> q a = false) ->
  List.length (filter p l) + List.length (filter q l) <= List.length l
  /\ (List.length (filter p l) + List.length (filter q l) = List.length l
      <-> forallb (fun a => p a || q a) l = true).
Proof.
  intros Hex. induction l as [|a l [IH1 IH2]]; simpl.
  - split; [lia|]. split; auto.
  - destruct (p a) eqn:Ep; [rewrite (Hex a Ep)|destruct (q a) eqn:Eq]; simpl.
    + split; [lia|]. rewrite <- IH2. split; lia.
    + split; [lia|]. rewrite <- IH2. split; lia.
    + split; [lia|]. split; [lia|discriminate].
Qed.

Lemma up_excludes_down (regulation_col : string) (r : row) :
  cell_eq_str "Upregulated" (row_get r regulation_col) = true ->
  cell_eq_str "Downregulated" (row_get r regulation_col) = false.
Proof.
  destruct (row_get r regulation_col) as [s|x]; simpl; [|discriminate].
  intros H. apply String.eqb_eq in H. now subst s.
Qed.

Section LoaderFailures.

Variable w : World.

(** X3. Whenever the loader raises, it has logged that exception once, as
    the last thing it did, under [Error loading DEGs from <path>: <text>],
    and no other error before; whenever it returns, it has logged no
    error. *)
Theorem load_degs_logs_what_it_raises (file_path gene_col regulation_col : string)
    (h : history) :
  match load_degs w file_path gene_col regulation_col h with
  | (Raise e, d) =>
      exists d0,
        d = d0 ++ [EvLog ERROR ("Error loading DEGs from " +++ file_path +++ ": "
                                +++ str_exn e)]
        /\ no_error_logged d0
  | (OK _, d) => no_error_logged d
  end.
Proof.
  unfold load_degs, try_except, bind, interact, lift, log, emit, ret, raise.
  destruct (read_excel w h file_path) as [df|e].
  - destruct (derive_regulation df regulation_col) as [df'|e].
    + destruct (genes_with df' regulation_col "Upregulated" gene_col) as [up|e].
      * destruct (genes_with df' regulation_col "Downregulated" gene_col) as [down|e].
        -- intros msg Hin. simpl in Hin.
           repeat (destruct Hin as [Hin|Hin]; [discriminate|]). contradiction.
        -- eexists. split; [reflexivity|]. intros msg Hin. simpl in Hin.
           repeat (destruct Hin as [Hin|Hin]; [discriminate|]). contradiction.
      * eexists. split; [reflexivity|]. intros msg Hin. simpl in Hin.
        repeat (destruct Hin as [Hin|Hin]; [discriminate|]). contradiction.
    + eexists. split; [reflexivity|]. intros msg Hin. simpl in Hin.
      repeat (destruct Hin as [Hin|Hin]; [discriminate|]). contradiction.
  - eexists. split; [reflexivity|]. intros msg Hin. simpl in Hin.
    repeat (destruct Hin as [Hin|Hin]; [discriminate|]). contradiction.
Qed.

(** X4. On a table that was read: without the regulation column and without
    [log2FoldChange] the loader raises [KeyError('log2FoldChange')]; with the
    regulation column and without the gene column it raises the [KeyError] of
    the gene column; and whatever the reader raises, the loader raises
    too. *)
Theorem load_degs_missing_columns (file_path gene_col regulation_col : string)
    (h : history) :
  (forall df,
     read_excel w h file_path = OK df ->
     mem regulation_col (columns df) = false ->
     mem "log2FoldChange" (columns df) = false ->
     fst (load_degs w file_path gene_col regulation_col h)
     = Raise (KeyError "log2FoldChange"))
  /\ (forall df,
        read_excel w h file_path = OK df ->
        mem regulation_col (columns df) = true ->
        mem gene_col (columns df) = false ->
        fst (load_degs w file_path gene_col regulation_col h) = Raise (KeyError gene_col))
  /\ (forall e,
        read_excel w h file_path = Raise e ->
        fst (load_degs w file_path gene_col regulation_col h) = Raise e).
Proof.
  split; [|split].
  - intros df Hread Hr Hfc.
    unfold load_degs, try_except, bind, interact, lift, log, emit, ret, raise.
    rewrite Hread. unfold derive_regulation, get_column. rewrite Hr, Hfc. reflexivity.
  - intros df Hread Hr Hg.
    unfold load_degs, try_except, bind, interact, lift, log, emit, ret, raise.
    rewrite Hread. unfold derive_regulation. rewrite Hr.
    unfold genes_with, get_column. rewrite Hr. cbn [exc_bind df_mask columns].
    rewrite Hg. reflexivity.
  - intros e Hread. now apply load_degs_unreadable.
Qed.

(** X5. On a table that was read and has the regulation and gene columns,
    the loader returns, and the two lists together are never longer than the
    table; they are exactly as long when, and only when, every row is
    labelled [Upregulated] or [Downregulated] to the letter: a row with any
    other label is counted in neither list. *)
Theorem load_degs_counts (file_path gene_col regulation_col : string) (h : history)
    (df : DataFrame) :
  read_excel w h file_path = OK df ->
  mem regulation_col (columns df) = true ->
  mem gene_col (columns df) = true ->
  exists up_genes down_genes d,
    load_degs w file_path gene_col regulation_col h = (OK (up_genes, down_genes), d)
    /\ List.length up_genes + List.length down_genes <= List.length (rows df)
    /\ (List.length up_genes + List.length down_genes = List.length (rows df)
        <-> valid_regulation df regulation_col = true).
Proof.
  intros Hread Hr Hg.
  assert (Hder : derive_regulation df regulation_col = OK df)
    by (unfold derive_regulation; now rewrite Hr).
  destruct (load_degs_read w file_path gene_col regulation_col h df df Hread Hder Hr Hg)
    as [d Hload].
  do 3 eexists. split; [exact Hload|].
  rewrite !length_map.
  destruct (filter_lengths
              (fun r => cell_eq_str "Upregulated" (row_get r regulation_col))
              (fun r => cell_eq_str "Downregulated" (row_get r regulation_col))
              (rows df) (up_excludes_down regulation_col)) as [Hle Heq].
  split; [exact Hle|].
  rewrite Heq. unfold valid_regulation. rewrite Hr. reflexivity.
Qed.

End LoaderFailures.

(** The table without a regulation or fold-change column, and the table whose
    gene column is asked for under another name. *)
Lemma load_degs_missing_columns_witness :
  fst (load_degs Cases.world "in/bare.xlsx" "gene" "regulation" [])
  = Raise (KeyError "log2FoldChange")
  /\ fst (load_degs Cases.world "in/mixed.xlsx" "symbol" "regulation" [])
     = Raise (KeyError "symbol").
Proof.
  split.
  - exact (proj1 (load_degs_missing_columns Cases.world "in/bare.xlsx" "gene"
                    "regulation" []) Cases.table_bare eq_refl eq_refl eq_refl).
  - exact (proj1 (proj2 (load_degs_missing_columns Cases.world "in/mixed.xlsx" "symbol"
                           "regulation" [])) Cases.table_mixed eq_refl eq_refl eq_refl).
Defined.

(** Three rows, one of them labelled in lower case: two genes are returned. *)
Lemma load_degs_counts_witness :
  exists up_genes down_genes d,
    load_degs Cases.world "in/mixed.xlsx" "gene" "regulation" []
    = (OK (up_genes, down_genes), d)
    /\ List.length up_genes + List.length down_genes <= 3.
Proof.
  destruct (load_degs_counts Cases.world "in/mixed.xlsx" "gene" "regulation" []
              Cases.table_mixed eq_refl eq_refl eq_refl)
    as [up [down [d [H1 [H2 _]]]]].
  exists up, down, d. split; assumption.
Defined.

(** ** More on the significance filter *)

Lemma exc_map_returned {A B} (f : A -> Exc B) (l : list A) (bs : list B) :
  exc_map f l = OK bs -> forall a, In a l -> exists b, f a = OK b.
Proof.
  revert bs. induction l as [|x l IH]; intros bs H a Hin; [contradiction|].
  simpl in H. destruct (f x) as [b|e] eqn:Ex; [|discriminate]. simpl in H.
  destruct (exc_map f l) as [bs'|e]; [|discriminate].
  destruct Hin as [->|Hin]; [now exists b|]. exact (IH bs' eq_refl a Hin).
Qed.

Lemma filter_twice {A} (p : A -> bool) (l : list A) : filter p (filter p l) = filter p l.
Proof.
  induction l as [|a l IH]; simpl; auto.
  destruct (p a) eqn:E; simpl; [rewrite E|]; now rewrite ?IH.
Qed.

(** The filter on a table with numeric adjusted p-values. *)
Lemma filter_significant_rows (df : DataFrame) (threshold : float) :
  result_table df = true ->
  exists out,
    filter_significant (Some df) threshold = OK out
    /\ rows out = filter (significant threshold) (rows df)
    /\ (df_empty df = false -> columns out = columns df).
Proof.
  intros Ht. unfold filter_significant.
  destruct (df_empty df) eqn:He.
  - exists empty_frame. split; [reflexivity|]. split; [|discriminate].
    now rewrite (result_table_empty_rows df Ht He).
  - pose proof (result_table_rows df Ht) as Hrows.
    unfold result_table in Ht. apply andb_prop in Ht as [Hc _].
    unfold get_column. rewrite Hc. cbn [exc_bind].
    rewrite (exc_map_ok _ (fun c => match c with
                                    | CNum x => PrimFloat.ltb x threshold
                                    | CStr _ => false
                                    end)).
    + cbn [exc_bind]. eexists. split; [reflexivity|]. split; [|reflexivity].
      cbn [rows df_mask]. rewrite mask_filter_via. apply filter_ext_in.
      intros r Hr. unfold significant. now rewrite (Hrows r Hr).
    + intros c Hc'. apply in_map_iff in Hc' as [r [<- Hr]].
      now rewrite (Hrows r Hr).
Qed.

Lemma df_empty_no_rows (df : DataFrame) : rows df = [] -> df_empty df = true.
Proof. unfold df_empty. intros ->. now destruct (columns df). Qed.

(** X6. Filtering is idempotent: on a table with numeric adjusted p-values,
    filtering the filtered table again at the same threshold keeps the same
    rows, and returns the very same table unless nothing passed (then the
    empty table, without columns, comes back). *)
Theorem filter_significant_idempotent (df : DataFrame) (threshold : float) :
  result_table df = true ->
  exists out out',
    filter_significant (Some df) threshold = OK out
    /\ filter_significant (Some out) threshold = OK out'
    /\ rows out' = rows out
    /\ (rows out <> [] -> out' = out).
Proof.
  intros Ht. destruct (filter_significant_rows df threshold Ht) as [out [Hf [Hr Hc]]].
  exists out. destruct (rows out) as [|r rs] eqn:Er.
  - exists empty_frame. split; [exact Hf|]. split.
    + unfold filter_significant. now rewrite (df_empty_no_rows out Er).
    + split; [reflexivity|congruence].
  - assert (He : df_empty df = false).
    { destruct (df_empty df) eqn:E; auto.
      rewrite (result_table_empty_rows df Ht E) in Hr. discriminate. }
    specialize (Hc He).
    assert (Ht' : result_table out = true).
    { unfold result_table in *. rewrite Hc. apply andb_prop in Ht as [H1 H2].
      rewrite H1. cbn [andb]. rewrite forallb_forall in *. intros x Hx.
      apply H2. rewrite Er, Hr in Hx. now apply filter_In in Hx as [Hx _]. }
    destruct (filter_significant_rows out threshold Ht') as [out' [Hf' [Hr' Hc']]].
    assert (He' : df_empty out = false).
    { unfold df_empty. rewrite Er, Hc. unfold df_empty in He.
      destruct (columns df); [discriminate|reflexivity]. }
    exists out'. split; [exact Hf|]. split; [exact Hf'|].
    assert (Hrows : rows out' = r :: rs).
    { rewrite Hr', Er, Hr. rewrite filter_twice. now rewrite <- Hr. }
    split; [exact Hrows|]. intros _.
    specialize (Hc' He'). destruct out as [c1 r1], out' as [c2 r2].
    cbn [rows columns] in *. congruence.
Qed.

(** X7. The filter returns exactly on the missing result, on empty tables and
    on tables whose [Adjusted P-value] column exists and holds only numbers;
    on a non-empty table without that column it raises
    [KeyError('Adjusted P-value')]. *)
Theorem filter_significant_returns_iff (df : DataFrame) (threshold : float) :
  ((exists out, filter_significant (Some df) threshold = OK out)
   <-> df_empty df = true \/ result_table df = true)
  /\ (df_empty df = false ->
      mem "Adjusted P-value" (columns df) = false ->
      filter_significant (Some df) threshold = Raise (KeyError "Adjusted P-value")).
Proof.
  split; [split|].
  - intros [out H]. unfold filter_significant in H.
    destruct (df_empty df) eqn:He; [now left|right].
    unfold get_column in H. unfold result_table.
    destruct (mem "Adjusted P-value" (columns df)); [|discriminate].
    cbn [exc_bind andb] in *.
    destruct (exc_map (cell_lt threshold) _) as [mask|e] eqn:Em; [|discriminate].
    apply forallb_forall. intros r Hr.
    destruct (exc_map_returned _ _ _ Em (row_get r "Adjusted P-value")) as [b Hb].
    { apply in_map_iff. now exists r. }
    destruct (row_get r "Adjusted P-value"); [discriminate|reflexivity].
  - intros [He|Ht].
    + exists empty_frame. unfold filter_significant. now rewrite He.
    + destruct (filter_significant_rows df threshold Ht) as [out [H _]]. now exists out.
  - intros He Hc. unfold filter_significant, get_column. now rewrite He, Hc.
Qed.

Lemma filter_significant_idempotent_witness :
  exists out out',
    filter_significant (Some Scenario.provider_table) default_p_threshold = OK out
    /\ filter_significant (Some out) default_p_threshold = OK out'
    /\ out' = out.
Proof.
  destruct (filter_significant_idempotent Scenario.provider_table default_p_threshold
              eq_refl) as [out [out' [H1 [H2 [_ H4]]]]].
  exists out, out'. split; [exact H1|]. split; [exact H2|].
  apply H4. injection H1 as <-. discriminate.
Defined.

(** The provider table without adjusted p-values. *)
Lemma filter_significant_returns_iff_witness :
  filter_significant (Some Cases.table_no_padj) default_p_threshold
  = Raise (KeyError "Adjusted P-value").
Proof.
  exact (proj2 (filter_significant_returns_iff Cases.table_no_padj default_p_threshold)
               eq_refl eq_refl).
Defined.

(** ** The invoker, the result writer and the chart *)

Section Artifacts.

Variable w : World.

(** The invoker on a request that the provider answers. *)
Lemma run_enrichment_provider_answer (self : EnrichmentAnalyzer)
    (gene_list : list cell) (gene_set : list string) (analysis_name : string)
    (h : history) (enr : Enrichr) :
  gene_list <> [] ->
  enrichr w
    (h ++ [EvRunEnrichment gene_list gene_set analysis_name;
           EvLog INFO ("Running " +++ analysis_name +++ " with "
                       +++ str_nat (List.length gene_list) +++ " genes.")])
    gene_list gene_set (organism self) = OK enr ->
  run_enrichment w self gene_list gene_set analysis_name h
  = (OK (Some enr),
     [EvRunEnrichment gene_list gene_set analysis_name;
      EvLog INFO ("Running " +++ analysis_name +++ " with "
                  +++ str_nat (List.length gene_list) +++ " genes.");
      EvEnrichr gene_list gene_set (organism self)]).
Proof.
  intros Hne Hans. destruct gene_list as [|g gs]; [congruence|].
  unfold run_enrichment, log, bind, try_except, emit, interact, ret.
  cbn [app]. rewrite <- app_assoc. cbn [app].
  rewrite Hans. reflexivity.
Qed.

(** X8. Saving results never raises.  Without a result it only logs a
    warning and writes nothing; with a result it writes the result table to
    [<output_dir>/<subdir>/<filename>.xlsx] once, and logs either that the
    file was saved or, when the write raised, the error with its text. *)
Theorem save_results_never_raises (self : EnrichmentAnalyzer) (res : option Enrichr)
    (filename subdir : string) (h : history) :
  let output_path :=
    path_join (path_join (output_dir self) subdir) (filename +++ ".xlsx") in
  exists d,
    save_results w self res filename subdir h = (OK tt, d)
    /\ match res with
       | None => d = [EvLog WARNING ("No results to save for " +++ filename)]
       | Some r =>
           d = [EvToExcel output_path (results r);
                EvLog INFO ("Results saved to " +++ output_path)]
           \/ exists e,
                to_excel w h output_path (results r) = Raise e
                /\ d = [EvToExcel output_path (results r);
                        EvLog ERROR ("Error saving results to " +++ output_path
                                     +++ ": " +++ str_exn e)]
       end.
Proof.
  intros output_path. unfold save_results. destruct res as [r|].
  - fold output_path. unfold try_except, bind, interact, log, emit.
    destruct (to_excel w h output_path (results r)) as [[]|e] eqn:E.
    + eexists. split; [reflexivity|]. now left.
    + eexists. split; [reflexivity|]. right. now exists e.
  - eexists. split; reflexivity.
Qed.

(** X9. Without data there is no chart: when both tables are empty the
    chart function logs [No data to plot for <title>] and does nothing
    else. *)
Theorem create_comparison_plot_no_data (self : EnrichmentAnalyzer)
    (up_results down_results : DataFrame) (plot_title filename : string) (top_n : Z)
    (h : history) :
  df_empty up_results = true ->
  df_empty down_results = true ->
  create_comparison_plot w self up_results down_results plot_title filename top_n h
  = (OK tt, [EvLog WARNING ("No data to plot for " +++ plot_title)]).
Proof.
  intros Hu Hd. unfold create_comparison_plot, up_plot_data, down_plot_data.
  rewrite Hu, Hd. reflexivity.
Qed.



End Artifacts.

Lemma create_comparison_plot_no_data_witness :
  create_comparison_plot Scenario.world Scenario.analyzer empty_frame empty_frame
    "s1 - KEGG Pathways" "s1_kegg_pathways" default_top_n []
  = (OK tt, [EvLog WARNING "No data to plot for s1 - KEGG Pathways"]).
Proof.
  exact (create_comparison_plot_no_data Scenario.world Scenario.analyzer empty_frame
           empty_frame "s1 - KEGG Pathways" "s1_kegg_pathways" default_top_n []
           eq_refl eq_refl).
Defined.


(** ** What a sample analysis returns *)

Lemma bind_fst_returned {A B} (m : M A) (f : A -> M B) (h : history) (b : B) :
  fst (bind m f h) = OK b ->
  exists a d1, m h = (OK a, d1) /\ fst (f a (h ++ d1)) = OK b.
Proof.
  unfold bind. destruct (m h) as [[a|e] d1]; [|discriminate].
  destruct (f a (h ++ d1)) as [r d2] eqn:E. cbn [fst]. intros ->.
  exists a, d1. split; [reflexivity|]. now rewrite E.
Qed.

Lemma for_each_chain {A S} (R : A -> S -> S -> Prop) (body : A -> S -> M S) :
  (forall x s h s', fst (body x s h) = OK s' -> R x s s') ->
  forall xs s h s', fst (for_each xs body s h) = OK s' -> chain R xs s s'.
Proof.
  intros Hb. induction xs as [|x xs IH]; intros s h s' H; simpl in *.
  - now injection H as <-.
  - apply bind_fst_returned in H as [s1 [d1 [H1 H2]]].
    exists s1. split; [|exact (IH _ _ _ H2)].
    apply (Hb x s h). now rewrite H1.
Qed.

Section SampleResult.

Variable w : World.

(** One turn of a plot loop sets the two counts of its category. *)
Lemma plot_turn_result (self : EnrichmentAnalyzer) (up_data down_data : DataFrame)
    (p_threshold : float) (t1 f1 t2 f2 k_up k_down : string) (s : dict value)
    (h : history) (s' : dict value) :
  fst ((up_data_filtered <- lift (filter_significant (Some up_data) p_threshold) ;;
        down_data_filtered <- lift (filter_significant (Some down_data) p_threshold) ;;
        create_comparison_plot w self up_data down_data t1 f1 default_top_n ;;
        create_comparison_plot w self up_data_filtered down_data_filtered t2 f2
          default_top_n ;;
        ret (dict_set (dict_set s k_up (VInt (List.length (rows up_data_filtered))))
                      k_down (VInt (List.length (rows down_data_filtered))))) h)
  = OK s' ->
  exists n m, s' = dict_set (dict_set s k_up (VInt n)) k_down (VInt m).
Proof.
  intros H.
  apply bind_fst_returned in H as [u [d1 [_ H]]].
  apply bind_fst_returned in H as [d [d2 [_ H]]].
  apply bind_fst_returned in H as [[] [d3 [_ H]]].
  apply bind_fst_returned in H as [[] [d4 [_ H]]].
  injection H as <-. now eexists _, _.
Qed.

Lemma go_plots_result (self : EnrichmentAnalyzer) (sample_name : string)
    (p_threshold : float) (go_results : dict DataFrame) (s : dict value) (h : history)
    (s' : dict value) :
  fst (go_plots w self sample_name p_threshold go_results s h) = OK s' ->
  chain (fun go_type s0 s1 =>
           exists n m,
             s1 = dict_set (dict_set s0 ("go_" +++ go_type +++ "_up_significant") (VInt n))
                           ("go_" +++ go_type +++ "_down_significant") (VInt m))
        ["biological_process"; "molecular_function"; "cellular_component"] s s'.
Proof.
  unfold go_plots. apply for_each_chain.
  intros go_type s0 h0 s1. apply plot_turn_result.
Qed.

Lemma pathway_plots_result (self : EnrichmentAnalyzer) (sample_name : string)
    (p_threshold : float) (pathway_results : dict DataFrame) (s : dict value)
    (h : history) (s' : dict value) :
  fst (pathway_plots w self sample_name p_threshold pathway_results s h) = OK s' ->
  chain (fun db s0 s1 =>
           exists n m,
             s1 = dict_set (dict_set s0 (db +++ "_up_significant") (VInt n))
                           (db +++ "_down_significant") (VInt m))
        ["wikipathways"; "kegg"] s s'.
Proof.
  unfold pathway_plots. apply for_each_chain.
  intros db s0 h0 s1. apply plot_turn_result.
Qed.

Lemma analyze_loaded_result (self : EnrichmentAnalyzer) (sample_name : string)
    (p_threshold : float) (up_genes down_genes : list cell) (h : history)
    (r : dict value) :
  fst (analyze_loaded w self sample_name p_threshold up_genes down_genes h) = OK r ->
  exists counts,
    List.length counts = 10
    /\ r = success_record sample_name (List.length up_genes) (List.length down_genes)
             counts.
Proof.
  unfold analyze_loaded. intros H.
  apply bind_fst_returned in H as [[] [d1 [_ H]]].
  apply bind_fst_returned in H as [go_results [d2 [_ H]]].
  apply bind_fst_returned in H as [[] [d3 [_ H]]].
  apply bind_fst_returned in H as [pathway_results [d4 [_ H]]].
  apply bind_fst_returned in H as [[] [d5 [_ H]]].
  apply bind_fst_returned in H as [s1 [d6 [Hgo H]]].
  apply bind_fst_returned in H as [s2 [d7 [Hpw H]]].
  apply bind_fst_returned in H as [[] [d8 [_ H]]].
  injection H as <-.
  apply (f_equal fst) in Hgo, Hpw. cbn [fst] in Hgo, Hpw.
  apply go_plots_result in Hgo. apply pathway_plots_result in Hpw.
  cbn [chain] in Hgo, Hpw.
  destruct Hgo as [sa [[n1 [n2 ->]] [sb [[n3 [n4 ->]] [sc [[n5 [n6 ->]] ->]]]]]].
  destruct Hpw as [sd [[n7 [n8 ->]] [se [[n9 [n10 ->]] ->]]]].
  exists [n1; n2; n3; n4; n5; n6; n7; n8; n9; n10]. split; reflexivity.
Qed.

(** Whatever [analyze_sample] returns is the record of a failed load or a
    success record. *)
Lemma analyze_sample_returns (self : EnrichmentAnalyzer)
    (xlsx_path sample_name gene_col regulation_col : string) (p_threshold : float)
    (h : history) (r : dict value) :
  fst (analyze_sample w self xlsx_path sample_name gene_col regulation_col p_threshold h)
  = OK r ->
  (exists e, r = load_failure_record e)
  \/ (exists n_up n_down counts,
        List.length counts = 10 /\ r = success_record sample_name n_up n_down counts).
Proof.
  unfold analyze_sample. intros H.
  apply bind_fst_returned in H as [[] [d1 [_ H]]].
  apply bind_fst_returned in H as [[] [d2 [_ H]]].
  apply bind_fst_returned in H as [loaded [d3 [Hload H]]].
  pose proof (load_or_fail_run w sample_name xlsx_path gene_col regulation_col
                ((h ++ d1) ++ d2)) as Hrun.
  destruct (load_degs w xlsx_path gene_col regulation_col ((h ++ d1) ++ d2))
    as [[[up down]|e] d]; rewrite Hrun in Hload; injection Hload as <- _.
  - right. apply analyze_loaded_result in H as [counts [Hlen ->]].
    now exists (List.length up), (List.length down), counts.
  - left. exists e. now injection H as <-.
Qed.

(** X11. Once the sample directory is made and the dataset is loaded, the
    analyzer never returns a failed record: whatever it returns is a success
    record with the sample name, the lengths of the two gene lists, and the
    ten significant-term counts under their fixed keys, in their fixed
    order. *)
Theorem analyze_sample_success_record (self : EnrichmentAnalyzer)
    (xlsx_path sample_name gene_col regulation_col : string) (p_threshold : float)
    (h : history) (up_genes down_genes : list cell) (r : dict value) :
  mkdir w (h ++ [EvLog INFO ("Starting analysis for sample: " +++ sample_name)])
        false (path_join (output_dir self) sample_name) = OK tt ->
  fst (load_degs w xlsx_path gene_col regulation_col
         (h ++ [EvLog INFO ("Starting analysis for sample: " +++ sample_name);
                EvMkdir false (path_join (output_dir self) sample_name)]))
  = OK (up_genes, down_genes) ->
  fst (analyze_sample w self xlsx_path sample_name gene_col regulation_col p_threshold h)
  = OK r ->
  exists counts,
    List.length counts = 10
    /\ r = success_record sample_name (List.length up_genes) (List.length down_genes)
             counts
    /\ map fst r = ["sample_name"; "up_genes_count"; "down_genes_count"; "status"]
                   ++ count_keys.
Proof.
  intros Hmk Hload. unfold analyze_sample.
  rewrite (bind_returned _ _ h tt
             [EvLog INFO ("Starting analysis for sample: " +++ sample_name)])
    by reflexivity.
  cbn [fst]. unfold call_mkdir.
  rewrite (bind_returned _ _ _ tt
             [EvMkdir false (path_join (output_dir self) sample_name)])
    by (unfold interact; now rewrite Hmk).
  cbn [fst]. rewrite <- app_assoc. cbn [app].
  pose proof (load_or_fail_run w sample_name xlsx_path gene_col regulation_col
                (h ++ [EvLog INFO ("Starting analysis for sample: " +++ sample_name);
                       EvMkdir false (path_join (output_dir self) sample_name)])) as Hrun.
  destruct (load_degs w xlsx_path gene_col regulation_col _) as [[genes|e'] d];
    cbn [fst] in Hload; [|discriminate].
  injection Hload as ->.
  rewrite (bind_returned _ _ _ _ _ Hrun). cbn [fst]. intros H.
  apply analyze_loaded_result in H as [counts [Hlen ->]].
  exists counts. split; [exact Hlen|]. split; [reflexivity|].
  destruct counts as [|c1 [|c2 [|c3 [|c4 [|c5 [|c6 [|c7 [|c8 [|c9 [|c10 [|c11 cs]]]]]]]]]]];
    try discriminate.
  reflexivity.
Qed.

End SampleResult.

(** ** A sample without results *)

Lemma artifacts_app (d1 d2 : list event) :
  artifacts (d1 ++ d2) = artifacts d1 ++ artifacts d2.
Proof. apply filter_app. Qed.

Lemma for_each_unchanged {A S} (body : A -> S -> M S) (s : S) :
  (forall x h, exists d, body x s h = (OK s, d) /\ artifacts d = []) ->
  forall xs h, exists d, for_each xs body s h = (OK s, d) /\ artifacts d = [].
Proof.
  intros Hb. induction xs as [|x xs IH]; intros h.
  - exists []. split; reflexivity.
  - destruct (Hb x h) as [d1 [H1 A1]]. destruct (IH (h ++ d1)) as [d2 [H2 A2]].
    exists (d1 ++ d2). split.
    + simpl. now rewrite (bind_returned _ _ _ _ _ H1), H2.
    + now rewrite artifacts_app, A1, A2.
Qed.

Section NoResults.

Variable w : World.

Lemma run_enrichment_none (self : EnrichmentAnalyzer) (gene_list : list cell)
    (gene_set : list string) (analysis_name : string) (h : history) :
  gene_list = [] \/ provider_down w ->
  exists d,
    run_enrichment w self gene_list gene_set analysis_name h = (OK None, d)
    /\ artifacts d = [].
Proof.
  intros Hno. destruct gene_list as [|g gs].
  - eexists. split; reflexivity.
  - destruct Hno as [Hnil|Hdown]; [discriminate|].
    unfold run_enrichment, log, bind, try_except, emit, interact, ret. cbn [app].
    match goal with
    | |- context [enrichr w ?h0 ?gl ?s ?o] =>
        destruct (Hdown h0 gl s o) as [e He]; rewrite He
    end.
    eexists. split; reflexivity.
Qed.

(** One turn of a query loop that gets no result leaves the store as it was. *)
Lemma query_turn_none (self : EnrichmentAnalyzer) (up_genes down_genes : list cell)
    (library up_name down_name f1 f2 subdir k1 k2 : string) (store : dict DataFrame)
    (h : history) :
  (up_genes = [] /\ down_genes = []) \/ provider_down w ->
  exists d,
    (up_enr <- run_enrichment w self up_genes [library] up_name ;;
     store' <- match up_enr with
               | Some e => save_results w self up_enr f1 subdir ;;
                           ret (dict_set store k1 (results e))
               | None => ret store
               end ;;
     down_enr <- run_enrichment w self down_genes [library] down_name ;;
     match down_enr with
     | Some e => save_results w self down_enr f2 subdir ;;
                 ret (dict_set store' k2 (results e))
     | None => ret store'
     end) h = (OK store, d)
    /\ artifacts d = [].
Proof.
  intros Hno.
  assert (Hu : up_genes = [] \/ provider_down w) by tauto.
  assert (Hd : down_genes = [] \/ provider_down w) by tauto.
  destruct (run_enrichment_none self up_genes [library] up_name h Hu) as [d1 [H1 A1]].
  destruct (run_enrichment_none self down_genes [library] down_name ((h ++ d1) ++ []) Hd)
    as [d2 [H2 A2]].
  exists (d1 ++ [] ++ d2 ++ []). split.
  - rewrite (bind_returned _ _ _ _ _ H1). cbn [fst snd].
    rewrite (bind_returned _ _ (h ++ d1) store []) by reflexivity. cbn [fst snd].
    rewrite (bind_returned _ _ _ _ _ H2). reflexivity.
  - rewrite !artifacts_app, A1, A2. reflexivity.
Qed.

(** The plot stage on empty stores: six and four warnings, ten zero counts. *)
Lemma plots_without_results (self : EnrichmentAnalyzer) (sample_name : string)
    (p_threshold : float) (n_up n_down : nat) (h : history) :
  exists d,
    (log INFO "Creating comparison plots..." ;;
     results_summary <- go_plots w self sample_name p_threshold []
                          [("sample_name", VStr sample_name);
                           ("up_genes_count", VInt n_up);
                           ("down_genes_count", VInt n_down);
                           ("status", VStr "success")] ;;
     results_summary <- pathway_plots w self sample_name p_threshold []
                          results_summary ;;
     log INFO ("Analysis completed for sample: " +++ sample_name) ;;
     ret results_summary) h
    = (OK (success_record sample_name n_up n_down (repeat 0 10)), d)
    /\ artifacts d = [].
Proof. eexists. split; reflexivity. Qed.

Lemma analyze_loaded_without_results (self : EnrichmentAnalyzer) (sample_name : string)
    (p_threshold : float) (up_genes down_genes : list cell) (h : history) :
  (up_genes = [] /\ down_genes = []) \/ provider_down w ->
  exists d,
    analyze_loaded w self sample_name p_threshold up_genes down_genes h
    = (OK (success_record sample_name (List.length up_genes) (List.length down_genes)
             (repeat 0 10)), d)
    /\ artifacts d = [].
Proof.
  intros Hno. unfold analyze_loaded.
  rewrite (bind_returned _ _ h tt [EvLog INFO "Running GO enrichment analysis..."])
    by reflexivity.
  destruct (for_each_unchanged
              (fun go_type go_results =>
                 let library := "GO_" +++ go_type +++ "_2018" in
                 up_enr <- run_enrichment w self up_genes [library]
                             ("GO " +++ go_type +++ " upregulated") ;;
                 go_results <-
                   match up_enr with
                   | Some enr =>
                       save_results w self up_enr (sample_name +++ "_up_GO_" +++ go_type)
                         "go_results" ;;
                       ret (dict_set go_results ("up_" +++ lower go_type) (results enr))
                   | None => ret go_results
                   end ;;
                 down_enr <- run_enrichment w self down_genes [library]
                               ("GO " +++ go_type +++ " downregulated") ;;
                 match down_enr with
                 | Some enr =>
                     save_results w self down_enr (sample_name +++ "_down_GO_" +++ go_type)
                       "go_results" ;;
                     ret (dict_set go_results ("down_" +++ lower go_type) (results enr))
                 | None => ret go_results
                 end)
              [] (fun x h0 => query_turn_none self up_genes down_genes _ _ _ _ _ _ _ _ []
                                h0 Hno)
              ["Biological_Process"; "Molecular_Function"; "Cellular_Component"]
              (h ++ [EvLog INFO "Running GO enrichment analysis..."]))
    as [dgo [Hgo Ago]].
  fold (go_enrichment w self sample_name up_genes down_genes) in Hgo.
  rewrite (bind_returned _ _ _ _ _ Hgo).
  rewrite (bind_returned _ _ _ tt [EvLog INFO "Running pathway enrichment analysis..."])
    by reflexivity.
  destruct (for_each_unchanged
              (fun pathway_db pathway_results =>
                 let db_name := split_head "_" pathway_db in
                 up_enr <- run_enrichment w self up_genes [pathway_db]
                             (db_name +++ " upregulated") ;;
                 pathway_results <-
                   match up_enr with
                   | Some enr =>
                       save_results w self up_enr (sample_name +++ "_up_" +++ db_name)
                         "pathway_results" ;;
                       ret (dict_set pathway_results ("up_" +++ lower db_name)
                                     (results enr))
                   | None => ret pathway_results
                   end ;;
                 down_enr <- run_enrichment w self down_genes [pathway_db]
                               (db_name +++ " downregulated") ;;
                 match down_enr with
                 | Some enr =>
                     save_results w self down_enr (sample_name +++ "_down_" +++ db_name)
                       "pathway_results" ;;
                     ret (dict_set pathway_results ("down_" +++ lower db_name)
                                   (results enr))
                 | None => ret pathway_results
                 end)
              [] (fun x h0 => query_turn_none self up_genes down_genes _ _ _ _ _ _ _ _ []
                                h0 Hno)
              ["WikiPathways_2018"; "KEGG_2019"]
              (((h ++ [EvLog INFO "Running GO enrichment analysis..."]) ++ dgo)
               ++ [EvLog INFO "Running pathway enrichment analysis..."]))
    as [dpw [Hpw Apw]].
  fold (pathway_enrichment w self sample_name up_genes down_genes) in Hpw.
  rewrite (bind_returned _ _ _ _ _ Hpw).
  destruct (plots_without_results self sample_name p_threshold
              (List.length up_genes) (List.length down_genes)
              ((((h ++ [EvLog INFO "Running GO enrichment analysis..."]) ++ dgo)
                ++ [EvLog INFO "Running pathway enrichment analysis..."]) ++ dpw))
    as [dpl [Hpl Apl]].
  rewrite Hpl. cbn [fst snd].
  eexists. split; [reflexivity|].
  rewrite !artifacts_app, Ago, Apw, Apl. reflexivity.
Qed.

Lemma load_degs_logs_nothing_else (file_path gene_col regulation_col : string)
    (h : history) :
  artifacts (snd (load_degs w file_path gene_col regulation_col h)) = [].
Proof.
  unfold load_degs, try_except, bind, interact, lift, log, emit, ret, raise.
  destruct (read_excel w h file_path) as [df|e]; [|reflexivity].
  destruct (derive_regulation df regulation_col) as [df'|e]; [|reflexivity].
  destruct (genes_with df' regulation_col "Upregulated" gene_col) as [up|e];
    [|reflexivity].
  destruct (genes_with df' regulation_col "Downregulated" gene_col) as [down|e];
    reflexivity.
Qed.

(** X12. A loaded sample for which no query gives a result, because both
    gene lists are empty or because the provider refuses every request, still
    ends as a success: the record holds the two gene counts and ten zero
    counts, and no result file is written and no chart is drawn or saved. *)
Theorem analyze_sample_without_results (self : EnrichmentAnalyzer)
    (xlsx_path sample_name gene_col regulation_col : string) (p_threshold : float)
    (h : history) (up_genes down_genes : list cell) :
  mkdir w (h ++ [EvLog INFO ("Starting analysis for sample: " +++ sample_name)])
        false (path_join (output_dir self) sample_name) = OK tt ->
  fst (load_degs w xlsx_path gene_col regulation_col
         (h ++ [EvLog INFO ("Starting analysis for sample: " +++ sample_name);
                EvMkdir false (path_join (output_dir self) sample_name)]))
  = OK (up_genes, down_genes) ->
  (up_genes = [] /\ down_genes = []) \/ provider_down w ->
  let run := analyze_sample w self xlsx_path sample_name gene_col regulation_col
               p_threshold h in
  fst run = OK (success_record sample_name (List.length up_genes)
                  (List.length down_genes) (repeat 0 10))
  /\ Forall (fun ev => is_artifact ev = false) (snd run).
Proof.
  intros Hmk Hload Hno run. subst run. unfold analyze_sample.
  rewrite (bind_returned _ _ h tt
             [EvLog INFO ("Starting analysis for sample: " +++ sample_name)])
    by reflexivity.
  unfold call_mkdir.
  rewrite (bind_returned _ _ _ tt
             [EvMkdir false (path_join (output_dir self) sample_name)])
    by (unfold interact; now rewrite Hmk).
  rewrite <- app_assoc. cbn [app fst snd].
  pose proof (load_or_fail_run w sample_name xlsx_path gene_col regulation_col
                (h ++ [EvLog INFO ("Starting analysis for sample: " +++ sample_name);
                       EvMkdir false (path_join (output_dir self) sample_name)])) as Hrun.
  pose proof (load_degs_logs_nothing_else xlsx_path gene_col regulation_col
                (h ++ [EvLog INFO ("Starting analysis for sample: " +++ sample_name);
                       EvMkdir false (path_join (output_dir self) sample_name)])) as Hq.
  destruct (load_degs w xlsx_path gene_col regulation_col _) as [[genes|e'] d];
    cbn [fst snd] in Hload, Hq; [|discriminate].
  injection Hload as ->.
  rewrite (bind_returned _ _ _ _ _ Hrun).
  destruct (analyze_loaded_without_results self sample_name p_threshold up_genes
              down_genes
              ((h ++ [EvLog INFO ("Starting analysis for sample: " +++ sample_name);
                      EvMkdir false (path_join (output_dir self) sample_name)])
               ++ d ++ []) Hno) as [dl [Hl Al]].
  rewrite Hl. cbn [fst snd]. split; [reflexivity|].
  apply Forall_forall. intros ev Hin.
  destruct (is_artifact ev) eqn:Ea; [|reflexivity]. exfalso.
  assert (Hf : In ev (artifacts (EvLog INFO ("Starting analysis for sample: "
                                             +++ sample_name)
                                 :: EvMkdir false (path_join (output_dir self) sample_name)
                                 :: (d ++ []) ++ dl))).
  { apply filter_In. split; [exact Hin|exact Ea]. }
  cbn [artifacts filter is_artifact] in Hf. fold (artifacts ((d ++ []) ++ dl)) in Hf.
  rewrite !artifacts_app, Hq, Al in Hf. exact Hf.
Qed.

End NoResults.

(** ** The batch commands as a whole *)

Lemma for_each_returns {A} (body : A -> unit -> M unit) (xs : list A) :
  (forall x, In x xs -> forall h, exists d, body x tt h = (OK tt, d)) ->
  forall h, exists d, for_each xs body tt h = (OK tt, d).
Proof.
  induction xs as [|x xs IH]; intros Hb h.
  - now exists [].
  - destruct (Hb x (or_introl eq_refl) h) as [d1 H1].
    destruct (IH (fun y Hy => Hb y (or_intror Hy)) (h ++ d1)) as [d2 H2].
    exists (d1 ++ d2). simpl. now rewrite (bind_returned _ _ _ _ _ H1), H2.
Qed.

Lemma Forall2_right {A B} (R : A -> B -> Prop) (P : B -> Prop) (l : list A)
    (l' : list B) :
  (forall a b, R a b -> P b) -> Forall2 R l l' -> Forall P l'.
Proof. intros H HF. induction HF; constructor; eauto. Qed.

Lemma filter_id_map {A} (p : A -> bool) (l : list A) :
  List.length (filter (fun b : bool => b) (map p l)) = List.length (filter p l).
Proof. induction l as [|a l IH]; simpl; auto. destruct (p a); simpl; now rewrite IH. Qed.

Lemma reportable_is_success (r : dict value) :
  reportable r -> is_success r = OK (counts_as_success r).
Proof.
  intros [[e ->]|[[name [e ->]]|[name [n_up [n_down [counts ->]]]]]]; reflexivity.
Qed.

Section Report.

Variable w : World.

Lemma report_line_returns (r : dict value) (h : history) :
  reportable r ->
  exists d,
    (ok <- lift (is_success r) ;;
     if ok : bool then
       name <- lift (getitem r "sample_name") ;;
       up <- lift (getitem r "up_genes_count") ;;
       down <- lift (getitem r "down_genes_count") ;;
       print ("   - " +++ str_value name +++ ": " +++ str_value up +++ " up, "
              +++ str_value down +++ " down")
     else ret tt) h = (OK tt, d).
Proof.
  intros [[e ->]|[[name [e ->]]|[name [n_up [n_down [counts ->]]]]]];
    eexists; reflexivity.
Qed.

Lemma print_statistics_returns (results_summary : list (dict value)) (h : history) :
  Forall reportable results_summary ->
  exists d, print_statistics results_summary h = (OK tt, d).
Proof.
  intros Hall. rewrite Forall_forall in Hall. unfold print_statistics.
  assert (Hflags : exc_map is_success results_summary
                   = OK (map counts_as_success results_summary)).
  { apply exc_map_ok. intros r Hr. apply reportable_is_success, Hall, Hr. }
  rewrite (bind_returned _ _ h (map counts_as_success results_summary) [])
    by (unfold lift; now rewrite Hflags).
  do 2 (rewrite (bind_returned _ _ _ tt [EvPrint _]) by reflexivity).
  cbn [fst snd].
  destruct (0 <? _)%nat.
  - rewrite (bind_returned _ _ _ tt [EvPrint (nl +++ "Successful samples:")])
      by reflexivity.
    match goal with
    | |- context [for_each results_summary ?body tt ?h1] =>
        destruct (for_each_returns body results_summary
                    (fun r Hr h0 => report_line_returns r h0 (Hall r Hr)) h1) as [d Hd]
    end.
    rewrite Hd. eexists. reflexivity.
  - eexists. reflexivity.
Qed.

(** X13. The closing report of [process_directory_structure] never raises on
    the records a batch can hold: it prints how many of them are successes
    and how many are not, the two numbers adding up to the number of
    records. *)
Theorem print_statistics_counts (results_summary : list (dict value)) (h : history) :
  Forall reportable results_summary ->
  let successful := List.length (filter counts_as_success results_summary) in
  successful <= List.length results_summary
  /\ exists rest,
       print_statistics results_summary h
       = (OK tt,
          EvPrint ("Successful analyses: " +++ str_nat successful)
          :: EvPrint ("Failed analyses: "
                      +++ str_nat (List.length results_summary - successful))
          :: rest).
Proof.
  intros Hall successful. split; [apply filter_length_le|].
  rewrite Forall_forall in Hall. unfold print_statistics.
  assert (Hflags : exc_map is_success results_summary
                   = OK (map counts_as_success results_summary)).
  { apply exc_map_ok. intros r Hr. apply reportable_is_success, Hall, Hr. }
  rewrite (bind_returned _ _ h (map counts_as_success results_summary) [])
    by (unfold lift; now rewrite Hflags).
  rewrite filter_id_map. fold successful. cbn [fst snd app].
  rewrite (bind_returned _ _ _ tt
             [EvPrint ("Successful analyses: " +++ str_nat successful)])
    by reflexivity.
  rewrite (bind_returned _ _ _ tt
             [EvPrint ("Failed analyses: "
                       +++ str_nat (List.length results_summary - successful))])
    by reflexivity.
  cbn [fst snd app].
  destruct (0 <? successful)%nat.
  - rewrite (bind_returned _ _ _ tt [EvPrint (nl +++ "Successful samples:")])
      by reflexivity.
    destruct (for_each_returns
                (fun result _ =>
                   ok <- lift (is_success result) ;;
                   if ok : bool then
                     name <- lift (getitem result "sample_name") ;;
                     up <- lift (getitem result "up_genes_count") ;;
                     down <- lift (getitem result "down_genes_count") ;;
                     print ("   - " +++ str_value name +++ ": " +++ str_value up
                            +++ " up, " +++ str_value down +++ " down")
                   else ret tt)
                results_summary
                (fun r Hr h0 => report_line_returns r h0 (Hall r Hr))
                ((((h ++ [])
                   ++ [EvPrint ("Successful analyses: " +++ str_nat successful)])
                  ++ [EvPrint ("Failed analyses: "
                               +++ str_nat (List.length results_summary - successful))])
                 ++ [EvPrint (nl +++ "Successful samples:")])) as [d Hd].
    rewrite Hd. eexists. reflexivity.
  - eexists. reflexivity.
Qed.

(** X14. When the pattern matches no file, [batch_analyze] logs an error and
    returns the empty summary: it analyses nothing and writes no summary
    file. *)
Theorem batch_analyze_no_files (self : EnrichmentAnalyzer)
    (input_dir pattern gene_col regulation_col : string) (p_threshold : float)
    (h : history) :
  glob w h input_dir pattern = [] ->
  batch_analyze w self input_dir pattern gene_col regulation_col p_threshold h
  = (OK [],
     [EvGlob false input_dir pattern;
      EvLog ERROR ("No XLSX files found in " +++ input_dir +++ " with pattern "
                   +++ pattern)]).
Proof.
  intros Hglob. unfold batch_analyze, bind, list_files. rewrite Hglob. reflexivity.
Qed.

Lemma outcome_reportable (self : EnrichmentAnalyzer) (gene_col regulation_col : string)
    (p_threshold : float) (h : history) (xlsx_file sample_name : string)
    (o : dict value) :
  outcome_from w self gene_col regulation_col p_threshold h xlsx_file sample_name o ->
  reportable o.
Proof.
  intros [d0 H].
  destruct (fst (analyze_sample w self xlsx_file sample_name gene_col regulation_col
                   p_threshold (h ++ d0))) as [r|e] eqn:E; subst o.
  - apply analyze_sample_returns in E as [[e ->]|[n_up [n_down [counts [_ ->]]]]].
    + left. now exists e.
    + right. right. now exists sample_name, n_up, n_down, counts.
  - right. left. now exists sample_name, e.
Qed.

(** X15. [process_directory_structure] as a whole.  If the analyzer cannot be
    built it raises at once.  If no file is found it prints that and returns
    nothing.  Otherwise every file found gets one outcome, in the order
    found, under the sample name made from its relative path; the summary of
    all outcomes is handed to the writer; and the function returns the
    summary, unless the writer raised, which is the only exception that can
    leave it. *)
Theorem process_directory_structure_run (base_dir output_dir : string) (h : history) :
  let run := process_directory_structure w base_dir output_dir h in
  match new_analyzer w "human" output_dir h with
  | (Raise e, d) => run = (Raise e, d)
  | (OK analyzer, d0) =>
      let summary_path := path_join output_dir "batch_summary.xlsx" in
      match rglob w (h ++ d0) base_dir "*.xlsx" with
      | [] =>
          run = (OK None,
                 d0 ++ [EvGlob true base_dir "*.xlsx";
                        EvPrint ("No XLSX files found in " +++ base_dir)])
      | rel :: rels =>
          exists results_summary,
            Forall2 (fun rel o =>
                       isolated_outcome w analyzer "gene" "regulation"
                         default_p_threshold h
                         (path_join base_dir rel) (directory_sample_name rel) o)
                    (rel :: rels) results_summary
            /\ In (EvSummaryToExcel summary_path results_summary) (snd run)
            /\ (fst run = OK (Some results_summary)
                \/ exists e h',
                     fst run = Raise e
                     /\ summary_to_excel w h' summary_path results_summary = Raise e)
      end
  end.
Proof.
  intros run. subst run. unfold process_directory_structure.
  destruct (new_analyzer w "human" output_dir h) as [[analyzer|e] d0] eqn:En.
  - rewrite (bind_returned _ _ _ _ _ En).
    rewrite (bind_returned _ _ (h ++ d0)
               (map (path_join base_dir) (rglob w (h ++ d0) base_dir "*.xlsx"))
               [EvGlob true base_dir "*.xlsx"]) by reflexivity.
    destruct (rglob w (h ++ d0) base_dir "*.xlsx") as [|rel rels] eqn:Eg.
    + reflexivity.
    + cbn [map fst snd].
      change (path_join base_dir rel :: map (path_join base_dir) rels)
        with (map (path_join base_dir) (rel :: rels)).
      rewrite (bind_returned _ _ _ tt
                 [EvPrint ("Found "
                           +++ str_nat (List.length
                                          (map (path_join base_dir) (rel :: rels)))
                           +++ " XLSX files to process.")]) by reflexivity.
      destruct (directory_loop_outcomes w analyzer base_dir (rel :: rels)
                  (((h ++ d0) ++ [EvGlob true base_dir "*.xlsx"])
                   ++ [EvPrint ("Found "
                                +++ str_nat (List.length
                                               (map (path_join base_dir) (rel :: rels)))
                                +++ " XLSX files to process.")]))
        as [results [d [Hloop Hall]]].
      rewrite (bind_returned _ _ _ _ _ Hloop).
      assert (Hall' : Forall2 (fun rel0 o =>
                                 outcome_from w analyzer "gene" "regulation"
                                   default_p_threshold h
                                   (path_join base_dir rel0) (directory_sample_name rel0) o)
                              (rel :: rels) results).
      { eapply Forall2_impl; [|exact Hall]. intros a b Hab.
        apply (outcome_from_later w _ _ _ _ h
                 (d0 ++ [EvGlob true base_dir "*.xlsx"]
                  ++ [EvPrint ("Found "
                               +++ str_nat (List.length
                                              (map (path_join base_dir) (rel :: rels)))
                               +++ " XLSX files to process.")])).
        now rewrite !app_assoc. }
      assert (Hrep : Forall reportable results).
      { eapply Forall2_right; [|exact Hall'].
        intros a o Ha. eapply outcome_reportable; exact Ha. }
      exists results. split.
      { eapply Forall2_impl; [|exact Hall']. intros a b. apply outcome_isolated. }
      assert (Htail : forall h0,
                 exists rest,
                   (interact (fun h1 => summary_to_excel w h1
                                          (path_join output_dir "batch_summary.xlsx")
                                          results)
                             (EvSummaryToExcel (path_join output_dir "batch_summary.xlsx")
                                               results) ;;
                    print (nl +++ banner) ;;
                    print "BATCH PROCESSING COMPLETED" ;;
                    print ("Results saved to " +++ output_dir) ;;
                    print ("Summary saved to "
                           +++ path_join output_dir "batch_summary.xlsx") ;;
                    print banner ;;
                    print_statistics results ;;
                    ret (Some results)) h0
                   = match summary_to_excel w h0
                             (path_join output_dir "batch_summary.xlsx") results with
                     | OK _ =>
                         (OK (Some results),
                          EvSummaryToExcel (path_join output_dir "batch_summary.xlsx")
                                           results :: rest)
                     | Raise e =>
                         (Raise e,
                          [EvSummaryToExcel (path_join output_dir "batch_summary.xlsx")
                                            results])
                     end).
      { intros h0.
        destruct (summary_to_excel w h0 (path_join output_dir "batch_summary.xlsx")
                    results) as [[]|e] eqn:Es.
        - rewrite (bind_returned _ _ h0 tt
                     [EvSummaryToExcel (path_join output_dir "batch_summary.xlsx")
                                       results])
            by (unfold interact; now rewrite Es).
          do 5 (rewrite (bind_returned _ _ _ tt [EvPrint _]) by reflexivity).
          match goal with
          | |- context [bind (print_statistics results) _ ?h1] =>
              destruct (print_statistics_returns results h1 Hrep) as [ds Hs]
          end.
          rewrite (bind_returned _ _ _ _ _ Hs). eexists. reflexivity.
        - exists [].
          now rewrite (bind_raised _ _ h0 e
                         [EvSummaryToExcel (path_join output_dir "batch_summary.xlsx")
                                           results])
            by (unfold interact; now rewrite Es). }
      match goal with
      | |- context [bind (interact _ _) _ ?h1] => destruct (Htail h1) as [rest Hrest]
      end.
      rewrite Hrest.
      match goal with
      | |- context [summary_to_excel w ?h1 ?p ?o] =>
          destruct (summary_to_excel w h1 p o) as [[]|e] eqn:Es
      end; cbn [fst snd].
      * split; [|now left].
        repeat (apply in_or_app; right). now left.
      * split; [|right; exists e; eexists; split; [reflexivity|exact Es]].
        repeat (apply in_or_app; right). now left.
  - now rewrite (bind_raised _ _ _ _ _ En).
Qed.

End Report.

(** ** Sample names *)

Lemma rsplit_at_none (sep : ascii) (s : string) :
  has_char sep s = false -> rsplit_at sep s = None.
Proof.
  induction s as [|c s IH]; simpl; auto.
  intros H. apply orb_false_iff in H as [Hc Hs]. now rewrite (IH Hs), Hc.
Qed.

Lemma rsplit_at_last (sep : ascii) (a b : string) :
  has_char sep b = false -> rsplit_at sep (a +++ String sep b) = Some (a, b).
Proof.
  intros Hb. induction a as [|c a IH]; simpl.
  - now rewrite (rsplit_at_none sep b Hb), Ascii.eqb_refl.
  - now rewrite IH.
Qed.

Lemma str_map_append (f : ascii -> ascii) (a b : string) :
  str_map f (a +++ b) = str_map f a +++ str_map f b.
Proof. induction a as [|c a IH]; simpl; auto. now rewrite IH. Qed.

Lemma replace_char_absent (a b : ascii) (s : string) :
  has_char a s = false -> replace_char a b s = s.
Proof.
  unfold replace_char. induction s as [|c s IH]; simpl; auto.
  intros H. apply orb_false_iff in H as [Hc Hs]. now rewrite Hc, (IH Hs).
Qed.

Lemma replace_char_removes (s : string) : has_char "/" (replace_char "/" "_" s) = false.
Proof.
  unfold replace_char. induction s as [|c s IH]; simpl; auto.
  rewrite IH. destruct (Ascii.eqb c "/") eqn:E; simpl; [reflexivity|]. now rewrite E.
Qed.

Lemma has_char_append (c : ascii) (a b : string) :
  has_char c (a +++ b) = has_char c a || has_char c b.
Proof. induction a as [|x a IH]; simpl; auto. now rewrite IH, orb_assoc. Qed.

Lemma stem_of_name_ext (name ext : string) :
  is_nil name = false -> is_nil ext = false -> has_char "." ext = false ->
  stem_of_name (name +++ "." +++ ext) = name.
Proof.
  intros Hn He Hd. unfold stem_of_name.
  change (name +++ "." +++ ext) with (name +++ String "." ext).
  now rewrite (rsplit_at_last "." name ext Hd), Hn, He.
Qed.

Lemma is_name_parts (s : string) :
  is_name s = true -> is_nil s = false /\ has_char "/" s = false.
Proof.
  unfold is_name. intros H. apply andb_prop in H as [H1 H2].
  now rewrite negb_true_iff in H1, H2.
Qed.

Lemma is_extension_parts (s : string) :
  is_extension s = true ->
  is_nil s = false /\ has_char "/" s = false /\ has_char "." s = false.
Proof.
  unfold is_extension. intros H. apply andb_prop in H as [H12 H3].
  apply andb_prop in H12 as [H1 H2].
  now rewrite negb_true_iff in H1, H2, H3.
Qed.

Lemma file_has_no_slash (name ext : string) :
  has_char "/" name = false -> has_char "/" ext = false ->
  has_char "/" (name +++ "." +++ ext) = false.
Proof.
  intros Hn He. rewrite !has_char_append, Hn, He. reflexivity.
Qed.

Lemma split_file_path (dir name ext : string) :
  has_char "/" name = false -> has_char "/" ext = false ->
  rsplit_at "/" (path_join dir (name +++ "." +++ ext))
  = Some (dir, name +++ "." +++ ext).
Proof.
  intros Hs Hes. unfold path_join.
  change (dir +++ "/" +++ name +++ "." +++ ext)
    with (dir +++ String "/" (name +++ "." +++ ext)).
  apply rsplit_at_last. now apply file_has_no_slash.
Qed.

Lemma directory_sample_name_nested (dir name ext : string) :
  is_name name = true -> is_extension ext = true ->
  directory_sample_name (path_join dir (name +++ "." +++ ext))
  = replace_char "/" "_" dir +++ "_" +++ name.
Proof.
  intros Hname Hext.
  apply is_name_parts in Hname as [Hn Hs].
  apply is_extension_parts in Hext as [He [Hes Hed]].
  unfold directory_sample_name, with_suffix_empty.
  rewrite (split_file_path dir name ext Hs Hes).
  rewrite (stem_of_name_ext name ext Hn He Hed).
  unfold path_join, replace_char. rewrite !str_map_append.
  fold (replace_char "/" "_" name). now rewrite (replace_char_absent "/" "_" name Hs).
Qed.

Lemma directory_sample_name_flat (name ext : string) :
  is_name name = true -> is_extension ext = true ->
  directory_sample_name (name +++ "." +++ ext) = name.
Proof.
  intros Hname Hext.
  apply is_name_parts in Hname as [Hn Hs].
  apply is_extension_parts in Hext as [He [Hes Hed]].
  unfold directory_sample_name, with_suffix_empty.
  rewrite (rsplit_at_none "/" _ (file_has_no_slash name ext Hs Hes)).
  rewrite (stem_of_name_ext name ext Hn He Hed).
  now apply replace_char_absent.
Qed.

(** X16. For a file [<dir>/<name>.<ext>], with a proper name and extension:
    [batch_analyze] names the sample [<name>], whatever the directory; and
    [process_directory_structure], given the path relative to its base,
    names it [<dir>] with every slash turned into an underscore, then an
    underscore, then [<name>].  A sample name of
    [process_directory_structure] never holds a slash, and the relative path
    of a file found under the base is recovered from its full path. *)
Theorem sample_names (dir name ext : string) :
  is_name name = true ->
  is_extension ext = true ->
  stem (path_join dir (name +++ "." +++ ext)) = name
  /\ directory_sample_name (path_join dir (name +++ "." +++ ext))
     = replace_char "/" "_" dir +++ "_" +++ name
  /\ directory_sample_name (name +++ "." +++ ext) = name
  /\ (forall rel, has_char "/" (directory_sample_name rel) = false)
  /\ (forall base rel, relative_to (path_join base rel) base = OK rel).
Proof.
  intros Hname Hext.
  split; [|split; [|split; [|split]]].
  - apply is_name_parts in Hname as [Hn Hs].
    apply is_extension_parts in Hext as [He [Hes Hed]].
    unfold stem. rewrite (split_file_path dir name ext Hs Hes).
    now apply stem_of_name_ext.
  - now apply directory_sample_name_nested.
  - now apply directory_sample_name_flat.
  - intros rel. apply replace_char_removes.
  - intros base rel. apply relative_to_join.
Qed.

(** X17. The sample names of [process_directory_structure] can collide: the
    file [<dir>/<name>.<ext>] in a sub-directory and the file
    [<dir>_<name>.<ext>] directly under the base are different files with the
    same sample name, hence the same output directory and file names. *)
Theorem directory_sample_names_collide (dir name ext : string) :
  is_name dir = true ->
  is_name name = true ->
  is_extension ext = true ->
  let nested := path_join dir (name +++ "." +++ ext) in
  let flat := (dir +++ "_" +++ name) +++ "." +++ ext in
  nested <> flat
  /\ directory_sample_name nested = directory_sample_name flat.
Proof.
  intros Hdir Hname Hext nested flat. subst nested flat.
  pose proof (is_name_parts dir Hdir) as [Hdn Hds].
  pose proof (is_name_parts name Hname) as [Hn Hs].
  pose proof (is_extension_parts ext Hext) as [He [Hes Hed]].
  split.
  - intros Heq. apply (f_equal (has_char "/")) in Heq.
    unfold path_join in Heq. rewrite !has_char_append, Hds, Hs, Hes in Heq.
    discriminate.
  - assert (Hflat : is_name (dir +++ "_" +++ name) = true).
    { unfold is_name. rewrite !has_char_append, Hds, Hs.
      destruct dir; [discriminate|reflexivity]. }
    rewrite (directory_sample_name_nested dir name ext Hname Hext).
    rewrite (directory_sample_name_flat (dir +++ "_" +++ name) ext Hflat Hext).
    now rewrite (replace_char_absent "/" "_" dir Hds).
Qed.

Lemma sample_names_witness :
  stem (path_join "in/condA" ("DEGs_x.v2" +++ "." +++ "xlsx")) = "DEGs_x.v2"
  /\ directory_sample_name (path_join "condA/day1" ("DEGs_x" +++ "." +++ "xlsx"))
     = "condA_day1_DEGs_x".
Proof.
  destruct (sample_names "in/condA" "DEGs_x.v2" "xlsx" eq_refl eq_refl) as [H1 _].
  destruct (sample_names "condA/day1" "DEGs_x" "xlsx" eq_refl eq_refl) as [_ [H2 _]].
  split; assumption.
Defined.

Lemma directory_sample_names_collide_witness :
  "condA/DEGs.xlsx" <> "condA_DEGs.xlsx"
  /\ directory_sample_name "condA/DEGs.xlsx" = directory_sample_name "condA_DEGs.xlsx".
Proof.
  exact (directory_sample_names_collide "condA" "DEGs" "xlsx" eq_refl eq_refl eq_refl).
Defined.

(** ** Chart failures, the quick command and the template *)

Section Commands2.

Variable w : World.

(** X18. The chart function catches nothing.  An exception while preparing
    either table leaves it before anything is drawn; an exception of the
    drawing calls leaves it before the chart is saved; an exception of
    [savefig] leaves it as well; and [Plot saved to ...] is logged only after
    a save that succeeded. *)
Theorem create_comparison_plot_catches_nothing (self : EnrichmentAnalyzer)
    (up_results down_results : DataFrame) (plot_title filename : string) (top_n : Z)
    (h : history) :
  let run := create_comparison_plot w self up_results down_results plot_title filename
               top_n h in
  let plot_path := path_join (path_join (output_dir self) "plots") (filename +++ ".png") in
  match up_plot_data w up_results top_n, down_plot_data w down_results top_n with
  | Raise e, _ => run = (Raise e, [])
  | OK _, Raise e => run = (Raise e, [])
  | OK up, OK down =>
      df_empty up && df_empty down = false ->
      let data := concat up down in
      match barplot w h data plot_title with
      | Raise e => run = (Raise e, [EvBarplot data plot_title])
      | OK _ =>
          match savefig w (h ++ [EvBarplot data plot_title]) plot_path with
          | Raise e => run = (Raise e, [EvBarplot data plot_title; EvSavefig plot_path])
          | OK _ =>
              run = (OK tt, [EvBarplot data plot_title; EvSavefig plot_path;
                             EvLog INFO ("Plot saved to " +++ plot_path)])
          end
      end
  end.
Proof.
  intros run plot_path. subst run. unfold create_comparison_plot.
  destruct (up_plot_data w up_results top_n) as [up|e]; [|reflexivity].
  destruct (down_plot_data w down_results top_n) as [down|e]; [|reflexivity].
  intros Hne. cbv zeta. fold plot_path.
  unfold bind, lift, interact, log, emit.
  rewrite Hne, (concat_nonempty up down Hne). cbn [negb app].
  rewrite !app_nil_r.
  destruct (barplot w h (concat up down) plot_title) as [[]|e]; [|reflexivity].
  destruct (savefig w (h ++ [EvBarplot (concat up down) plot_title]) plot_path)
    as [[]|e]; reflexivity.
Qed.

Lemma quick_items_return (items : dict value) (h : history) :
  exists d,
    for_each items
      (fun item _ =>
         if contains "significant" (fst item) && is_int (snd item) then
           print (title (replace_char "_" " " (fst item)) +++ ": " +++ str_value (snd item))
         else ret tt)
      tt h = (OK tt, d).
Proof.
  apply for_each_returns. intros item _ h0.
  destruct (contains "significant" (fst item) && is_int (snd item)); eexists; reflexivity.
Qed.

(** The report of [quick_analysis] on a record the analyzer can return. *)
Lemma quick_report_returns (result : dict value) (h : history) :
  (exists e, result = load_failure_record e)
  \/ (exists name n_up n_down counts, result = success_record name n_up n_down counts) ->
  exists d,
    (ok <- lift (is_success result) ;;
     (if ok : bool then
        print (nl +++ "✓ Analysis completed successfully!") ;;
        up <- lift (getitem result "up_genes_count") ;;
        print ("Upregulated genes: " +++ str_value up) ;;
        down <- lift (getitem result "down_genes_count") ;;
        print ("Downregulated genes: " +++ str_value down) ;;
        for_each result
          (fun item _ =>
             if contains "significant" (fst item) && is_int (snd item) then
               print (title (replace_char "_" " " (fst item)) +++ ": "
                      +++ str_value (snd item))
             else ret tt)
          tt
      else
        print ("✗ Analysis failed: "
               +++ str_value (dict_get_default result "error" (VStr "Unknown error")))) ;;
     ret result) h = (OK result, d)
    /\ forall e, result = load_failure_record e ->
                 d = [EvPrint ("✗ Analysis failed: " +++ str_exn e)].
Proof.
  intros [[e ->]|[name [n_up [n_down [counts ->]]]]].
  - eexists. split; [reflexivity|]. intros e' He.
    unfold load_failure_record in He. injection He as He. cbn. now rewrite He.
  - set (r := success_record name n_up n_down counts).
    rewrite (bind_returned _ _ h true []) by reflexivity. cbv iota.
    assert (Hrep : exists d,
               (print (nl +++ "✓ Analysis completed successfully!") ;;
                up <- lift (getitem r "up_genes_count") ;;
                print ("Upregulated genes: " +++ str_value up) ;;
                down <- lift (getitem r "down_genes_count") ;;
                print ("Downregulated genes: " +++ str_value down) ;;
                for_each r
                  (fun item _ =>
                     if contains "significant" (fst item) && is_int (snd item) then
                       print (title (replace_char "_" " " (fst item)) +++ ": "
                              +++ str_value (snd item))
                     else ret tt)
                  tt) (h ++ []) = (OK tt, d)).
    { rewrite (bind_returned _ _ _ tt
                 [EvPrint (nl +++ "✓ Analysis completed successfully!")])
        by reflexivity.
      rewrite (bind_returned _ _ _ (VInt n_up) []) by reflexivity.
      rewrite (bind_returned _ _ _ tt [EvPrint ("Upregulated genes: " +++ str_nat n_up)])
        by reflexivity.
      rewrite (bind_returned _ _ _ (VInt n_down) []) by reflexivity.
      rewrite (bind_returned _ _ _ tt
                 [EvPrint ("Downregulated genes: " +++ str_nat n_down)])
        by reflexivity.
      match goal with
      | |- context [for_each r ?body tt ?h1] =>
          destruct (quick_items_return r h1) as [d Hd]
      end.
      rewrite Hd. eexists. reflexivity. }
    destruct Hrep as [d Hd].
    rewrite (bind_returned _ _ _ _ _ Hd).
    eexists. split; [reflexivity|].
    intros e He. discriminate.
Qed.

(** X19. [quick_analysis] names the sample after the stem of the file when
    no name is given, builds a human analyzer, and ends exactly as the
    analysis of the sample ends: it returns the record the analyzer returned,
    or raises what the constructor or the analyzer raised; its own report
    never raises.  After a failed load the last line it prints is
    [Analysis failed:] with the error text. *)
Theorem quick_analysis_ends_as_analysis (xlsx_file : string) (sample_name : option string)
    (output_dir : string) (h : history) :
  let name := match sample_name with
              | None => stem xlsx_file
              | Some n => n
              end in
  let h3 := h ++ [EvPrint ("Running quick analysis on: " +++ xlsx_file);
                  EvPrint ("Sample name: " +++ name);
                  EvPrint ("Output directory: " +++ output_dir)] in
  let run := quick_analysis w xlsx_file sample_name output_dir h in
  match new_analyzer w "human" output_dir h3 with
  | (Raise e, _) => fst run = Raise e
  | (OK analyzer, d0) =>
      let analysis := analyze_sample w analyzer xlsx_file name "gene" "regulation"
                        default_p_threshold (h3 ++ d0) in
      fst run = fst analysis
      /\ forall e, fst analysis = OK (load_failure_record e) ->
           exists d, snd run = d ++ [EvPrint ("✗ Analysis failed: " +++ str_exn e)]
  end.
Proof.
  intros name h3 run. subst run. unfold quick_analysis. fold name.
  rewrite (bind_returned _ _ h tt [EvPrint ("Running quick analysis on: " +++ xlsx_file)])
    by reflexivity.
  rewrite (bind_returned _ _ _ tt [EvPrint ("Sample name: " +++ name)]) by reflexivity.
  rewrite (bind_returned _ _ _ tt [EvPrint ("Output directory: " +++ output_dir)])
    by reflexivity.
  rewrite <- !app_assoc. cbn [app]. fold h3.
  destruct (new_analyzer w "human" output_dir h3) as [[analyzer|e] d0] eqn:En.
  - rewrite (bind_returned _ _ _ _ _ En). cbv zeta.
    destruct (analyze_sample w analyzer xlsx_file name "gene" "regulation"
                default_p_threshold (h3 ++ d0)) as [[r|e] d1] eqn:Ea.
    + rewrite (bind_returned _ _ _ _ _ Ea).
      pose proof (f_equal fst Ea) as Hr. cbn [fst] in Hr.
      apply analyze_sample_returns in Hr.
      destruct (quick_report_returns r ((h3 ++ d0) ++ d1)) as [d [Hd Hlast]].
      { destruct Hr as [Hr|[n_up [n_down [counts [_ Hr]]]]]; [now left|right].
        now exists name, n_up, n_down, counts. }
      rewrite Hd. cbn [fst snd]. split; [reflexivity|].
      intros e He. injection He as ->. rewrite (Hlast e eq_refl).
      exists ([EvPrint ("Running quick analysis on: " +++ xlsx_file);
               EvPrint ("Sample name: " +++ name);
               EvPrint ("Output directory: " +++ output_dir)] ++ d0 ++ d1).
      rewrite <- !app_assoc. reflexivity.
    + rewrite (bind_raised _ _ _ _ _ Ea). cbn [fst snd].
      split; [reflexivity|]. intros e' He'. discriminate.
  - now rewrite (bind_raised _ _ _ _ _ En).
Qed.

(** X20. The template that [create_template_xlsx] writes is valid input for
    the loader with its default columns: read back, it gives the three
    up-regulated and the two down-regulated genes of the template.  It loads
    only through its regulation column: asked for a regulation column that
    the template does not have, the loader raises
    [KeyError('log2FoldChange')], because the template names its fold change
    [avg_log2FC]. *)
Theorem template_loads (h h' : history) (file_path : string) :
  In (EvToExcel "template_DEGs.xlsx" template_df) (snd (create_template_xlsx w h))
  /\ (read_excel w h' file_path = OK template_df ->
      fst (load_degs w file_path "gene" "regulation" h')
      = OK ([CStr "gene1"; CStr "gene3"; CStr "gene5"], [CStr "gene2"; CStr "gene4"])
      /\ forall regulation_col,
           mem regulation_col (columns template_df) = false ->
           fst (load_degs w file_path "gene" regulation_col h')
           = Raise (KeyError "log2FoldChange")).
Proof.
  split.
  - unfold create_template_xlsx, bind, interact.
    destruct (to_excel w h "template_DEGs.xlsx" template_df) as [[]|e]; simpl; auto.
  - intros Hread. split.
    + unfold load_degs, try_except, bind, interact, lift, log, emit, ret.
      rewrite Hread. reflexivity.
    + intros regulation_col Hr.
      unfold load_degs, try_except, bind, interact, lift, log, emit, ret, raise.
      rewrite Hread. unfold derive_regulation. rewrite Hr. reflexivity.
Qed.

End Commands2.

(** In the world whose disk is full the first chart of a sample is drawn but
    cannot be saved. *)
Lemma create_comparison_plot_catches_nothing_witness :
  fst (create_comparison_plot Cases.world Scenario.analyzer Scenario.provider_table
         empty_frame "s1 - GO Biological Process" "s1_GO_biological_process"
         default_top_n [])
  = Raise (External "No space left on device").
Proof.
  exact (f_equal fst
           (create_comparison_plot_catches_nothing Cases.world Scenario.analyzer
              Scenario.provider_table empty_frame "s1 - GO Biological Process"
              "s1_GO_biological_process" default_top_n [] eq_refl)).
Defined.

(** The template, read back under the name it was written to. *)
Lemma template_loads_witness :
  fst (load_degs Cases.world "template_DEGs.xlsx" "gene" "regulation" [])
  = OK ([CStr "gene1"; CStr "gene3"; CStr "gene5"], [CStr "gene2"; CStr "gene4"])
  /\ fst (load_degs Cases.world "template_DEGs.xlsx" "gene" "direction" [])
     = Raise (KeyError "log2FoldChange").
Proof.
  destruct (proj2 (template_loads Cases.world [] [] "template_DEGs.xlsx") eq_refl)
    as [H1 H2].
  split; [exact H1|]. exact (H2 "direction" eq_refl).
Defined.

(** ** The further properties on concrete runs *)

(** The sample with a regulation column: two genes up, one down, one
    significant term in each category but KEGG. *)
Lemma analyze_sample_success_record_witness :
  exists counts,
    List.length counts = 10
    /\ fst (analyze_sample Scenario.world Scenario.analyzer "in/s1.xlsx" "s1" "gene"
              "regulation" default_p_threshold [])
       = OK (success_record "s1" 2 1 counts).
Proof.
  destruct (analyze_sample_success_record Scenario.world Scenario.analyzer "in/s1.xlsx"
              "s1" "gene" "regulation" default_p_threshold []
              [CStr "tp53"; CStr "egfr"] [CStr "myc"]
              (success_record "s1" 2 1 [1; 1; 1; 1; 1; 1; 1; 1; 0; 0])
              eq_refl eq_refl eq_refl) as [counts [Hlen [Hrec _]]].
  exists counts. split; [exact Hlen|].
  transitivity (OK (success_record "s1" 2 1 [1; 1; 1; 1; 1; 1; 1; 1; 0; 0]));
    [reflexivity|].
  f_equal. exact Hrec.
Defined.

(** The table labelled [up] and [down]: no gene is recognised, nothing is
    asked of the provider, and the sample is a success with zero counts. *)
Lemma analyze_sample_without_results_witness :
  fst (analyze_sample Cases.world Scenario.analyzer "in/unlabelled.xlsx" "unlabelled"
         "gene" "regulation" default_p_threshold [])
  = OK (success_record "unlabelled" 0 0 (repeat 0 10)).
Proof.
  exact (proj1 (analyze_sample_without_results Cases.world Scenario.analyzer
                  "in/unlabelled.xlsx" "unlabelled" "gene" "regulation"
                  default_p_threshold [] [] [] eq_refl eq_refl
                  (or_introl (conj eq_refl eq_refl)))).
Defined.

(** One failed load, one exception and one success: one success, two
    failures. *)
Lemma print_statistics_counts_witness :
  exists rest,
    print_statistics
      [load_failure_record (External "File is not a zip file");
       failed_record "s0" (External "Permission denied");
       success_record "s1" 2 1 (repeat 1 10)] []
    = (OK tt,
       EvPrint "Successful analyses: 1" :: EvPrint "Failed analyses: 2" :: rest).
Proof.
  refine (proj2 (print_statistics_counts
                   [load_failure_record (External "File is not a zip file");
                    failed_record "s0" (External "Permission denied");
                    success_record "s1" 2 1 (repeat 1 10)] [] _)).
  apply Forall_cons; [left; now eexists|].
  apply Forall_cons; [right; left; now eexists _, _|].
  apply Forall_cons; [right; right; now eexists _, _, _, _|].
  apply Forall_nil.
Defined.

(** A directory in which the pattern matches nothing. *)
Lemma batch_analyze_no_files_witness :
  batch_analyze Cases.world Scenario.analyzer "in" "*.csv" "gene" "regulation"
    default_p_threshold []
  = (OK [],
     [EvGlob false "in" "*.csv";
      EvLog ERROR "No XLSX files found in in with pattern *.csv"]).
Proof.
  exact (batch_analyze_no_files Cases.world Scenario.analyzer "in" "*.csv" "gene"
           "regulation" default_p_threshold [] eq_refl).
Defined.

(** ** The counts of a sample *)

(** Looks a key up in a store built by [keep], whatever the queries gave. *)
Ltac lookup_store :=
  cbn [String.append];
  repeat match goal with
         | |- context [query_result ?a ?o ?g ?l] =>
             generalize (query_result a o g l); intro
         end;
  repeat match goal with
         | x : option Enrichr |- _ => destruct x
         end;
  reflexivity.

Section Counts.

Variable w : World.
Variable answer : list cell -> list string -> string -> Exc Enrichr.
Hypothesis Hanswer : answers_with w answer.

Lemma run_enrichment_answer (self : EnrichmentAnalyzer) (gene_list : list cell)
    (library analysis_name : string) (h : history) :
  fst (run_enrichment w self gene_list [library] analysis_name h)
  = OK (query_result answer (organism self) gene_list library).
Proof.
  destruct Hanswer as [Hdet _].
  unfold run_enrichment, query_result, log, bind, try_except, emit, interact, ret.
  destruct gene_list as [|g gs]; [reflexivity|].
  rewrite Hdet. destruct (answer (g :: gs) [library] (organism self)); reflexivity.
Qed.

(** One turn of a query loop keeps the two results under their keys. *)
Lemma query_turn_store (self : EnrichmentAnalyzer) (up_genes down_genes : list cell)
    (library up_name down_name f1 f2 subdir k1 k2 : string) (store store' : dict DataFrame)
    (h : history) :
  fst ((up_enr <- run_enrichment w self up_genes [library] up_name ;;
        store1 <- match up_enr with
                  | Some e => save_results w self up_enr f1 subdir ;;
                              ret (dict_set store k1 (results e))
                  | None => ret store
                  end ;;
        down_enr <- run_enrichment w self down_genes [library] down_name ;;
        match down_enr with
        | Some e => save_results w self down_enr f2 subdir ;;
                    ret (dict_set store1 k2 (results e))
        | None => ret store1
        end) h) = OK store' ->
  store' = keep (keep store k1 (query_result answer (organism self) up_genes library))
                k2 (query_result answer (organism self) down_genes library).
Proof.
  intros H.
  apply bind_fst_returned in H as [up_enr [d1 [H1 H]]].
  apply (f_equal fst) in H1. rewrite run_enrichment_answer in H1. injection H1 as <-.
  apply bind_fst_returned in H as [store1 [d2 [H2 H]]].
  assert (Hs1 : store1 = keep store k1 (query_result answer (organism self) up_genes
                                          library)).
  { apply (f_equal fst) in H2. cbn [fst] in H2.
    destruct (query_result answer (organism self) up_genes library) as [enr|].
    - apply bind_fst_returned in H2 as [[] [d3 [_ H2]]]. now injection H2 as <-.
    - now injection H2 as <-. }
  subst store1.
  apply bind_fst_returned in H as [down_enr [d4 [H4 H]]].
  apply (f_equal fst) in H4. rewrite run_enrichment_answer in H4. injection H4 as <-.
  destruct (query_result answer (organism self) down_genes library) as [enr|].
  - apply bind_fst_returned in H as [[] [d5 [_ H]]]. now injection H as <-.
  - now injection H as <-.
Qed.

Lemma go_enrichment_store (self : EnrichmentAnalyzer) (sample_name : string)
    (up_genes down_genes : list cell) (h : history) (store : dict DataFrame) :
  fst (go_enrichment w self sample_name up_genes down_genes h) = OK store ->
  chain (fun go_type s0 s1 =>
           s1 = keep (keep s0 ("up_" +++ lower go_type)
                           (query_result answer (organism self) up_genes
                                         ("GO_" +++ go_type +++ "_2018")))
                     ("down_" +++ lower go_type)
                     (query_result answer (organism self) down_genes
                                   ("GO_" +++ go_type +++ "_2018")))
        ["Biological_Process"; "Molecular_Function"; "Cellular_Component"] [] store.
Proof.
  unfold go_enrichment. apply for_each_chain.
  intros go_type s0 h0 s1. apply query_turn_store.
Qed.

Lemma pathway_enrichment_store (self : EnrichmentAnalyzer) (sample_name : string)
    (up_genes down_genes : list cell) (h : history) (store : dict DataFrame) :
  fst (pathway_enrichment w self sample_name up_genes down_genes h) = OK store ->
  chain (fun pathway_db s0 s1 =>
           s1 = keep (keep s0 ("up_" +++ lower (split_head "_" pathway_db))
                           (query_result answer (organism self) up_genes pathway_db))
                     ("down_" +++ lower (split_head "_" pathway_db))
                     (query_result answer (organism self) down_genes pathway_db))
        ["WikiPathways_2018"; "KEGG_2019"] [] store.
Proof.
  unfold pathway_enrichment. apply for_each_chain.
  intros db s0 h0 s1. apply query_turn_store.
Qed.

(** Counting the significant rows of what a store holds for a query. *)
Lemma filtered_count (threshold : float) (res : option Enrichr) (u : DataFrame) :
  (forall enr, res = Some enr -> result_table (results enr) = true) ->
  filter_significant (Some match res with
                           | Some enr => results enr
                           | None => empty_frame
                           end) threshold = OK u ->
  List.length (rows u) = significant_count threshold res.
Proof.
  intros Hres H. destruct res as [enr|].
  - destruct (filter_significant_rows (results enr) threshold (Hres enr eq_refl))
      as [out [Hout [Hrows _]]].
    rewrite Hout in H. injection H as <-. now rewrite Hrows.
  - cbn in H. now injection H as <-.
Qed.

Lemma stored_count (threshold : float) (res : option Enrichr) (store : dict DataFrame)
    (key : string) (u : DataFrame) :
  (forall enr, res = Some enr -> result_table (results enr) = true) ->
  filter_significant (Some (dict_get_default store key empty_frame)) threshold = OK u ->
  dict_get_default store key empty_frame
  = match res with
    | Some enr => results enr
    | None => empty_frame
    end ->
  List.length (rows u) = significant_count threshold res.
Proof. intros Hres Hu Hget. rewrite Hget in Hu. now apply filtered_count. Qed.

Lemma query_result_table (o : string) (g : list cell) (library : string) (enr : Enrichr) :
  query_result answer o g library = Some enr -> result_table (results enr) = true.
Proof.
  destruct Hanswer as [_ Hres]. unfold query_result.
  destruct g as [|c g]; [discriminate|].
  destruct (answer (c :: g) [library] o) as [enr'|e] eqn:E; [|discriminate].
  intros H. injection H as <-. exact (Hres _ _ _ _ E).
Qed.

(** One turn of a plot loop, with the counts it sets. *)
Lemma plot_turn_counts (self : EnrichmentAnalyzer) (up_data down_data : DataFrame)
    (p_threshold : float) (t1 f1 t2 f2 k_up k_down : string) (s : dict value)
    (h : history) (s' : dict value) :
  fst ((up_data_filtered <- lift (filter_significant (Some up_data) p_threshold) ;;
        down_data_filtered <- lift (filter_significant (Some down_data) p_threshold) ;;
        create_comparison_plot w self up_data down_data t1 f1 default_top_n ;;
        create_comparison_plot w self up_data_filtered down_data_filtered t2 f2
          default_top_n ;;
        ret (dict_set (dict_set s k_up (VInt (List.length (rows up_data_filtered))))
                      k_down (VInt (List.length (rows down_data_filtered))))) h)
  = OK s' ->
  exists u d,
    filter_significant (Some up_data) p_threshold = OK u
    /\ filter_significant (Some down_data) p_threshold = OK d
    /\ s' = dict_set (dict_set s k_up (VInt (List.length (rows u))))
                     k_down (VInt (List.length (rows d))).
Proof.
  intros H.
  apply bind_fst_returned in H as [u [d1 [Hu H]]].
  apply bind_fst_returned in H as [d [d2 [Hd H]]].
  apply bind_fst_returned in H as [[] [d3 [_ H]]].
  apply bind_fst_returned in H as [[] [d4 [_ H]]].
  injection H as <-. exists u, d.
  unfold lift in Hu, Hd. injection Hu as Hu _. injection Hd as Hd _. auto.
Qed.

Lemma analyze_loaded_counts (self : EnrichmentAnalyzer) (sample_name : string)
    (p_threshold : float) (up_genes down_genes : list cell) (h : history)
    (r : dict value) :
  fst (analyze_loaded w self sample_name p_threshold up_genes down_genes h) = OK r ->
  r = success_record sample_name (List.length up_genes) (List.length down_genes)
        (flat_map (fun cat : string * string =>
                     [significant_count p_threshold
                        (query_result answer (organism self) up_genes (fst cat));
                      significant_count p_threshold
                        (query_result answer (organism self) down_genes (fst cat))])
                  categories).
Proof.
  unfold analyze_loaded. intros H.
  apply bind_fst_returned in H as [[] [d1 [_ H]]].
  apply bind_fst_returned in H as [go_results [d2 [Hgo H]]].
  apply bind_fst_returned in H as [[] [d3 [_ H]]].
  apply bind_fst_returned in H as [pathway_results [d4 [Hpw H]]].
  apply bind_fst_returned in H as [[] [d5 [_ H]]].
  apply bind_fst_returned in H as [s1 [d6 [Hgp H]]].
  apply bind_fst_returned in H as [s2 [d7 [Hpp H]]].
  apply bind_fst_returned in H as [[] [d8 [_ H]]].
  injection H as <-.
  apply (f_equal fst) in Hgo, Hpw, Hgp, Hpp. cbn [fst] in Hgo, Hpw, Hgp, Hpp.
  apply go_enrichment_store in Hgo. apply pathway_enrichment_store in Hpw.
  cbn [chain] in Hgo, Hpw.
  destruct Hgo as [ga [-> [gb [-> [gc [-> ->]]]]]].
  destruct Hpw as [pa [-> [pb [-> ->]]]].
  unfold go_plots in Hgp. unfold pathway_plots in Hpp.
  apply (for_each_chain
           (fun go_type s0 s' => _) _
           (fun go_type s0 h0 s' => plot_turn_counts self _ _ p_threshold _ _ _ _ _ _
                                      s0 h0 s')) in Hgp.
  apply (for_each_chain
           (fun db s0 s' => _) _
           (fun db s0 h0 s' => plot_turn_counts self _ _ p_threshold _ _ _ _ _ _
                                 s0 h0 s')) in Hpp.
  cbn [chain] in Hgp, Hpp.
  pose proof (query_result_table (organism self) up_genes) as Tu.
  pose proof (query_result_table (organism self) down_genes) as Td.
  clear Hanswer.
  destruct Hgp as [sa [[u1 [v1 [Hu1 [Hv1 ->]]]]
                  [sb [[u2 [v2 [Hu2 [Hv2 ->]]]]
                  [sc [[u3 [v3 [Hu3 [Hv3 ->]]]] ->]]]]]].
  destruct Hpp as [sd [[u4 [v4 [Hu4 [Hv4 ->]]]]
                  [se [[u5 [v5 [Hu5 [Hv5 ->]]]] ->]]]].
  cbn [categories flat_map app fst snd].
  assert (E1 : List.length (rows u1) = significant_count p_threshold
                   (query_result answer (organism self) up_genes "GO_Biological_Process_2018")).
  { apply (stored_count _ _ _ _ _ (Tu "GO_Biological_Process_2018") Hu1). lookup_store. }
  assert (E2 : List.length (rows v1) = significant_count p_threshold
                   (query_result answer (organism self) down_genes "GO_Biological_Process_2018")).
  { apply (stored_count _ _ _ _ _ (Td "GO_Biological_Process_2018") Hv1). lookup_store. }
  assert (E3 : List.length (rows u2) = significant_count p_threshold
                   (query_result answer (organism self) up_genes "GO_Molecular_Function_2018")).
  { apply (stored_count _ _ _ _ _ (Tu "GO_Molecular_Function_2018") Hu2). lookup_store. }
  assert (E4 : List.length (rows v2) = significant_count p_threshold
                   (query_result answer (organism self) down_genes "GO_Molecular_Function_2018")).
  { apply (stored_count _ _ _ _ _ (Td "GO_Molecular_Function_2018") Hv2). lookup_store. }
  assert (E5 : List.length (rows u3) = significant_count p_threshold
                   (query_result answer (organism self) up_genes "GO_Cellular_Component_2018")).
  { apply (stored_count _ _ _ _ _ (Tu "GO_Cellular_Component_2018") Hu3). lookup_store. }
  assert (E6 : List.length (rows v3) = significant_count p_threshold
                   (query_result answer (organism self) down_genes "GO_Cellular_Component_2018")).
  { apply (stored_count _ _ _ _ _ (Td "GO_Cellular_Component_2018") Hv3). lookup_store. }
  assert (E7 : List.length (rows u4) = significant_count p_threshold
                   (query_result answer (organism self) up_genes "WikiPathways_2018")).
  { apply (stored_count _ _ _ _ _ (Tu "WikiPathways_2018") Hu4). lookup_store. }
  assert (E8 : List.length (rows v4) = significant_count p_threshold
                   (query_result answer (organism self) down_genes "WikiPathways_2018")).
  { apply (stored_count _ _ _ _ _ (Td "WikiPathways_2018") Hv4). lookup_store. }
  assert (E9 : List.length (rows u5) = significant_count p_threshold
                   (query_result answer (organism self) up_genes "KEGG_2019")).
  { apply (stored_count _ _ _ _ _ (Tu "KEGG_2019") Hu5). lookup_store. }
  assert (E10 : List.length (rows v5) = significant_count p_threshold
                   (query_result answer (organism self) down_genes "KEGG_2019")).
  { apply (stored_count _ _ _ _ _ (Td "KEGG_2019") Hv5). lookup_store. }
  rewrite E1, E2, E3, E4, E5, E6, E7, E8, E9, E10. reflexivity.
Qed.

(** X21. The counts are right.  With a provider that answers from the
    request alone, and with tables whose adjusted p-values are numbers: when
    the analysis of a loaded sample returns, its record holds, for each of the
    five categories and each direction, the number of rows of the provider's
    answer for that query whose adjusted p-value is strictly below the
    threshold, and zero where the gene list is empty or the provider
    refused. *)
Theorem analyze_sample_counts (self : EnrichmentAnalyzer)
    (xlsx_path sample_name gene_col regulation_col : string) (p_threshold : float)
    (h : history) (up_genes down_genes : list cell) (r : dict value) :
  mkdir w (h ++ [EvLog INFO ("Starting analysis for sample: " +++ sample_name)])
        false (path_join (output_dir self) sample_name) = OK tt ->
  fst (load_degs w xlsx_path gene_col regulation_col
         (h ++ [EvLog INFO ("Starting analysis for sample: " +++ sample_name);
                EvMkdir false (path_join (output_dir self) sample_name)]))
  = OK (up_genes, down_genes) ->
  fst (analyze_sample w self xlsx_path sample_name gene_col regulation_col p_threshold h)
  = OK r ->
  r = success_record sample_name (List.length up_genes) (List.length down_genes)
        (flat_map (fun cat : string * string =>
                     [significant_count p_threshold
                        (query_result answer (organism self) up_genes (fst cat));
                      significant_count p_threshold
                        (query_result answer (organism self) down_genes (fst cat))])
                  categories).
Proof.
  intros Hmk Hload. unfold analyze_sample.
  rewrite (bind_returned _ _ h tt
             [EvLog INFO ("Starting analysis for sample: " +++ sample_name)])
    by reflexivity.
  cbn [fst]. unfold call_mkdir.
  rewrite (bind_returned _ _ _ tt
             [EvMkdir false (path_join (output_dir self) sample_name)])
    by (unfold interact; now rewrite Hmk).
  cbn [fst]. rewrite <- app_assoc. cbn [app].
  pose proof (load_or_fail_run w sample_name xlsx_path gene_col regulation_col
                (h ++ [EvLog INFO ("Starting analysis for sample: " +++ sample_name);
                       EvMkdir false (path_join (output_dir self) sample_name)])) as Hrun.
  destruct (load_degs w xlsx_path gene_col regulation_col _) as [[genes|e'] d];
    cbn [fst] in Hload; [|discriminate].
  injection Hload as ->.
  rewrite (bind_returned _ _ _ _ _ Hrun). cbn [fst].
  apply analyze_loaded_counts.
Qed.

End Counts.

(** The scenario's provider answers from the request alone. *)
Lemma analyze_sample_counts_witness :
  fst (analyze_sample Scenario.world Scenario.analyzer "in/s1.xlsx" "s1" "gene"
         "regulation" default_p_threshold [])
  = OK (success_record "s1" 2 1
          (flat_map (fun cat : string * string =>
                       [significant_count default_p_threshold
                          (query_result (enrichr Scenario.world []) "human"
                                        [CStr "tp53"; CStr "egfr"] (fst cat));
                        significant_count default_p_threshold
                          (query_result (enrichr Scenario.world []) "human"
                                        [CStr "myc"] (fst cat))])
                    categories)).
Proof.
  assert (Ha : answers_with Scenario.world (enrichr Scenario.world [])).
  { split; [reflexivity|].
    intros g s o enr. cbn [Scenario.world enrichr].
    destruct (mem "KEGG_2019" s); [discriminate|].
    intros H. injection H as <-. reflexivity. }
  refine (eq_trans (y := OK (success_record "s1" 2 1 [1; 1; 1; 1; 1; 1; 1; 1; 0; 0])) _
            (f_equal OK
               (analyze_sample_counts Scenario.world (enrichr Scenario.world []) Ha
                  Scenario.analyzer "in/s1.xlsx" "s1" "gene" "regulation"
                  default_p_threshold [] [CStr "tp53"; CStr "egfr"] [CStr "myc"]
                  (success_record "s1" 2 1 [1; 1; 1; 1; 1; 1; 1; 1; 0; 0])
                  eq_refl eq_refl eq_refl))).
  reflexivity.
Defined.
